(** * pyMEGAcmd: the process runner and the output decoders of the wrapper

    A shallow embedding of [lib/helper.py] and [lib/pyMEGAcmd.py] (with the
    older top-level [pyMEGAcmd.py] where it differs), followed by the
    properties of the specification that were checked against it.

    Conventions of the embedding.
    - A Python [str] is a [string]: one [ascii] per code point, so the text
      covered is the range U+0000..U+00FF.  The character classes used by
      [str.strip], [str.splitlines] and the [re] module are Python's Unicode
      definitions restricted to that range.
    - An exception is a value of [exn]; a method that can raise returns an
      [outcome].
    - A method of [MEGAcmdWrapper] is a computation of the monad [M], which
      threads the wrapper object ([self]) and the operating system ([World]).
    - Calls to [LOGGER] and [print] produce no value the methods use and are
      left out. *)

From Stdlib Require Import String Ascii List Bool Arith ZArith Lia.
From Stdlib Require Import DecimalString.
From Stdlib Require Import Floats.SpecFloat.
Import ListNotations.
Local Open Scope list_scope.
Local Open Scope string_scope.

Set Implicit Arguments.

(** ** Python string operations *)

Module PyStr.

(** A set of characters given as a string, as in [s.lstrip(" \n")]. *)
Fixpoint mem (c : ascii) (chars : string) : bool :=
  match chars with
  | EmptyString => false
  | String d rest => Ascii.eqb c d || mem c rest
  end.

Definition code (c : ascii) : nat := nat_of_ascii c.

(** [str.isspace] for one character (Unicode White_Space and the
    bidirectional types WS, B, S), below U+0100: TAB..CR, FS..US, SPACE,
    NEL and NBSP. *)
Definition isspace (c : ascii) : bool :=
  let n := code c in
  (((9 <=? n) && (n <=? 13)) || ((28 <=? n) && (n <=? 32))
   || (n =? 133) || (n =? 160))%nat.

(** [str.isdecimal]: the only decimal digits below U+0100 are 0..9. *)
Definition isdigit (c : ascii) : bool :=
  let n := code c in ((48 <=? n) && (n <=? 57))%nat.

(** [s.lstrip(chars)] with the set of characters as a predicate. *)
Fixpoint lstrip_by (p : ascii -> bool) (s : string) : string :=
  match s with
  | EmptyString => EmptyString
  | String c rest => if p c then lstrip_by p rest else s
  end.

(** [s.rstrip(chars)]: the characters of the set are dropped from the
    right end; a character is kept as soon as something is kept after it. *)
Fixpoint rstrip_by (p : ascii -> bool) (s : string) : string :=
  match s with
  | EmptyString => EmptyString
  | String c rest =>
      match rstrip_by p rest with
      | EmptyString => if p c then EmptyString else String c EmptyString
      | kept => String c kept
      end
  end.

Definition lstrip (chars s : string) : string :=
  lstrip_by (fun c => mem c chars) s.
Definition rstrip (chars s : string) : string :=
  rstrip_by (fun c => mem c chars) s.

(** [s.strip()] *)
Definition strip (s : string) : string :=
  lstrip_by isspace (rstrip_by isspace s).

(** [s.startswith(pre)] *)
Definition startswith (s pre : string) : bool := prefix pre s.

(** [s.endswith(suf)]: some suffix of [s] is [suf]. *)
Fixpoint endswith (s suf : string) : bool :=
  String.eqb s suf ||
  match s with
  | EmptyString => false
  | String _ rest => endswith rest suf
  end.

(** [sub in s] *)
Fixpoint contains (s sub : string) : bool :=
  prefix sub s ||
  match s with
  | EmptyString => false
  | String _ rest => contains rest sub
  end.

(** [s[n:]] *)
Fixpoint drop (n : nat) (s : string) : string :=
  match n, s with
  | O, _ => s
  | S n', EmptyString => EmptyString
  | S n', String _ rest => drop n' rest
  end.

(** [s[:n]] *)
Fixpoint take (n : nat) (s : string) : string :=
  match n, s with
  | O, _ => EmptyString
  | S n', EmptyString => EmptyString
  | S n', String c rest => String c (take n' rest)
  end.

(** [s[lo:hi]] for [0 <= lo <= hi]; out-of-range bounds are clamped. *)
Definition slice (lo hi : nat) (s : string) : string :=
  take (hi - lo) (drop lo s).

(** The line boundaries of [str.splitlines] below U+0100: LF, VT, FF, CR,
    FS, GS, RS and NEL ([CR LF] counts as one boundary). *)
Definition islinebreak (c : ascii) : bool :=
  let n := code c in
  (((10 <=? n) && (n <=? 13)) || ((28 <=? n) && (n <=? 30))
   || (n =? 133))%nat.

Definition is_cr (c : ascii) : bool := (code c =? 13)%nat.
Definition is_lf (c : ascii) : bool := (code c =? 10)%nat.

(** [splitlines_from cur s]: the lines of [s], where [cur] holds (reversed)
    the characters of the line being read.  A last line without a
    terminator is kept unless it is empty. *)
Fixpoint splitlines_from (cur : list ascii) (s : string) : list string :=
  match s with
  | EmptyString =>
      match cur with
      | [] => []
      | _ => [string_of_list_ascii (rev cur)]
      end
  | String c rest =>
      if islinebreak c then
        string_of_list_ascii (rev cur) ::
        (if is_cr c then
           match rest with
           | String d rest' =>
               if is_lf d then splitlines_from [] rest'
               else splitlines_from [] rest
           | EmptyString => []
           end
         else splitlines_from [] rest)
      else splitlines_from (c :: cur) rest
  end.

(** [s.splitlines()] *)
Definition splitlines (s : string) : list string := splitlines_from [] s.

End PyStr.

Import PyStr.

(** ** lib/helper.py *)

(** [CMDResult]: what one run of the external binary produced. *)
Record CMDResult := mkCMDResult {
  stdout : string;
  stderr : string;
  return_code : Z
}.

(** [clean_remote_path] *)
Definition clean_remote_path (remote_path : string)
    (ensure_trailing_slash : bool) : string :=
  let p := lstrip (" " ++ String "010" "") remote_path in
  let p := if startswith p "./" then drop 2 p else p in
  if ensure_trailing_slash && negb (endswith p "/") then p ++ "/" else p.

(** [clean_local_path] *)
Definition clean_local_path (local_path : string)
    (ensure_trailing_slash : bool) : string :=
  let p := lstrip (" " ++ String "010" "") local_path in
  let p := rstrip "/" p in
  if ensure_trailing_slash && negb (endswith p "/") then p ++ "/" else p.

(** ** The part of Python's [re] module the wrapper uses

    Every pattern of [MEGAcmdWrapper] is a sequence of literal characters,
    character classes, [class+] and [class+?] repetitions, the anchors [^]
    and [$], and capture groups that are not nested.  The matcher is the
    backtracking matcher of [re] on that fragment: a greedy repetition tries
    the longest run first, a lazy one the shortest, and the first success is
    the result.  No flag is set: [^] matches at offset 0 only, [$] at the end
    or before a final line feed, and [.] matches anything but a line feed.
    Groups are recorded when they close, which for groups that are not nested
    is the order of their opening parentheses. *)

Module Re.

Inductive regex : Type :=
| Eps
| Chr (c : ascii)
| Cls (p : ascii -> bool)
| Plus (p : ascii -> bool)
| PlusLazy (p : ascii -> bool)
| Bol
| Eol
| Grp (r : regex)
| Seq (r1 r2 : regex).

(** A literal string. *)
Fixpoint Str (s : string) : regex :=
  match s with
  | EmptyString => Eps
  | String c rest => Seq (Chr c) (Str rest)
  end.

(** The concatenation of the parts of a pattern. *)
Definition cat (parts : list regex) : regex := fold_right Seq Eps parts.

(** The state of a match: the offset in the subject, the rest of the
    subject, and the groups closed so far. *)
Definition cont : Type := nat -> string -> list string -> option (list string).

(** [class+] after its first character: longest run first. *)
Fixpoint more_greedy (p : ascii -> bool) (k : cont) (i : nat) (s : string)
    (cs : list string) : option (list string) :=
  match s with
  | String c rest =>
      if p c then
        match more_greedy p k (S i) rest cs with
        | Some r => Some r
        | None => k i s cs
        end
      else k i s cs
  | EmptyString => k i s cs
  end.

(** [class+?] after its first character: shortest run first. *)
Fixpoint more_lazy (p : ascii -> bool) (k : cont) (i : nat) (s : string)
    (cs : list string) : option (list string) :=
  match k i s cs with
  | Some r => Some r
  | None =>
      match s with
      | String c rest => if p c then more_lazy p k (S i) rest cs else None
      | EmptyString => None
      end
  end.

Fixpoint rmatch (r : regex) (k : cont) (i : nat) (s : string)
    (cs : list string) : option (list string) :=
  match r with
  | Eps => k i s cs
  | Chr c =>
      match s with
      | String d rest => if Ascii.eqb c d then k (S i) rest cs else None
      | EmptyString => None
      end
  | Cls p =>
      match s with
      | String d rest => if p d then k (S i) rest cs else None
      | EmptyString => None
      end
  | Plus p =>
      match s with
      | String d rest => if p d then more_greedy p k (S i) rest cs else None
      | EmptyString => None
      end
  | PlusLazy p =>
      match s with
      | String d rest => if p d then more_lazy p k (S i) rest cs else None
      | EmptyString => None
      end
  | Bol => if (i =? 0)%nat then k i s cs else None
  | Eol =>
      match s with
      | EmptyString => k i s cs
      | String d EmptyString => if is_lf d then k i s cs else None
      | String _ _ => None
      end
  | Grp body =>
      rmatch body (fun i' s' cs' => k i' s' (cs' ++ [take (i' - i) s])%list) i s cs
  | Seq r1 r2 => rmatch r1 (rmatch r2 k) i s cs
  end.

Definition accept : cont := fun _ _ cs => Some cs.

(** [pattern.match(s)]: the groups of the match at offset 0, [None] when
    there is none. *)
Definition py_match (r : regex) (s : string) : option (list string) :=
  rmatch r accept 0 s [].

(** [pattern.search(s)]: the groups of the leftmost match. *)
Fixpoint search_from (r : regex) (i : nat) (s : string)
    : option (list string) :=
  match rmatch r accept i s [] with
  | Some gs => Some gs
  | None =>
      match s with
      | String _ rest => search_from r (S i) rest
      | EmptyString => None
      end
  end.

Definition py_search (r : regex) (s : string) : option (list string) :=
  search_from r 0 s.

(** Character classes. *)
Definition only (c : ascii) : ascii -> bool := fun d => Ascii.eqb d c.
Definition isnot (chars : string) : ascii -> bool := fun d => negb (mem d chars).
(** [.] *)
Definition dot : ascii -> bool := fun d => negb (is_lf d).
(** [\s] *)
Definition space : ascii -> bool := isspace.
(** [\d] *)
Definition digit : ascii -> bool := isdigit.
(** [\w]: [str.isalnum] or the underscore; below U+0100 the letters and
    digits, and the letters, superscripts and fractions of Latin-1. *)
Definition word : ascii -> bool := fun d =>
  let n := code d in
  (((48 <=? n) && (n <=? 57)) || ((65 <=? n) && (n <=? 90))
   || ((97 <=? n) && (n <=? 122)) || (n =? 95)
   || (n =? 170) || (n =? 178) || (n =? 179) || (n =? 181)
   || (n =? 185) || (n =? 186) || ((188 <=? n) && (n <=? 190))
   || ((192 <=? n) && (n <=? 214)) || ((216 <=? n) && (n <=? 246))
   || (248 <=? n))%nat.

(** What a pattern can match, anchors apart. *)
Fixpoint lang (r : regex) (w : string) : Prop :=
  match r with
  | Eps | Bol | Eol => w = EmptyString
  | Chr c => w = String c EmptyString
  | Cls p => exists c, w = String c EmptyString /\ p c = true
  | Plus p | PlusLazy p =>
      w <> EmptyString /\ forallb p (list_ascii_of_string w) = true
  | Grp body => lang body w
  | Seq r1 r2 => exists w1 w2, w = w1 ++ w2 /\ lang r1 w1 /\ lang r2 w2
  end.

(** The bodies of the groups of a pattern, in the order they close. *)
Fixpoint groups (r : regex) : list regex :=
  match r with
  | Grp body => (groups body ++ [body])%list
  | Seq r1 r2 => (groups r1 ++ groups r2)%list
  | _ => []
  end.

End Re.

Import Re.

(** ** Exceptions and results *)

(** The text of an exception.  An f-string that interpolates a [CMDResult]
    keeps the result as it is instead of rendering its [repr]. *)
Inductive message : Type :=
| Msg (text : string)
| MsgRes (text : string) (res : CMDResult).

Inductive exn : Type :=
| RuntimeError (m : message)
| ValueError (m : message)
| AssertionError (m : message)
| NotImplementedError (m : message)
| FileNotFoundError (m : message)
| IndexError (m : message)
| OtherError (name : string).

Inductive outcome (A : Type) : Type :=
| Ok (a : A)
| Raise (e : exn).
Arguments Ok {A} a.
Arguments Raise {A} e.

Definition obind {A B} (o : outcome A) (f : A -> outcome B) : outcome B :=
  match o with
  | Ok a => f a
  | Raise e => Raise e
  end.

Notation "x <~ o ;; k" := (obind o (fun x => k))
  (at level 61, o at next level, right associativity).

Definition nl : string := String "010" "".

(** [for x in xs: st = body(st, x)], stopping at the first exception. *)
Fixpoint for_each {S X} (body : S -> X -> outcome S) (st : S) (xs : list X)
    : outcome S :=
  match xs with
  | [] => Ok st
  | x :: rest => st' <~ body st x ;; for_each body st' rest
  end.

(** [m.group(n)] for [n >= 1]. *)
Definition group (gs : list string) (n : nat) : outcome string :=
  match nth_error gs (n - 1) with
  | Some g => Ok g
  | None => Raise (IndexError (Msg "no such group"))
  end.

(** [a, b = m.groups()] and [a, b, c = m.groups()] *)
Definition unpack2 (gs : list string) : outcome (string * string) :=
  match gs with
  | [a; b] => Ok (a, b)
  | _ => Raise (ValueError (Msg "wrong number of values to unpack"))
  end.
Definition unpack3 (gs : list string) : outcome (string * string * string) :=
  match gs with
  | [a; b; c] => Ok (a, b, c)
  | _ => Raise (ValueError (Msg "wrong number of values to unpack"))
  end.
Definition unpack4 (gs : list string)
    : outcome (string * string * string * string) :=
  match gs with
  | [a; b; c; d] => Ok (a, b, c, d)
  | _ => Raise (ValueError (Msg "wrong number of values to unpack"))
  end.

(** *** [int] and [float] on what the patterns capture

    The decoders pass to [int] the text of a [(\d+)] group and to [float] the
    text of a [([\d\.]+)] group.  On such text Python does exactly what the
    two functions below do, the texts of the errors included; the signs,
    blanks, underscores and exponents Python also reads cannot be captured
    and are rejected here, and the [repr] of the text in an error is the
    text between quotes, which it is for digits and points.  [int] refuses
    a text of more than [sys.int_info.default_max_str_digits] digits. *)

Definition digit_value (c : ascii) : Z := Z.of_nat (code c) - 48.

Fixpoint digits_value (acc : Z) (s : string) : option Z :=
  match s with
  | EmptyString => Some acc
  | String c rest =>
      if isdigit c then digits_value (10 * acc + digit_value c) rest else None
  end.

(** [sys.int_info.default_max_str_digits] *)
Definition int_max_str_digits : nat := 4300.

(** [str(n)] for a natural number. *)
Definition decimal (n : nat) : string := NilZero.string_of_uint (Nat.to_uint n).

(** The [ValueError] of [int] on a text of [n] digits, [n] over the limit. *)
Definition int_limit_error (n : nat) : exn :=
  ValueError
    (Msg ("Exceeds the limit (4300 digits) for integer string conversion: "
          ++ "value has " ++ decimal n
          ++ " digits; use sys.set_int_max_str_digits() to increase the limit")).

(** The [ValueError] of [int] on a text that is not a number. *)
Definition int_literal_error (s : string) : exn :=
  ValueError (Msg ("invalid literal for int() with base 10: '" ++ s ++ "'")).

Definition py_int (s : string) : outcome Z :=
  match s with
  | EmptyString => Raise (int_literal_error s)
  | _ =>
      match digits_value 0 s with
      | Some n =>
          if (String.length s <=? int_max_str_digits)%nat then Ok n
          else Raise (int_limit_error (String.length s))
      | None => Raise (int_literal_error s)
      end
  end.

(** A Python [float] is an IEEE 754 binary64 number. *)
Definition float : Type := spec_float.
Definition prec : Z := 53.
Definition emax : Z := 1024.

(** The binary64 number nearest to [m / 10^k] (ties to even). *)
Definition nearest_float (m : Z) (k : nat) : float :=
  match m with
  | Zpos p =>
      SFdiv prec emax (S754_finite false p 0)
                      (S754_finite false (Z.to_pos (10 ^ Z.of_nat k)) 0)
  | _ => S754_zero false
  end.

(** [scan_float dot m k n s]: reads digits and at most one point; [m] is the
    number read without its point, [k] the number of digits after the point,
    [n] the number of digits. *)
Fixpoint scan_float (dot : bool) (m : Z) (k n : nat) (s : string)
    : option (Z * nat * nat) :=
  match s with
  | EmptyString => Some (m, k, n)
  | String c rest =>
      if isdigit c then
        scan_float dot (10 * m + digit_value c) (if dot then S k else k) (S n) rest
      else if Ascii.eqb c "." && negb dot then scan_float true m k n rest
      else None
  end.

(** The [ValueError] of [float] on a text that is not a number. *)
Definition float_error (s : string) : exn :=
  ValueError (Msg ("could not convert string to float: '" ++ s ++ "'")).

Definition py_float (s : string) : outcome float :=
  match scan_float false 0 0 0 s with
  | Some (m, k, S _) => Ok (nearest_float m k)
  | _ => Raise (float_error s)
  end.

(** ** lib/pyMEGAcmd.py: the result records *)

Record MEGADirectoryEntry := mkMEGADirectoryEntry {
  name : string;
  handle : string;
  is_directory : bool;
  flags : option string;
  date : option string;
  size : option string;
  link : option string
}.

Record MEGADiskFreeResult := mkMEGADiskFreeResult {
  cloud_drive_used : Z;
  cloud_drive_files : Z;
  cloud_drive_folders : Z;
  inbox_used : Z;
  inbox_files : Z;
  inbox_folders : Z;
  rubbish_bin_used : Z;
  rubbish_bin_files : Z;
  rubbish_bin_folders : Z;
  total_used_storage : Z;
  used_storage_percentage : float;
  total_storage : Z;
  size_file_versions : Z
}.

Record MEGAExportEntry := mkMEGAExportEntry {
  remote_path : string;
  export_link : string;
  export_size : option string;
  is_folder : bool;
  auth_token : option string
}.

Record MEGADuEntry := mkMEGADuEntry {
  du_remote_path : string;
  du_size : Z;
  size_with_versions : Z
}.

Record MEGADuResult := mkMEGADuResult {
  entries : list MEGADuEntry;
  size_total : Z;
  size_total_with_versions : Z
}.

(** ** The patterns of [MEGAcmdWrapper] *)

Definition df_area (label : string) : regex :=
  cat [Str label; Plus space; Grp (Plus digit); Str " in"; Plus space;
       Grp (Plus digit); Str " file(s) and"; Plus space; Grp (Plus digit);
       Str " folder(s)"].

Definition RE_DF_CLOUD : regex := df_area "Cloud drive:".
Definition RE_DF_INBOX : regex := df_area "Inbox:".
Definition RE_DF_BIN : regex := df_area "Rubbish bin:".
Definition RE_DF_TOTAL : regex :=
  cat [Str "USED STORAGE:"; Plus space; Grp (Plus digit); Plus space;
       Grp (Plus (fun c => digit c || only "." c)); Str "% of"; Plus space;
       Grp (Plus digit)].
Definition RE_DF_VERSIONS : regex :=
  cat [Str "Total size taken up by file versions:"; Plus space;
       Grp (Plus digit)].
Definition RE_DU_TOTAL : regex :=
  cat [Bol; Str "Total storage used:"; Plus space; Grp (Plus digit);
       Plus space; Grp (Plus digit); Eol].
Definition RE_DU_ENTRY : regex :=
  cat [Bol; Grp (Plus (isnot ":")); Str ":"; Plus space; Grp (Plus digit);
       Plus space; Grp (Plus digit); Eol].
Definition RE_EXPORT__LIST_FILE : regex :=
  cat [Bol; Grp (Plus dot); Str " ("; Grp (Plus (isnot ","));
       Str ", shared as exported permanent file link: ";
       Grp (Plus (isnot ")")); Str ")"; Eol].
Definition RE_EXPORT__LIST_FOLDER : regex :=
  cat [Bol; Grp (Plus dot);
       Str " (folder, shared as exported permanent folder link: ";
       Grp (Plus (isnot ")")); Str ")"; Eol].
Definition RE_EXPORT__LIST_AUTHTOKEN : regex :=
  cat [Bol; Grp (Plus dot); Str " AuthToken="; Grp (PlusLazy dot); Eol].
Definition RE_EXPORT__ADD_FOLDER : regex :=
  cat [Bol; Str "Exported "; Grp (PlusLazy dot); Str ": ";
       Grp (Seq (Str "ht") (PlusLazy dot)); Str nl; Plus space;
       Str "AuthToken = "; Grp (Plus dot); Eol].
Definition RE_EXPORT__ADD_FILE : regex :=
  cat [Bol; Str "Exported "; Grp (PlusLazy dot); Str ": ";
       Grp (Seq (Str "ht") (PlusLazy dot)); Eol].
Definition find_head : list regex :=
  [Bol; Grp (Plus (isnot "<")); Str " <";
   Grp (Plus (fun c => word c || digit c || only ":" c)); Str "> ("].
Definition RE_FIND_FILE_EXPORTED : regex :=
  cat (find_head ++ [Grp (Plus (isnot ",)")); Str ","; Plus (isnot ":");
                     Str ": "; Grp (Plus dot); Str ")"; Eol])%list.
Definition RE_FIND_FILE : regex :=
  cat (find_head ++ [Grp (Plus (isnot ")")); Str ")"; Eol])%list.
Definition RE_FIND_FOLDER_EXPORTED : regex :=
  cat (find_head ++ [Str "folder, "; Plus (isnot ":"); Str ": ";
                     Grp (Plus dot); Str ")"; Eol])%list.
Definition RE_FIND_FOLDER : regex :=
  cat (find_head ++ [Str "folder)"; Eol])%list.
Definition RE_LOGOUT_SESSION : regex :=
  cat [Str "session id: "; Grp (PlusLazy dot); Eol].
Definition RE_SESSION : regex :=
  cat [Bol; Str "Your (secret) session is:"; Plus space; Grp (Plus dot); Eol].
Definition RE_WHOAMI_EMAIL : regex :=
  cat [Str "Account e-mail: "; Grp (PlusLazy dot); Eol].

(** ** The wrapper object, the operating system and the monad of methods *)

(** An instance of [MEGAcmdWrapper]; [__init__] assigns its only attribute. *)
Record Wrapper := mkWrapper { mega_cmd_path : string }.

(** What [subprocess.run(command, capture_output=True, text=True,
    encoding="utf-8")] does: the process runs to its end and its output and
    exit status come back, whatever the status ([check] is not set), or no
    process comes to be and an exception is raised: [FileNotFoundError] when
    nothing is found at [command[0]], and another [OSError] otherwise, such
    as [NotADirectoryError] when a part of that path is a file and
    [PermissionError] when what is there cannot be executed. *)
Inductive SpawnResult : Type :=
| Completed (out err : string) (returncode : Z)
| Failed (e : exn).

(** The operating system: how it answers a command, given the commands run
    before, and the commands run so far. *)
Record World := mkWorld {
  os : list (list string) -> list string -> SpawnResult;
  calls : list (list string)
}.

Definition M (A : Type) : Type := Wrapper -> World -> outcome A * Wrapper * World.

Definition ret {A} (a : A) : M A := fun self w => (Ok a, self, w).
Definition raise {A} (e : exn) : M A := fun self w => (Raise e, self, w).
Definition bind {A B} (m : M A) (f : A -> M B) : M B :=
  fun self w =>
    match m self w with
    | (Ok a, self', w') => f a self' w'
    | (Raise e, self', w') => (Raise e, self', w')
    end.
Definition lift {A} (o : outcome A) : M A := fun self w => (o, self, w).
(** [self.mega_cmd_path] and [self.mega_cmd_path = path] *)
Definition get_mega_cmd_path : M string :=
  fun self w => (Ok (mega_cmd_path self), self, w).
Definition set_mega_cmd_path (path : string) : M unit :=
  fun _ w => (Ok tt, mkWrapper path, w).
(** [try: m except ...: handler] *)
Definition try_except {A} (m : M A) (handler : exn -> M A) : M A :=
  fun self w =>
    match m self w with
    | (Ok a, self', w') => (Ok a, self', w')
    | (Raise e, self', w') => handler e self' w'
    end.
(** [assert cond, text] *)
Definition assert (cond : bool) (text : string) : M unit :=
  if cond then ret tt else raise (AssertionError (Msg text)).

Notation "x <- m ;; k" := (bind m (fun x => k))
  (at level 61, m at next level, right associativity).
Notation "m ;;; k" := (bind m (fun _ => k))
  (at level 61, right associativity).

Definition subprocess_run (command : list string) : M (string * string * Z) :=
  fun self w =>
    let w' := mkWorld (os w) (calls w ++ [command])%list in
    match os w (calls w) command with
    | Completed out err rc => (Ok (out, err, rc), self, w')
    | Failed e => (Raise e, self, w')
    end.

Definition result_of {A} (x : outcome A * Wrapper * World) : outcome A :=
  fst (fst x).
Definition self_of {A} (x : outcome A * Wrapper * World) : Wrapper :=
  snd (fst x).
Definition world_of {A} (x : outcome A * Wrapper * World) : World := snd x.

(** ** lib/pyMEGAcmd.py: [MEGAcmdWrapper] *)

Definition is_none {A} (o : option A) : bool :=
  match o with None => true | Some _ => false end.
Definition is_some {A} (o : option A) : bool := negb (is_none o).
(** [[] if x is None else [f(x)]] *)
Definition unless_none {A B} (o : option A) (f : A -> B) : list B :=
  match o with None => [] | Some x => [f x] end.

(** [_run_mega_cmd] *)
Definition _run_mega_cmd (args : list string) : M CMDResult :=
  path <- get_mega_cmd_path ;;
  let command := ([path] ++ args)%list in
  result <- subprocess_run command ;;
  let '(out, err, rc) := result in
  ret (mkCMDResult (strip out) (strip err) rc).

(** [assert not isinstance(remote_paths, str), ...]: the argument is a [str]
    or another iterable of [str]; the items of the iterable are returned. *)
Definition not_a_str (remote_paths : string + list string) : M (list string) :=
  match remote_paths with
  | inl _ =>
      raise (AssertionError
               (Msg "remote_paths must be an iterable of strings, not a string."))
  | inr paths => ret paths
  end.

(** [cmd_cat] *)
Definition cmd_cat (remote_paths : string + list string) : M string :=
  remote_paths <- not_a_str remote_paths ;;
  let command := (["cat"] ++ map (fun p => clean_remote_path p false) remote_paths)%list in
  res <- _run_mega_cmd command ;;
  if (return_code res =? 0)%Z then ret (strip (stdout res))
  else if (return_code res =? 53)%Z then
    raise (RuntimeError (MsgRes "Remote path not found: " res))
  else if (return_code res =? 51)%Z then
    raise (RuntimeError (MsgRes "Remote path is not a file: " res))
  else raise (RuntimeError (MsgRes "Unknown error in cat command: " res)).

(** [cmd_cd] *)
Definition cmd_cd (remote_path : option string) : M bool :=
  let command :=
    (["cd"] ++ unless_none remote_path (fun p => clean_remote_path p false))%list in
  res <- _run_mega_cmd command ;;
  if (return_code res =? 0)%Z then ret true
  else if (return_code res =? 53)%Z then ret false
  else raise (RuntimeError (Msg ("Failed to change directory: " ++ stderr res))).

(** *** [cmd_df] *)

(** The local variables of [cmd_df], as the fields they end in. *)
Definition df_init : MEGADiskFreeResult :=
  mkMEGADiskFreeResult 0 0 0 0 0 0 0 0 0 0 (S754_zero false) 0 0.

Definition df_set_cloud (a b c : Z) (r : MEGADiskFreeResult) :=
  mkMEGADiskFreeResult a b c (inbox_used r) (inbox_files r) (inbox_folders r)
    (rubbish_bin_used r) (rubbish_bin_files r) (rubbish_bin_folders r)
    (total_used_storage r) (used_storage_percentage r) (total_storage r)
    (size_file_versions r).
Definition df_set_inbox (a b c : Z) (r : MEGADiskFreeResult) :=
  mkMEGADiskFreeResult (cloud_drive_used r) (cloud_drive_files r)
    (cloud_drive_folders r) a b c
    (rubbish_bin_used r) (rubbish_bin_files r) (rubbish_bin_folders r)
    (total_used_storage r) (used_storage_percentage r) (total_storage r)
    (size_file_versions r).
Definition df_set_bin (a b c : Z) (r : MEGADiskFreeResult) :=
  mkMEGADiskFreeResult (cloud_drive_used r) (cloud_drive_files r)
    (cloud_drive_folders r) (inbox_used r) (inbox_files r) (inbox_folders r)
    a b c
    (total_used_storage r) (used_storage_percentage r) (total_storage r)
    (size_file_versions r).
Definition df_set_total (a : Z) (p : float) (c : Z) (r : MEGADiskFreeResult) :=
  mkMEGADiskFreeResult (cloud_drive_used r) (cloud_drive_files r)
    (cloud_drive_folders r) (inbox_used r) (inbox_files r) (inbox_folders r)
    (rubbish_bin_used r) (rubbish_bin_files r) (rubbish_bin_folders r)
    a p c (size_file_versions r).
Definition df_set_versions (a : Z) (r : MEGADiskFreeResult) :=
  mkMEGADiskFreeResult (cloud_drive_used r) (cloud_drive_files r)
    (cloud_drive_folders r) (inbox_used r) (inbox_files r) (inbox_folders r)
    (rubbish_bin_used r) (rubbish_bin_files r) (rubbish_bin_folders r)
    (total_used_storage r) (used_storage_percentage r) (total_storage r) a.

(** [if m: a = int(m.group(1)); b = int(m.group(2)); c = int(m.group(3))] *)
Definition df_three (m : option (list string))
    (set : Z -> Z -> Z -> MEGADiskFreeResult -> MEGADiskFreeResult)
    (r : MEGADiskFreeResult) : outcome MEGADiskFreeResult :=
  match m with
  | Some gs =>
      g1 <~ group gs 1 ;; a <~ py_int g1 ;;
      g2 <~ group gs 2 ;; b <~ py_int g2 ;;
      g3 <~ group gs 3 ;; c <~ py_int g3 ;;
      Ok (set a b c r)
  | None => Ok r
  end.

(** The body of the loop of [cmd_df]: five independent [if]s. *)
Definition df_line (r : MEGADiskFreeResult) (line : string)
    : outcome MEGADiskFreeResult :=
  let match_cloud := py_match RE_DF_CLOUD line in
  let match_inbox := py_match RE_DF_INBOX line in
  let match_bin := py_match RE_DF_BIN line in
  let match_total := py_match RE_DF_TOTAL line in
  let match_versions := py_match RE_DF_VERSIONS line in
  r <~ df_three match_cloud df_set_cloud r ;;
  r <~ df_three match_inbox df_set_inbox r ;;
  r <~ df_three match_bin df_set_bin r ;;
  r <~ match match_total with
       | Some gs =>
           g1 <~ group gs 1 ;; a <~ py_int g1 ;;
           g2 <~ group gs 2 ;; p <~ py_float g2 ;;
           g3 <~ group gs 3 ;; c <~ py_int g3 ;;
           Ok (df_set_total a p c r)
       | None => Ok r
       end ;;
  match match_versions with
  | Some gs => g1 <~ group gs 1 ;; a <~ py_int g1 ;; Ok (df_set_versions a r)
  | None => Ok r
  end.

Definition cmd_df : M MEGADiskFreeResult :=
  res <- _run_mega_cmd ["df"] ;;
  if (return_code res =? 0)%Z then
    lift (for_each df_line df_init (splitlines (strip (stdout res))))
  else raise (RuntimeError (Msg ("Failed to get storage usage:" ++ nl ++ stderr res))).

(** *** [cmd_du] *)

(** The local variables [entries], [total_size], [total_size_with_versions]. *)
Definition du_init : MEGADuResult := mkMEGADuResult [] 0 0.

Definition du_line (r : MEGADuResult) (line : string) : outcome MEGADuResult :=
  let sline := strip line in
  let match_total := py_match RE_DU_TOTAL sline in
  let match_entry := py_match RE_DU_ENTRY sline in
  match match_total, match_entry with
  | Some gs, _ =>
      g1 <~ group gs 1 ;; a <~ py_int g1 ;;
      g2 <~ group gs 2 ;; b <~ py_int g2 ;;
      Ok (mkMEGADuResult (entries r) a b)
  | None, Some gs =>
      t <~ unpack3 gs ;;
      let '(path, size, size_with_versions) := t in
      a <~ py_int size ;;
      b <~ py_int size_with_versions ;;
      let entry := mkMEGADuEntry path a b in
      Ok (mkMEGADuResult (entries r ++ [entry])%list (size_total r)
            (size_total_with_versions r))
  | None, None => Ok r
  end.

Definition cmd_du (remote_paths : string + list string) : M MEGADuResult :=
  remote_paths <- not_a_str remote_paths ;;
  let command :=
    (["du"; "--versions"] ++ map (fun p => clean_remote_path p false) remote_paths)%list in
  res <- _run_mega_cmd command ;;
  if negb (return_code res =? 0)%Z then
    raise (RuntimeError (Msg ("Failed to get disk usage: " ++ stderr res)))
  else lift (for_each du_line du_init (splitlines (strip (stdout res)))).

(** *** [cmd_export] and its subcommands *)

(** [cmd_export__add] *)
Definition cmd_export__add (remote_path : string) (writeable : bool)
    (password : option string) : M (option MEGAExportEntry) :=
  let command := ["export"; "-f"; "-a"; clean_remote_path remote_path false] in
  let command := (command ++ if negb writeable then [] else ["--writable"])%list in
  let command :=
    (command ++ unless_none password (fun p => ("--password=" ++ p)%string))%list in
  res <- _run_mega_cmd command ;;
  if negb (return_code res =? 0)%Z then ret None
  else
    let match1 := py_search RE_EXPORT__ADD_FOLDER (stdout res) in
    let match2 := py_search RE_EXPORT__ADD_FILE (stdout res) in
    match match1, match2 with
    | Some gs, _ =>
        t <- lift (unpack3 gs) ;;
        let '(path, link, auth_token) := t in
        ret (Some (mkMEGAExportEntry path link None true (Some auth_token)))
    | None, Some gs =>
        t <- lift (unpack2 gs) ;;
        let '(path, link) := t in
        ret (Some (mkMEGAExportEntry path link None false None))
    | None, None => ret None
    end.

(** [cmd_export__delete] *)
Definition cmd_export__delete (remote_path : string) : M bool :=
  let command := ["export"; "-d"; clean_remote_path remote_path false] in
  res <- _run_mega_cmd command ;;
  if negb (return_code res =? 0)%Z then ret false else ret true.

(** The body of the loop of [cmd_export__list]. *)
Definition export_list_line (entries : list MEGAExportEntry) (line : string)
    : outcome (list MEGAExportEntry) :=
  let match_file := py_match RE_EXPORT__LIST_FILE line in
  let match_folder := py_match RE_EXPORT__LIST_FOLDER line in
  t <~ match match_file, match_folder with
       | Some gs, _ =>
           t <~ unpack3 gs ;;
           let '(path, size, link) := t in Ok (path, Some size, link)
       | None, Some gs =>
           t <~ unpack2 gs ;;
           let '(path, link) := t in Ok (path, None, link)
       | None, None =>
           Raise (RuntimeError
                    (Msg ("Unexpected export list line format:" ++ nl ++ line)))
       end ;;
  let '(path, size, link) := t in
  let match_auth := py_match RE_EXPORT__LIST_AUTHTOKEN link in
  t <~ match match_auth with
       | Some gs =>
           t <~ unpack2 gs ;;
           let '(link, auth_token) := t in Ok (link, Some auth_token)
       | None => Ok (link, None)
       end ;;
  let '(link, auth_token) := t in
  let entry :=
    mkMEGAExportEntry path link size (is_some match_folder) auth_token in
  Ok (entries ++ [entry])%list.

(** [cmd_export__list] *)
Definition cmd_export__list (remote_path : option string)
    : M (list MEGAExportEntry) :=
  let command :=
    (["export"] ++ unless_none remote_path (fun p => clean_remote_path p false))%list in
  res <- _run_mega_cmd command ;;
  if negb (return_code res =? 0)%Z then ret []
  else lift (for_each export_list_line [] (splitlines (strip (stdout res)))).

(** What [cmd_export] returns: [None | MEGAExportEntry | bool |
    list[MEGAExportEntry]]. *)
Inductive export_value : Type :=
| ExportAdded (e : option MEGAExportEntry)
| ExportDeleted (b : bool)
| ExportListed (l : list MEGAExportEntry).

(** [cmd_export] *)
Definition cmd_export (action : string) (remote_path : option string)
    (writeable : bool) (password : option string) : M export_value :=
  if String.eqb action "add" then
    match remote_path with
    | None => raise (AssertionError (Msg "remote_path is required for adding an export."))
    | Some p => e <- cmd_export__add p writeable password ;; ret (ExportAdded e)
    end
  else if String.eqb action "delete" then
    match remote_path with
    | None => raise (AssertionError (Msg "remote_path is required for deleting an export."))
    | Some p =>
        assert (negb writeable)
          "writeable parameter is not applicable for delete action." ;;;
        assert (is_none password)
          "password parameter is not applicable for delete action." ;;;
        b <- cmd_export__delete p ;; ret (ExportDeleted b)
    end
  else if String.eqb action "list" then
    assert (negb writeable)
      "writeable parameter is not applicable for delete action." ;;;
    assert (is_none password)
      "password parameter is not applicable for delete action." ;;;
    l <- cmd_export__list remote_path ;; ret (ExportListed l)
  else
    raise (ValueError (Msg ("Invalid action: " ++ action
                            ++ ". Must be 'add', 'delete', or 'list'."))).

(** *** [cmd_find] *)

(** The body of the loop of [cmd_find]. *)
Definition find_line (entries : list MEGADirectoryEntry) (line : string)
    : outcome (list MEGADirectoryEntry) :=
  let sline := strip line in
  if String.eqb sline "" then Ok entries
  else
    let match_folder_e := py_match RE_FIND_FOLDER_EXPORTED sline in
    let match_folder := py_match RE_FIND_FOLDER sline in
    let match_file_e := py_match RE_FIND_FILE_EXPORTED sline in
    let match_file := py_match RE_FIND_FILE sline in
    match match_folder_e, match_folder, match_file_e, match_file with
    | Some gs, _, _, _ =>
        t <~ unpack3 gs ;;
        let '(name, handle, link) := t in
        Ok (entries ++ [mkMEGADirectoryEntry name handle true None None None
                          (Some link)])%list
    | None, Some gs, _, _ =>
        t <~ unpack2 gs ;;
        let '(name, handle) := t in
        Ok (entries ++ [mkMEGADirectoryEntry name handle true None None None
                          None])%list
    | None, None, Some gs, _ =>
        t <~ unpack4 gs ;;
        let '(name, handle, size, link) := t in
        Ok (entries ++ [mkMEGADirectoryEntry name handle false None None
                          (Some size) (Some link)])%list
    | None, None, None, Some gs =>
        t <~ unpack3 gs ;;
        let '(name, handle, size) := t in
        Ok (entries ++ [mkMEGADirectoryEntry name handle false None None
                          (Some size) None])%list
    | None, None, None, None =>
        Raise (RuntimeError (Msg ("Unexpected find line format:" ++ nl ++ line)))
    end.

(** [cmd_find] *)
Definition cmd_find (remote_path pattern time_constraint size_constraint
    : option string) : M (list MEGADirectoryEntry) :=
  let command := ["find"; "-l"; "--show-handles"] in
  let command := (command ++ unless_none time_constraint (fun t => ("--mtime=" ++ t)%string))%list in
  let command := (command ++ unless_none size_constraint (fun s => ("--size=" ++ s)%string))%list in
  let command := (command ++ unless_none remote_path (fun p => clean_remote_path p false))%list in
  let command := (command ++ unless_none pattern (fun p => ("--pattern=" ++ p)%string))%list in
  res <- _run_mega_cmd command ;;
  if negb (return_code res =? 0)%Z then
    raise (RuntimeError (Msg ("Failed to find files/folders:" ++ nl ++ stderr res)))
  else lift (for_each find_line [] (splitlines (strip (stdout res)))).

(** *** Transfers *)

(** [cmd_get] *)
Definition cmd_get (path_remote : string) (path_local password : option string)
    (merge : bool) : M bool :=
  let command := ["get"] in
  let command := (command ++ if negb merge then [] else ["-m"])%list in
  let command := (command ++ unless_none password (fun p => ("--password=" ++ p)%string))%list in
  let command := (command ++ [clean_remote_path path_remote false])%list in
  let command := (command ++ unless_none path_local (fun p => clean_local_path p false))%list in
  res <- _run_mega_cmd command ;;
  if (return_code res =? 0)%Z then
    if contains (stdout res) "Download finished" then ret true else ret false
  else if (return_code res =? 53)%Z then
    raise (RuntimeError (MsgRes "Remote path not found: " res))
  else if (return_code res =? 54)%Z then
    raise (RuntimeError (MsgRes "Local path error: " res))
  else if (return_code res =? 55)%Z then
    raise (RuntimeError
             (MsgRes "Invalid download folder (local folder does not exist): " res))
  else if negb (return_code res =? 0)%Z then
    raise (RuntimeError (MsgRes "Failed to get file/folder: " res))
  else ret false.

(** [cmd_import] *)
Definition cmd_import (exported_link : string) (remote_path password : option string)
    : M bool :=
  let command := ["import"] in
  let command := (command ++ [exported_link])%list in
  let command := (command ++ unless_none password (fun p => ("--password=" ++ p)%string))%list in
  let command := (command ++ unless_none remote_path (fun p => clean_remote_path p false))%list in
  res <- _run_mega_cmd command ;;
  let failed := raise (RuntimeError (MsgRes "Failed to import link: " res)) in
  if (return_code res =? 0)%Z then
    if contains (stdout res) "Imported folder complete:" then ret true
    else if contains (stdout res) "Imported file complete:" then ret true
    else failed
  else if (return_code res =? 55)%Z then
    raise (RuntimeError (MsgRes "Invalid remote path (Invalid destiny): " res))
  else failed.

(** [cmd_put]; [local_path] is a [str] or an iterable of [str]. *)
Definition cmd_put (local_path : string + list string)
    (remote_path : option string) : M bool :=
  local_paths <-
    match local_path with
    | inl p => ret [clean_local_path p false]
    | inr ps =>
        assert (is_some remote_path)
          "remote_path must be set when uploading multiple local items." ;;;
        ret (map (fun p => clean_local_path p false) ps)
    end ;;
  let command := ["put"; "-c"] in
  let command := (command ++ local_paths)%list in
  let command :=
    (command ++ unless_none remote_path
       (fun p => clean_remote_path p (1 <? List.length local_paths)%nat))%list in
  res <- _run_mega_cmd command ;;
  let unexpected :=
    raise (RuntimeError (Msg ("Unexpected output from put command:" ++ nl
                              ++ stdout res))) in
  if (return_code res =? 0)%Z then
    if contains (stdout res) "Upload finished" then ret true else unexpected
  else if negb (return_code res =? 0)%Z then ret false
  else unexpected.

(** *** Sessions *)

(** The truth value of an [Optional[str]]: [None] and [""] are false. *)
Definition truthy (o : option string) : bool :=
  match o with
  | Some s => negb (String.eqb s "")
  | None => false
  end.

(** [cmd_login] *)
Definition cmd_login (email password auth_code session : option string) : M bool :=
  let is_user_login := truthy email || truthy password || truthy auth_code in
  let is_session_login := is_some session in
  if negb (Nat.b2n is_user_login + Nat.b2n is_session_login =? 1)%nat then
    raise (ValueError (Msg "Invalid login parameters. Use only one login method."))
  else if is_user_login then
    match email, password with
    | Some email, Some password =>
        let command := ["login"; email; password] in
        let command :=
          match auth_code with
          | Some code =>
              if truthy auth_code
              then (command ++ [("--auth-code=" ++ code)%string])%list
              else command
          | None => command
          end in
        res <- _run_mega_cmd command ;;
        if negb (return_code res =? 0)%Z then ret false else ret true
    | _, _ =>
        raise (AssertionError (Msg "Email and password are required for user login."))
    end
  else if is_session_login then
    match session with
    | Some session =>
        let command := ["login"; session] in
        res <- _run_mega_cmd command ;;
        if negb (return_code res =? 0)%Z then ret false else ret true
    | None =>
        raise (AssertionError (Msg "Session string is required for session login."))
    end
  else ret false.

(** [cmd_logout] *)
Definition cmd_logout (keep_session : bool) : M (bool * option string) :=
  let command := ["logout"] in
  let command := if keep_session then (command ++ ["--keep-session"])%list else command in
  res <- _run_mega_cmd command ;;
  if negb (return_code res =? 0)%Z then ret (false, None)
  else if keep_session then
    match py_search RE_LOGOUT_SESSION (stdout res) with
    | Some gs => g <- lift (group gs 1) ;; ret (true, Some g)
    | None => ret (true, None)
    end
  else ret (true, None).

(** [cmd_session] *)
Definition cmd_session : M (option string) :=
  res <- _run_mega_cmd ["session"] ;;
  let unexpected :=
    raise (NotImplementedError
             (Msg ("Unexpected output from session command:" ++ nl ++ stdout res))) in
  if (return_code res =? 0)%Z then
    match py_search RE_SESSION (stdout res) with
    | Some gs => g <- lift (group gs 1) ;; ret (Some g)
    | None => unexpected
    end
  else if contains (stderr res) "Not logged in" then ret None
  else unexpected.

(** [cmd_whoami] *)
Definition cmd_whoami : M (option string) :=
  res <- _run_mega_cmd ["whoami"] ;;
  if negb (return_code res =? 0)%Z then ret None
  else
    match py_search RE_WHOAMI_EMAIL (stdout res) with
    | Some gs => g <- lift (group gs 1) ;; ret (Some g)
    | None =>
        raise (NotImplementedError
                 (Msg ("Unexpected output from whoami command:" ++ nl ++ stdout res)))
    end.

(** *** Directories *)

(** [cmd_lcd] *)
Definition cmd_lcd (local_path : string) : M bool :=
  let command := ["lcd"; clean_local_path local_path false] in
  res <- _run_mega_cmd command ;;
  if (return_code res =? 0)%Z then ret true
  else if (return_code res =? 55)%Z then ret false
  else raise (RuntimeError (MsgRes "Failed to change local directory: " res)).

(** [cmd_lpwd] *)
Definition cmd_lpwd : M string :=
  res <- _run_mega_cmd ["lpwd"] ;;
  ret (strip (stdout res)).

(** [s[0]] *)
Definition first_char (s : string) : outcome ascii :=
  match s with
  | String c _ => Ok c
  | EmptyString => Raise (IndexError (Msg "string index out of range"))
  end.

(** [None] for the text ["-"]. *)
Definition dash_is_none (s : string) : option string :=
  if String.eqb s "-" then None else Some s.

(** The body of the loop of [cmd_ls]: the columns of a line are cut at fixed
    offsets. *)
Definition ls_line (dir_entries : list MEGADirectoryEntry) (line : string)
    : outcome (list MEGADirectoryEntry) :=
  let flags := strip (slice 0 4 line) in
  let version := dash_is_none (strip (slice 4 9 line)) in
  let size := dash_is_none (strip (slice 9 22 line)) in
  let date := strip (slice 22 41 line) in
  let handle := strip (slice 41 52 line) in
  let name := strip (drop 52 line) in
  c <~ first_char flags ;;
  let is_directory := Ascii.eqb c "d" in
  let entry :=
    mkMEGADirectoryEntry name handle is_directory (Some flags) (Some date) size
      None in
  Ok (dir_entries ++ [entry])%list.

(** The decoding part of [cmd_ls]: [splitlines()[1:]] drops the header. *)
Definition ls_decode (res : CMDResult) : M (list MEGADirectoryEntry) :=
  if negb (return_code res =? 0)%Z then
    raise (RuntimeError (Msg ("Failed to list directory:" ++ nl ++ stderr res)))
  else lift (for_each ls_line [] (tl (splitlines (strip (stdout res))))).

(** [cmd_ls] *)
Definition cmd_ls (remote_path : string) : M (list MEGADirectoryEntry) :=
  let command := ["ls"; "-hal"; "--show-handles"; clean_remote_path remote_path false] in
  res <- _run_mega_cmd command ;;
  ls_decode res.

(** [cmd_pwd] *)
Definition cmd_pwd : M string :=
  res <- _run_mega_cmd ["pwd"] ;;
  if (return_code res =? 0)%Z then ret (strip (stdout res))
  else raise (RuntimeError (Msg ("Failed to get current directory: " ++ stderr res))).

(** [cmd_tree] *)
Definition cmd_tree (remote_path : option string) : M string :=
  let command :=
    (["tree"] ++ unless_none remote_path (fun p => clean_remote_path p false))%list in
  res <- _run_mega_cmd command ;;
  if negb (return_code res =? 0)%Z then
    raise (RuntimeError (Msg ("Failed to get directory tree:" ++ nl ++ stderr res)))
  else ret (strip (stdout res)).

(** [cmd_version] *)
Definition cmd_version : M string :=
  res <- _run_mega_cmd ["version"] ;;
  ret (strip (stdout res)).

(** *** Construction *)

(** [__init__]; the cause chained to the new exception is not kept. *)
Definition __init__ (mega_cmd_path : string) (check_path : bool) : M unit :=
  set_mega_cmd_path mega_cmd_path ;;;
  if check_path then
    try_except (cmd_version ;;; ret tt)
      (fun e =>
         match e with
         | FileNotFoundError _ =>
             raise (FileNotFoundError
                      (Msg ("MEGAclient executable not found at path: "
                            ++ mega_cmd_path)))
         | _ => raise e
         end)
  else ret tt.

(** [MEGAcmdWrapper(mega_cmd_path, check_path)]: a new object, then
    [__init__]; the object is returned when [__init__] does not raise. *)
Definition MEGAcmdWrapper (mega_cmd_path : string) (check_path : bool)
    (w : World) : outcome Wrapper * World :=
  match __init__ mega_cmd_path check_path (mkWrapper "") w with
  | (Ok _, self, w') => (Ok self, w')
  | (Raise e, _, w') => (Raise e, w')
  end.

(** ** pyMEGAcmd.py: the older module

    Its [__init__], [_run_mega_cmd], [cmd_login], [cmd_logout],
    [cmd_version] and [cmd_whoami] are those above; its [cmd_export*],
    [cmd_tree] and [cmd_ls] pass the remote path as given instead of
    cleaning it, and decode in the same way. *)
Module TopLevel.

Definition cmd_ls (remote_path : string) : M (list MEGADirectoryEntry) :=
  let command := ["ls"; "-hal"; "--show-handles"; remote_path] in
  res <- _run_mega_cmd command ;;
  ls_decode res.

End TopLevel.

(** [obj.cmd_*(...)]: a call of one of the operations of the wrapper. *)
Inductive Op : Type :=
| call_cat (remote_paths : string + list string)
| call_cd (remote_path : option string)
| call_df
| call_du (remote_paths : string + list string)
| call_export (action : string) (remote_path : option string)
    (writeable : bool) (password : option string)
| call_export__add (remote_path : string) (writeable : bool)
    (password : option string)
| call_export__delete (remote_path : string)
| call_export__list (remote_path : option string)
| call_find (remote_path pattern time_constraint size_constraint : option string)
| call_get (path_remote : string) (path_local password : option string)
    (merge : bool)
| call_import (exported_link : string) (remote_path password : option string)
| call_login (email password auth_code session : option string)
| call_logout (keep_session : bool)
| call_lcd (local_path : string)
| call_lpwd
| call_ls (remote_path : string)
| call_put (local_path : string + list string) (remote_path : option string)
| call_pwd
| call_session
| call_tree (remote_path : option string)
| call_version
| call_whoami.

(** The effect of a call; the value returned is dropped. *)
Definition perform (op : Op) : M unit :=
  match op with
  | call_cat ps => cmd_cat ps ;;; ret tt
  | call_cd p => cmd_cd p ;;; ret tt
  | call_df => cmd_df ;;; ret tt
  | call_du ps => cmd_du ps ;;; ret tt
  | call_export a p wr pw => cmd_export a p wr pw ;;; ret tt
  | call_export__add p wr pw => cmd_export__add p wr pw ;;; ret tt
  | call_export__delete p => cmd_export__delete p ;;; ret tt
  | call_export__list p => cmd_export__list p ;;; ret tt
  | call_find p pat t s => cmd_find p pat t s ;;; ret tt
  | call_get r l pw m => cmd_get r l pw m ;;; ret tt
  | call_import l p pw => cmd_import l p pw ;;; ret tt
  | call_login e p a s => cmd_login e p a s ;;; ret tt
  | call_logout k => cmd_logout k ;;; ret tt
  | call_lcd p => cmd_lcd p ;;; ret tt
  | call_lpwd => cmd_lpwd ;;; ret tt
  | call_ls p => cmd_ls p ;;; ret tt
  | call_put l r => cmd_put l r ;;; ret tt
  | call_pwd => cmd_pwd ;;; ret tt
  | call_session => cmd_session ;;; ret tt
  | call_tree p => cmd_tree p ;;; ret tt
  | call_version => cmd_version ;;; ret tt
  | call_whoami => cmd_whoami ;;; ret tt
  end.

(** * The vocabulary of the statements *)

(** The first character, if any, is outside the set [p]. *)
Definition head_kept (p : ascii -> bool) (s : string) : Prop :=
  match s with
  | EmptyString => True
  | String c _ => p c = false
  end.

(** The two steps of [clean_local_path] before the trailing slash. *)
Definition local_stem (local_path : string) : string :=
  rstrip "/" (lstrip (" " ++ nl) local_path).

(** Each group of a match belongs to the body of its group in the pattern. *)
Definition captured (gs : list string) (r : regex) : Prop :=
  Forall2 (fun g body => lang body g) gs (groups r).

(** Every character of [w] is in the class [p]. *)
Definition all_in (p : ascii -> bool) (w : string) : Prop :=
  forallb p (list_ascii_of_string w) = true.

(** In world [w] the binary of [self], run with [args], prints [out] and
    [err] and exits with [rc]. *)
Definition answers (w : World) (self : Wrapper) (args : list string)
    (out err : string) (rc : Z) : Prop :=
  os w (calls w) (mega_cmd_path self :: args) = Completed out err rc.

(** The world after one more run. *)
Definition after_call (w : World) (self : Wrapper) (args : list string) : World :=
  mkWorld (os w) (calls w ++ [mega_cmd_path self :: args])%list.

(** A world whose binary always prints [out] and [err] and exits with [rc]. *)
Definition steady (out err : string) (rc : Z) : World :=
  mkWorld (fun _ _ => Completed out err rc) [].

(** A world without the binary. *)
Definition missing : World :=
  mkWorld (fun _ c =>
             Failed (FileNotFoundError
                       (Msg ("[Errno 2] No such file or directory: '"
                             ++ hd "" c ++ "'")))) [].


(** A computation that leaves the wrapper as it was. *)
Definition keeps_self {A} (m : M A) : Prop :=
  forall self w, self_of (m self w) = self.

(** The arguments of [cmd_du]. *)
Definition du_args (remote_paths : list string) : list string :=
  "du" :: "--versions" :: map (fun p => clean_remote_path p false) remote_paths.

(** A line taken as the total, and a line taken as an entry. *)
Definition du_is_total (line : string) : bool :=
  is_some (py_match RE_DU_TOTAL (strip line)).
Definition du_is_entry (line : string) : bool :=
  negb (du_is_total line) && is_some (py_match RE_DU_ENTRY (strip line)).

(** One blank or more; one digit or more. *)
Definition blanks (w : string) : Prop := w <> "" /\ all_in space w.
Definition digits (a : string) : Prop := a <> "" /\ all_in digit a.

(** A text of the form [Total storage used:], blanks, [a], blanks, [b]. *)
Definition du_total_text (s a b : string) : Prop :=
  exists w1 w2,
    s = "Total storage used:" ++ w1 ++ a ++ w2 ++ b
    /\ blanks w1 /\ digits a /\ blanks w2 /\ digits b.

(** A text of the form [p], a colon, blanks, [a], blanks, [b], where [p]
    is not empty and holds no colon. *)
Definition du_entry_text (s p a b : string) : Prop :=
  exists w1 w2,
    s = p ++ ":" ++ w1 ++ a ++ w2 ++ b
    /\ p <> "" /\ all_in (isnot ":") p
    /\ blanks w1 /\ digits a /\ blanks w2 /\ digits b.

(** A line that, stripped, is a total with the two integers [total] and
    [total_v]. *)
Definition du_total_line (line : string) (total total_v : Z) : Prop :=
  exists a b,
    du_total_text (strip line) a b
    /\ digits_value 0 a = Some total /\ digits_value 0 b = Some total_v.

(** A line that, stripped, has the form of an entry: the path before the
    colon and the two integers after it are those of [e]. *)
Definition du_entry_line (line : string) (e : MEGADuEntry) : Prop :=
  exists a b,
    du_entry_text (strip line) (du_remote_path e) a b
    /\ digits_value 0 a = Some (du_size e)
    /\ digits_value 0 b = Some (size_with_versions e).

(** The last line with a property. *)
Fixpoint last_such (f : string -> bool) (lines : list string) : option string :=
  match lines with
  | [] => None
  | l :: rest =>
      match last_such f rest with
      | Some x => Some x
      | None => if f l then Some l else None
      end
  end.

(** The totals of a report, given the totals before the lines were read:
    those of the last total line, if there is one. *)
Definition du_totals_of (lines : list string) (before r : MEGADuResult) : Prop :=
  match last_such du_is_total lines with
  | Some l => du_total_line l (size_total r) (size_total_with_versions r)
  | None =>
      size_total r = size_total before
      /\ size_total_with_versions r = size_total_with_versions before
  end.

(** A line of at most [int_max_str_digits] characters: no number in it is
    too long for [int]. *)
Definition short (line : string) : Prop :=
  (String.length line <= int_max_str_digits)%nat.

(** [int] refused a number of the line [l]: one of more digits than the
    limit allows. *)
Definition int_refused_at {A} (l : string) (r : outcome A) : Prop :=
  exists n,
    (int_max_str_digits < n <= String.length l)%nat
    /\ r = Raise (int_limit_error n).

(** [int] refused a number of a line of the output. *)
Definition int_refused {A} (lines : list string) (r : outcome A) : Prop :=
  exists l, In l lines /\ int_refused_at l r.

(** The report of [cmd_du] for the lines of the output: the entries are
    those of the entry lines, in their order, and the totals those of the
    last total line, 0 and 0 when there is none. *)
Definition du_report_of (lines : list string) (rep : MEGADuResult) : Prop :=
  Forall2 du_entry_line (filter du_is_entry lines) (entries rep)
  /\ match last_such du_is_total lines with
     | Some l => du_total_line l (size_total rep) (size_total_with_versions rep)
     | None => size_total rep = 0%Z /\ size_total_with_versions rep = 0%Z
     end.

(** A run of [n] blanks. *)
Fixpoint spaces (n : nat) : string :=
  match n with
  | O => EmptyString
  | S n' => String " " (spaces n')
  end.

(** The line [USED STORAGE: 1000 50.0% of 2000], its three gaps as wide as
    one likes. *)
Definition used_storage_line (n1 n2 n3 : nat) : string :=
  "USED STORAGE:" ++ spaces (S n1) ++ "1000" ++ spaces (S n2) ++ "50.0% of"
  ++ spaces (S n3) ++ "2000".

(** [float(n)] for an integer [n]. *)
Definition float_of_int (n : Z) : float := binary_normalize prec emax n 0 false.

(** The three fields read from the [USED STORAGE] line. *)
Definition same_usage (r r' : MEGADiskFreeResult) : Prop :=
  total_used_storage r' = total_used_storage r
  /\ used_storage_percentage r' = used_storage_percentage r
  /\ total_storage r' = total_storage r.

(** The lines [cmd_df] reads: those matching one of its five patterns. *)
Definition df_known (line : string) : bool :=
  is_some (py_match RE_DF_CLOUD line) || is_some (py_match RE_DF_INBOX line)
  || is_some (py_match RE_DF_BIN line) || is_some (py_match RE_DF_TOTAL line)
  || is_some (py_match RE_DF_VERSIONS line).

(** The lines [cmd_du] reads. *)
Definition du_known (line : string) : bool :=
  is_some (py_match RE_DU_TOTAL (strip line))
  || is_some (py_match RE_DU_ENTRY (strip line)).

(** The lines [cmd_export__list] accepts. *)
Definition export_known (line : string) : bool :=
  is_some (py_match RE_EXPORT__LIST_FILE line)
  || is_some (py_match RE_EXPORT__LIST_FOLDER line).

(** The lines [cmd_find] accepts, and the lines it passes over. *)
Definition find_known (line : string) : bool :=
  is_some (py_match RE_FIND_FOLDER_EXPORTED (strip line))
  || is_some (py_match RE_FIND_FOLDER (strip line))
  || is_some (py_match RE_FIND_FILE_EXPORTED (strip line))
  || is_some (py_match RE_FIND_FILE (strip line)).
Definition find_blank (line : string) : bool := String.eqb (strip line) "".

(** The arguments of [cmd_export__list] and of [cmd_find]. *)
Definition export_args (remote_path : option string) : list string :=
  "export" :: unless_none remote_path (fun p => clean_remote_path p false).

Definition find_args (remote_path pattern time_constraint size_constraint
    : option string) : list string :=
  (["find"; "-l"; "--show-handles"]
   ++ unless_none time_constraint (fun t => ("--mtime=" ++ t)%string)
   ++ unless_none size_constraint (fun s => ("--size=" ++ s)%string)
   ++ unless_none remote_path (fun p => clean_remote_path p false)
   ++ unless_none pattern (fun p => ("--pattern=" ++ p)%string))%list.

(** The entry cut from a listing line at the fixed offsets. *)
Definition ls_entry_of (line : string) (e : MEGADirectoryEntry) : Prop :=
  flags e = Some (strip (slice 0 4 line))
  /\ size e = dash_is_none (strip (slice 9 22 line))
  /\ date e = Some (strip (slice 22 41 line))
  /\ handle e = strip (slice 41 52 line)
  /\ name e = strip (drop 52 line)
  /\ link e = None
  /\ (forall rest, line = String "d" rest -> is_directory e = true).

(** A line whose first four columns are not all blank. *)
Definition has_flags (line : string) : Prop := strip (slice 0 4 line) <> "".

(** A listing line laid out on the columns of the decoder: a directory with
    handle [H:abcDEF12]. *)
Definition sample_directory_line : string :=
  "d---" ++ "    -" ++ "            -" ++ " 11Dec2024 10:00:00"
  ++ " H:abcDEF12" ++ " docs".

(** ** Further vocabulary *)

(** The characters [clean_remote_path] and [clean_local_path] strip on the
    left. *)
Definition blank_or_newline (c : ascii) : bool := mem c (" " ++ nl).

(** A run of [n] slashes. *)
Fixpoint slashes (n : nat) : string :=
  match n with
  | O => EmptyString
  | S n' => String "/" (slashes n')
  end.

(** A computation that leaves the wrapper and the world as they were: it
    runs nothing. *)
Definition silent {A} (m : M A) : Prop :=
  forall self w, self_of (m self w) = self /\ world_of (m self w) = w.

(** A computation that leaves the wrapper as it was and runs the binary of
    the wrapper at most once. *)
Definition at_most_one_run {A} (m : M A) : Prop :=
  forall self w,
    self_of (m self w) = self
    /\ (world_of (m self w) = w
        \/ exists args, world_of (m self w) = after_call w self args).

(** The calls whose parameters are refused before anything is run:
    [cmd_cat] and [cmd_du] given one string in place of the paths;
    [cmd_export] given an unknown action, no path to add or to delete, or
    [writeable] or a password with [delete] or [list]; [cmd_login] given no
    login method or two, or a user login without email or password;
    [cmd_put] given several local paths and no remote path. *)
Definition refused_at_once (op : Op) : bool :=
  match op with
  | call_cat (inl _) | call_du (inl _) => true
  | call_export action remote_path writeable password =>
      if String.eqb action "add" then is_none remote_path
      else if String.eqb action "delete"
           then is_none remote_path || writeable || is_some password
      else if String.eqb action "list" then writeable || is_some password
      else true
  | call_login email password auth_code session =>
      let is_user_login := truthy email || truthy password || truthy auth_code in
      if negb (Nat.b2n is_user_login + Nat.b2n (is_some session) =? 1)%nat
      then true
      else if is_user_login then negb (is_some email && is_some password)
      else false
  | call_put (inr _) None => true
  | _ => false
  end.

(** A computation that starts with one run of the binary, with arguments
    that depend on neither the wrapper nor the world, runs nothing else,
    and passes on the exception of a run that fails. *)
Definition runs_first {A} (m : M A) : Prop :=
  exists args, forall self w,
    world_of (m self w) = after_call w self args
    /\ forall e, os w (calls w) (mega_cmd_path self :: args) = Failed e ->
                 result_of (m self w) = Raise e.

(** An entry of a disk-usage report as [cmd_du] can return it. *)
Definition du_entry_ok (e : MEGADuEntry) : Prop :=
  (0 <= du_size e)%Z /\ (0 <= size_with_versions e)%Z
  /\ du_remote_path e <> "" /\ mem ":" (du_remote_path e) = false.

(** A disk-usage report as [cmd_du] can return it. *)
Definition du_report_ok (rep : MEGADuResult) : Prop :=
  (0 <= size_total rep)%Z /\ (0 <= size_total_with_versions rep)%Z
  /\ Forall du_entry_ok (entries rep).

(** [float] refused the percentage of a [USED STORAGE] line of the output:
    the text [g] between the first number and the percent sign. *)
Definition float_refused_at {A} (l : string) (r : outcome A) : Prop :=
  exists a g c,
    py_match RE_DF_TOTAL l = Some [a; g; c] /\ r = Raise (float_error g).
Definition float_refused {A} (lines : list string) (r : outcome A) : Prop :=
  exists l, In l lines /\ float_refused_at l r.

(** The counters of a disk-free report are not negative. *)
Definition df_counters_ok (r : MEGADiskFreeResult) : Prop :=
  (0 <= cloud_drive_used r /\ 0 <= cloud_drive_files r
   /\ 0 <= cloud_drive_folders r /\ 0 <= inbox_used r /\ 0 <= inbox_files r
   /\ 0 <= inbox_folders r /\ 0 <= rubbish_bin_used r
   /\ 0 <= rubbish_bin_files r /\ 0 <= rubbish_bin_folders r
   /\ 0 <= total_used_storage r /\ 0 <= total_storage r
   /\ 0 <= size_file_versions r)%Z.


(** An entry as [cmd_find] can return it. *)
Definition find_entry_ok (e : MEGADirectoryEntry) : Prop :=
  flags e = None /\ date e = None /\ name e <> "" /\ handle e <> ""
  /\ (is_directory e = true <-> size e = None)
  /\ link e <> Some "".

(** An entry as [cmd_export__list] can return it. *)
Definition export_entry_ok (e : MEGAExportEntry) : Prop :=
  remote_path e <> "" /\ export_link e <> ""
  /\ (export_size e = None -> is_folder e = true)
  /\ export_size e <> Some "" /\ auth_token e <> Some "".

(** An entry as [cmd_export__add] can return it. *)
Definition added_entry_ok (e : MEGAExportEntry) : Prop :=
  remote_path e <> "" /\ startswith (export_link e) "ht" = true
  /\ export_size e = None
  /\ (is_folder e = true <-> auth_token e <> None)
  /\ auth_token e <> Some "".

Definition find_error (line : string) : exn :=
  RuntimeError (Msg ("Unexpected find line format:" ++ nl ++ line)).
Definition export_list_error (line : string) : exn :=
  RuntimeError (Msg ("Unexpected export list line format:" ++ nl ++ line)).

(** [whoami] and [session] failing to read the output. *)
Definition whoami_error (out : string) : exn :=
  NotImplementedError (Msg ("Unexpected output from whoami command:" ++ nl ++ out)).
Definition session_error (out : string) : exn :=
  NotImplementedError (Msg ("Unexpected output from session command:" ++ nl ++ out)).

(** A text that is not empty and sits on one line. *)
Definition one_line (g : string) : Prop := g <> "" /\ all_in dot g.

(** The arguments of a login with a user name. *)
Definition login_args (email password : string) (auth_code : option string)
    : list string :=
  "login" :: email :: password ::
  match auth_code with
  | Some code => if String.eqb code "" then [] else [("--auth-code=" ++ code)%string]
  | None => []
  end.

Definition login_error : exn :=
  ValueError (Msg "Invalid login parameters. Use only one login method.").
Definition login_assertion : exn :=
  AssertionError (Msg "Email and password are required for user login.").

(** [f(x)] for the value of an outcome. *)
Definition omap {A B} (f : A -> B) (o : outcome A) : outcome B :=
  match o with
  | Ok a => Ok (f a)
  | Raise e => Raise e
  end.

(** The first four columns of a line hold something. *)
Definition has_flagsb (line : string) : bool :=
  negb (String.eqb (strip (slice 0 4 line)) "").

(** An entry as [cmd_ls] can return it. *)
Definition ls_entry_ok (e : MEGADirectoryEntry) : Prop :=
  link e = None /\ size e <> Some "-"
  /\ exists fl d,
       flags e = Some fl /\ fl <> "" /\ date e = Some d
       /\ (is_directory e = true <-> startswith fl "d" = true).

(** In world [w] the binary of [self] cannot be run: [subprocess.run] raises
    [e] whatever the arguments. *)
Definition refuses (w : World) (self : Wrapper) (e : exn) : Prop :=
  forall args, os w (calls w) (mega_cmd_path self :: args) = Failed e.

(** * Properties *)

(** ** Stripping *)

Section Stripping.

Variable p : ascii -> bool.

Lemma lstrip_by_head s : head_kept p (lstrip_by p s).
Proof.
  induction s as [|c rest IH]; simpl; [exact I|].
  destruct (p c) eqn:E; [exact IH | exact E].
Qed.

Lemma lstrip_by_fixed s : head_kept p s -> lstrip_by p s = s.
Proof.
  destruct s as [|c rest]; simpl; [reflexivity|].
  intros ->. reflexivity.
Qed.

Lemma rstrip_by_cons c rest :
  rstrip_by p (String c rest) =
  match rstrip_by p rest with
  | EmptyString => if p c then EmptyString else String c EmptyString
  | kept => String c kept
  end.
Proof. reflexivity. Qed.

Lemma rstrip_by_idem s : rstrip_by p (rstrip_by p s) = rstrip_by p s.
Proof.
  induction s as [|c rest IH]; [reflexivity|].
  rewrite rstrip_by_cons.
  destruct (rstrip_by p rest) as [|d kept] eqn:E.
  - destruct (p c) eqn:Ec; [reflexivity|].
    simpl. rewrite Ec. reflexivity.
  - rewrite rstrip_by_cons, IH. reflexivity.
Qed.

Lemma rstrip_by_snoc s c :
  p c = true -> rstrip_by p (s ++ String c EmptyString) = rstrip_by p s.
Proof.
  intros Hc. induction s as [|d rest IH].
  - simpl. rewrite Hc. reflexivity.
  - change (String d rest ++ String c "") with (String d (rest ++ String c "")).
    rewrite !rstrip_by_cons, IH. reflexivity.
Qed.

(** What [rstrip] keeps starts as the text did. *)
Lemma rstrip_by_head s : head_kept p s -> head_kept p (rstrip_by p s).
Proof.
  destruct s as [|c rest]; [trivial|].
  rewrite rstrip_by_cons. simpl. intros Hc.
  destruct (rstrip_by p rest); [rewrite Hc|]; exact Hc.
Qed.

(** What [rstrip] keeps does not end with a stripped character. *)
Lemma rstrip_by_last s c :
  endswith (rstrip_by p s) (String c EmptyString) = true -> p c = false.
Proof.
  induction s as [|d rest IH]; [discriminate|].
  rewrite rstrip_by_cons.
  destruct (rstrip_by p rest) as [|e kept] eqn:E.
  - destruct (p d) eqn:Ed; [discriminate|].
    simpl. rewrite orb_false_r.
    destruct (Ascii.eqb_spec d c) as [<-|]; [intros _; exact Ed | discriminate].
  - intros H. apply IH.
    change (endswith (String d (String e kept)) (String c ""))
      with (String.eqb (String d (String e kept)) (String c "")
            || endswith (String e kept) (String c "")) in H.
    replace (String.eqb (String d (String e kept)) (String c "")) with false in H.
    + exact H.
    + symmetry. apply String.eqb_neq. intros Heq. discriminate Heq.
Qed.

End Stripping.

Lemma endswith_snoc (q : string) (c : ascii) :
  endswith (q ++ String c "") (String c "") = true.
Proof.
  induction q as [|d rest IH].
  - simpl. rewrite Ascii.eqb_refl. reflexivity.
  - change (endswith (String d rest ++ String c "") (String c ""))
      with (String.eqb (String d (rest ++ String c "")) (String c "")
            || endswith (rest ++ String c "") (String c "")).
    rewrite IH. apply orb_true_r.
Qed.

Lemma head_kept_snoc (p : ascii -> bool) (q : string) (c : ascii) :
  head_kept p q -> p c = false -> head_kept p (q ++ String c "").
Proof. destruct q; simpl; auto. Qed.

Lemma local_stem_no_slash p : endswith (local_stem p) "/" = false.
Proof.
  destruct (endswith (local_stem p) "/") eqn:E; [|reflexivity].
  apply rstrip_by_last in E. discriminate E.
Qed.

Lemma local_stem_head p :
  head_kept (fun c => mem c (" " ++ nl)) (local_stem p).
Proof.
  unfold local_stem, rstrip, lstrip.
  set (blank := fun c => mem c (" " ++ nl)).
  set (s := lstrip_by blank p).
  assert (Hs : head_kept blank s) by apply lstrip_by_head.
  clearbody s. destruct s as [|c rest]; [exact I|].
  rewrite rstrip_by_cons. simpl in Hs.
  destruct (rstrip_by (fun c0 => mem c0 "/") rest).
  - destruct (mem c "/"); [exact I | exact Hs].
  - exact Hs.
Qed.

Lemma clean_local_path_stem p f :
  clean_local_path p f = if f then local_stem p ++ "/" else local_stem p.
Proof.
  unfold clean_local_path. fold nl. fold (local_stem p).
  rewrite local_stem_no_slash. destruct f; reflexivity.
Qed.

Lemma local_stem_of_stem p : local_stem (local_stem p) = local_stem p.
Proof.
  unfold local_stem at 1. unfold lstrip.
  rewrite lstrip_by_fixed by apply local_stem_head.
  unfold local_stem, rstrip. apply rstrip_by_idem.
Qed.

Lemma local_stem_of_slashed p : local_stem (local_stem p ++ "/") = local_stem p.
Proof.
  unfold local_stem at 1. unfold lstrip.
  rewrite lstrip_by_fixed.
  - unfold rstrip. rewrite rstrip_by_snoc by reflexivity.
    unfold local_stem, rstrip. apply rstrip_by_idem.
  - apply head_kept_snoc; [apply local_stem_head | reflexivity].
Qed.

(** C9. [clean_local_path] is idempotent for either value of
    [ensure_trailing_slash], and with [ensure_trailing_slash=True] its result
    ends with ["/"]. *)
Theorem clean_local_path_idempotent :
  forall (p : string) (f : bool),
    clean_local_path (clean_local_path p f) f = clean_local_path p f
    /\ endswith (clean_local_path p true) "/" = true.
Proof.
  intros p f. split.
  - rewrite !clean_local_path_stem. destruct f.
    + rewrite local_stem_of_slashed. reflexivity.
    + apply local_stem_of_stem.
  - rewrite clean_local_path_stem. apply endswith_snoc.
Qed.

(** ** Soundness of the matcher: what a match consumed and captured *)

Lemma take_app_length (w s : string) : take (String.length w) (w ++ s) = w.
Proof. induction w as [|c w IH]; simpl; [destruct s|rewrite IH]; reflexivity. Qed.

Lemma length_app (a b : string) :
  String.length (a ++ b) = (String.length a + String.length b)%nat.
Proof. induction a as [|c a IH]; simpl; [|rewrite IH]; reflexivity. Qed.

Lemma string_app_assoc (a b c : string) : (a ++ b) ++ c = a ++ (b ++ c).
Proof. induction a as [|x a IH]; simpl; [|rewrite IH]; reflexivity. Qed.

Lemma more_greedy_sound p k s : forall i cs res,
  more_greedy p k i s cs = Some res ->
  exists w s', s = w ++ s' /\ all_in p w
               /\ k (i + String.length w)%nat s' cs = Some res.
Proof.
  induction s as [|c rest IH]; intros i cs res H; simpl in H.
  - exists "", "". rewrite Nat.add_0_r. repeat split; assumption.
  - assert (Hstop : k i (String c rest) cs = Some res ->
                    exists w s', String c rest = w ++ s' /\ all_in p w
                      /\ k (i + String.length w)%nat s' cs = Some res).
    { intros Hk. exists "", (String c rest). rewrite Nat.add_0_r.
      repeat split; assumption. }
    destruct (p c) eqn:Ec; [|auto].
    destruct (more_greedy p k (S i) rest cs) as [r|] eqn:E; [|auto].
    injection H as ->.
    destruct (IH _ _ _ E) as (w & s' & -> & Hw & Hk).
    exists (String c w), s'. repeat split.
    + unfold all_in. simpl. rewrite Ec. exact Hw.
    + simpl. rewrite Nat.add_succ_r. exact Hk.
Qed.

Lemma more_lazy_sound p k s : forall i cs res,
  more_lazy p k i s cs = Some res ->
  exists w s', s = w ++ s' /\ all_in p w
               /\ k (i + String.length w)%nat s' cs = Some res.
Proof.
  induction s as [|c rest IH]; intros i cs res H; simpl in H.
  - destruct (k i "" cs) as [r|] eqn:E; [|discriminate].
    exists "", "". rewrite Nat.add_0_r, E. repeat split; assumption.
  - destruct (k i (String c rest) cs) as [r|] eqn:E.
    + exists "", (String c rest). rewrite Nat.add_0_r, E. repeat split; assumption.
    + destruct (p c) eqn:Ec; [|discriminate].
      destruct (IH _ _ _ H) as (w & s' & -> & Hw & Hk).
      exists (String c w), s'. repeat split.
      * unfold all_in. simpl. rewrite Ec. exact Hw.
      * simpl. rewrite Nat.add_succ_r. exact Hk.
Qed.

Lemma rmatch_sound r : forall k i s cs res,
  rmatch r k i s cs = Some res ->
  exists w s' gs,
    s = w ++ s' /\ lang r w /\ captured gs r
    /\ k (i + String.length w)%nat s' (cs ++ gs)%list = Some res.
Proof.
  unfold captured.
  induction r as [|c|p|p|p| | |body IH|r1 IH1 r2 IH2];
    intros k i s cs res H; simpl in H.
  - exists "", s, []. rewrite Nat.add_0_r, app_nil_r.
    repeat split; [constructor | exact H].
  - destruct s as [|d rest]; [discriminate|].
    destruct (Ascii.eqb_spec c d) as [<-|]; [|discriminate].
    exists (String c ""), rest, []. rewrite app_nil_r, Nat.add_1_r.
    repeat split; [constructor | exact H].
  - destruct s as [|d rest]; [discriminate|].
    destruct (p d) eqn:Ed; [|discriminate].
    exists (String d ""), rest, []. rewrite app_nil_r, Nat.add_1_r.
    repeat split; [exists d; auto | constructor | exact H].
  - destruct s as [|d rest]; [discriminate|].
    destruct (p d) eqn:Ed; [|discriminate].
    destruct (more_greedy_sound _ _ _ _ _ H) as (w & s' & -> & Hw & Hk).
    exists (String d w), s', []. rewrite app_nil_r. simpl.
    rewrite Nat.add_succ_r. repeat split;
      [discriminate | rewrite Ed; exact Hw | constructor | exact Hk].
  - destruct s as [|d rest]; [discriminate|].
    destruct (p d) eqn:Ed; [|discriminate].
    destruct (more_lazy_sound _ _ _ _ _ H) as (w & s' & -> & Hw & Hk).
    exists (String d w), s', []. rewrite app_nil_r. simpl.
    rewrite Nat.add_succ_r. repeat split;
      [discriminate | rewrite Ed; exact Hw | constructor | exact Hk].
  - destruct (i =? 0)%nat; [|discriminate].
    exists "", s, []. rewrite Nat.add_0_r, app_nil_r.
    repeat split; [constructor | exact H].
  - assert (Hk : k i s cs = Some res).
    { destruct s as [|d [|e rest]]; [exact H | | discriminate].
      destruct (is_lf d); [exact H | discriminate]. }
    exists "", s, []. rewrite Nat.add_0_r, app_nil_r.
    repeat split; [constructor | exact Hk].
  - destruct (IH _ _ _ _ _ H) as (w & s' & gs & -> & Hw & Hgs & Hk).
    exists w, s', (gs ++ [w])%list.
    replace (i + String.length w - i)%nat with (String.length w) in Hk by lia.
    rewrite take_app_length, <- app_assoc in Hk.
    repeat split; [exact Hw | | exact Hk].
    simpl. apply Forall2_app; [exact Hgs | repeat constructor; exact Hw].
  - destruct (IH1 _ _ _ _ _ H) as (w1 & s1 & gs1 & -> & Hw1 & Hgs1 & Hk1).
    destruct (IH2 _ _ _ _ _ Hk1) as (w2 & s2 & gs2 & -> & Hw2 & Hgs2 & Hk2).
    exists (w1 ++ w2), s2, (gs1 ++ gs2)%list.
    rewrite string_app_assoc, length_app, Nat.add_assoc, app_assoc.
    repeat split; [exists w1, w2; auto | | exact Hk2].
    simpl. apply Forall2_app; assumption.
Qed.

(** The groups of a match of [pattern.match] belong to the bodies of the
    groups of the pattern. *)
Lemma py_match_captured r s gs : py_match r s = Some gs -> captured gs r.
Proof.
  intros H. apply rmatch_sound in H.
  destruct H as (w & s' & gs' & _ & _ & Hgs & Hk).
  injection Hk as <-. exact Hgs.
Qed.

Lemma search_from_captured r s : forall i gs,
  search_from r i s = Some gs -> captured gs r.
Proof.
  induction s as [|c rest IH]; intros i gs H; simpl in H;
    destruct (rmatch r accept i _ []) as [gs'|] eqn:E;
    try discriminate;
    try (injection H as <-; apply rmatch_sound in E;
         destruct E as (w & s' & gs'' & _ & _ & Hgs & Hk);
         injection Hk as <-; exact Hgs).
  eapply IH; exact H.
Qed.

(** *** Conversions of what the digit groups capture *)

Lemma digits_value_all s : forall acc,
  all_in isdigit s -> exists n, digits_value acc s = Some n.
Proof.
  unfold all_in. induction s as [|c rest IH]; intros acc H; simpl in *.
  - eauto.
  - apply andb_true_iff in H. destruct H as [Hc Hrest].
    rewrite Hc. apply IH. exact Hrest.
Qed.

(** On the text of a [(\d+)] group [int] gives its value, unless the text
    is over the limit. *)
Lemma py_int_cases g :
  lang (Plus digit) g ->
  (exists n, py_int g = Ok n /\ digits_value 0 g = Some n
             /\ (String.length g <= int_max_str_digits)%nat)
  \/ ((int_max_str_digits < String.length g)%nat
      /\ py_int g = Raise (int_limit_error (String.length g))).
Proof.
  intros [Hne Hall]. destruct (digits_value_all 0 Hall) as [n Hn].
  unfold py_int. rewrite Hn. destruct g as [|c g]; [contradiction|].
  destruct (Nat.leb_spec (String.length (String c g)) int_max_str_digits).
  - left. exists n. auto.
  - right. auto.
Qed.

Lemma py_int_digits g :
  lang (Plus digit) g -> (String.length g <= int_max_str_digits)%nat ->
  exists n, py_int g = Ok n.
Proof.
  intros Hg Hlen. destruct (@py_int_cases g Hg) as [(n & Hn & _)|[Hover _]].
  - exists n. exact Hn.
  - lia.
Qed.

Lemma digit_value_nonneg c : isdigit c = true -> (0 <= digit_value c)%Z.
Proof.
  unfold isdigit, digit_value. intros H.
  apply andb_true_iff in H. destruct H as [H _].
  apply Nat.leb_le in H.
  set (n := code c) in *. clearbody n. lia.
Qed.

Lemma digits_value_nonneg s : forall acc n,
  digits_value acc s = Some n -> (0 <= acc)%Z -> (0 <= n)%Z.
Proof.
  induction s as [|c s IH]; intros acc n H Hacc; cbn [digits_value] in H.
  - injection H as <-. exact Hacc.
  - destruct (isdigit c) eqn:Ec; [|discriminate].
    apply (IH _ _ H). pose proof (@digit_value_nonneg c Ec). lia.
Qed.

Lemma py_int_nonneg g n : py_int g = Ok n -> (0 <= n)%Z.
Proof.
  unfold py_int. destruct g as [|c g]; [discriminate|].
  destruct (digits_value 0 (String c g)) as [m|] eqn:E; [|discriminate].
  destruct (String.length (String c g) <=? int_max_str_digits)%nat;
    [|discriminate].
  intros H. injection H as <-. apply (@digits_value_nonneg _ _ _ E). lia.
Qed.

(** *** A group is not longer than the text it was found in *)

Lemma rmatch_groups_bounded r : forall k i s cs res n,
  rmatch r k i s cs = Some res -> (String.length s <= n)%nat ->
  exists w s' gs,
    s = w ++ s' /\ Forall (fun g => (String.length g <= n)%nat) gs
    /\ k (i + String.length w)%nat s' (cs ++ gs)%list = Some res.
Proof.
  induction r as [|c|p|p|p| | |body IH|r1 IH1 r2 IH2];
    intros k i s cs res n H Hn;
    try (destruct (rmatch_sound _ _ _ _ _ H) as (w & s' & gs & Hs & _ & Hgs & Hk);
         unfold captured in Hgs; cbn [groups] in Hgs; inversion Hgs; subst gs;
         exists w, s', []; repeat split; [exact Hs | constructor | exact Hk]).
  - cbn [rmatch] in H.
    destruct (IH _ _ _ _ _ n H Hn) as (w & s' & gs & -> & Hgs & Hk).
    exists w, s', (gs ++ [w])%list.
    replace (i + String.length w - i)%nat with (String.length w) in Hk by lia.
    rewrite take_app_length, <- app_assoc in Hk.
    repeat split; [|exact Hk].
    apply Forall_app. split; [exact Hgs|].
    constructor; [|constructor]. rewrite length_app in Hn. lia.
  - cbn [rmatch] in H.
    destruct (IH1 _ _ _ _ _ n H Hn) as (w1 & s1 & gs1 & -> & Hgs1 & Hk1).
    assert (Hn1 : (String.length s1 <= n)%nat) by (rewrite length_app in Hn; lia).
    destruct (IH2 _ _ _ _ _ n Hk1 Hn1) as (w2 & s2 & gs2 & -> & Hgs2 & Hk2).
    exists (w1 ++ w2), s2, (gs1 ++ gs2)%list.
    rewrite string_app_assoc, length_app, Nat.add_assoc, app_assoc.
    repeat split; [|exact Hk2].
    apply Forall_app. split; assumption.
Qed.

Lemma py_match_bounded r s gs :
  py_match r s = Some gs ->
  Forall (fun g => (String.length g <= String.length s)%nat) gs.
Proof.
  intros H.
  destruct (@rmatch_groups_bounded r accept 0 s [] gs (String.length s) H
              (le_n _)) as (w & s' & gs' & _ & Hgs & Hk).
  injection Hk as <-. exact Hgs.
Qed.

Lemma rstrip_by_length p s :
  (String.length (rstrip_by p s) <= String.length s)%nat.
Proof.
  induction s as [|c s IH]; [simpl; lia|]. rewrite rstrip_by_cons.
  destruct (rstrip_by p s) as [|d kept];
    [destruct (p c); simpl; lia | simpl in *; lia].
Qed.

Lemma lstrip_by_length p s :
  (String.length (lstrip_by p s) <= String.length s)%nat.
Proof.
  induction s as [|c s IH]; simpl; [lia|]. destruct (p c); simpl; lia.
Qed.

Lemma strip_length s : (String.length (strip s) <= String.length s)%nat.
Proof.
  unfold strip. pose proof (lstrip_by_length isspace (rstrip_by isspace s)).
  pose proof (rstrip_by_length isspace s). lia.
Qed.

(** ** The process runner *)

Lemma run_completed self w args out err rc :
  answers w self args out err rc ->
  _run_mega_cmd args self w =
  (Ok (mkCMDResult (strip out) (strip err) rc), self, after_call w self args).
Proof.
  unfold answers, _run_mega_cmd, bind, get_mega_cmd_path, subprocess_run.
  simpl. intros ->. reflexivity.
Qed.

Lemma bind_ret {A B} (a : A) (f : A -> M B) : bind (ret a) f = f a.
Proof. reflexivity. Qed.

Lemma bind_run_completed {A} self w args out err rc (f : CMDResult -> M A) :
  answers w self args out err rc ->
  bind (_run_mega_cmd args) f self w =
  f (mkCMDResult (strip out) (strip err) rc) self (after_call w self args).
Proof.
  intros H. unfold bind at 1. rewrite (run_completed H). reflexivity.
Qed.

(** C4. Whatever the exit code of the process, zero or not,
    [_run_mega_cmd] returns the triple of the stripped standard output, the
    stripped standard error and that exit code, unclassified; it does not
    raise. *)
Theorem run_mega_cmd_returns_every_exit_code :
  forall (self : Wrapper) (w : World) (args : list string)
         (out err : string) (rc : Z),
    answers w self args out err rc ->
    exists res,
      result_of (_run_mega_cmd args self w) = Ok res
      /\ stdout res = strip out /\ stderr res = strip err
      /\ return_code res = rc.
Proof.
  intros self w args out err rc H. rewrite (run_completed H).
  eexists. repeat split.
Qed.

Lemma run_mega_cmd_returns_every_exit_code_witness :
  answers (steady "out" "err" 53) (mkWrapper "mega") ["cat"; "/x"] "out" "err" 53
  /\ exists res,
       result_of (_run_mega_cmd ["cat"; "/x"] (mkWrapper "mega")
                    (steady "out" "err" 53)) = Ok res
       /\ stdout res = strip "out" /\ stderr res = strip "err"
       /\ return_code res = 53%Z.
Proof.
  split; [reflexivity|].
  apply (@run_mega_cmd_returns_every_exit_code (mkWrapper "mega")
           (steady "out" "err" 53) ["cat"; "/x"] "out" "err" 53).
  reflexivity.
Defined.

(** ** Exit codes of [cmd_cd] and [cmd_cat] *)



(** ** Construction *)

(** C7, as the code has it.  With [check_path=True] the constructor runs
    [mega_cmd_path version]; when that run fails with [FileNotFoundError]
    (nothing is found at the path), the constructor raises a
    [FileNotFoundError] that names the path; when it fails with anything
    else ([NotADirectoryError], [PermissionError]), the constructor raises
    that exception as it is; in both cases no wrapper is returned.  With
    [check_path=False] the constructor returns the wrapper and runs
    nothing. *)
Theorem constructor_reports_missing_binary :
  forall (path : string) (w : World) (e : exn),
    os w (calls w) [path; "version"] = Failed e ->
    (forall m, e = FileNotFoundError m ->
               fst (MEGAcmdWrapper path true w)
               = Raise (FileNotFoundError
                          (Msg ("MEGAclient executable not found at path: "
                                ++ path))))
    /\ ((forall m, e <> FileNotFoundError m) ->
        fst (MEGAcmdWrapper path true w) = Raise e)
    /\ forall w', MEGAcmdWrapper path false w' = (Ok (mkWrapper path), w').
Proof.
  intros path w e H.
  assert (E : fst (MEGAcmdWrapper path true w)
              = match e with
                | FileNotFoundError _ =>
                    Raise (FileNotFoundError
                             (Msg ("MEGAclient executable not found at path: "
                                   ++ path)))
                | _ => Raise e
                end).
  { unfold MEGAcmdWrapper, __init__, bind, set_mega_cmd_path, try_except,
      cmd_version, _run_mega_cmd, bind, get_mega_cmd_path, subprocess_run.
    cbn [mega_cmd_path app]. rewrite H. destruct e; reflexivity. }
  split; [|split].
  - intros m ->. exact E.
  - intros Hother. rewrite E. destruct e; try reflexivity.
    exfalso. eapply Hother. reflexivity.
  - intros w'. reflexivity.
Qed.

Lemma constructor_reports_missing_binary_witness :
  fst (MEGAcmdWrapper "/opt/mega" true missing)
  = Raise (FileNotFoundError
             (Msg "MEGAclient executable not found at path: /opt/mega"))
  /\ MEGAcmdWrapper "/opt/mega" false missing = (Ok (mkWrapper "/opt/mega"), missing).
Proof.
  destruct (@constructor_reports_missing_binary "/opt/mega" missing
              (FileNotFoundError
                 (Msg "[Errno 2] No such file or directory: '/opt/mega'"))
              eq_refl)
    as (Hraise & _ & Hquiet).
  split; [exact (Hraise _ eq_refl) | apply Hquiet].
Defined.

(** C7 does not hold of every path without an executable: where a part of
    the path is a file, as in [/etc/hostname/mega], [subprocess.run] raises
    [NotADirectoryError], which [except FileNotFoundError] does not catch;
    the constructor raises it as it is, and not a [FileNotFoundError] that
    names the path. *)
Lemma constructor_passes_on_not_a_directory :
  let path := "/etc/hostname/mega" in
  let w := mkWorld (fun _ _ => Failed (OtherError "NotADirectoryError")) [] in
  os w (calls w) [path; "version"] = Failed (OtherError "NotADirectoryError")
  /\ fst (MEGAcmdWrapper path true w) = Raise (OtherError "NotADirectoryError")
  /\ fst (MEGAcmdWrapper path true w)
     <> Raise (FileNotFoundError
                 (Msg ("MEGAclient executable not found at path: " ++ path))).
Proof. repeat split. discriminate. Qed.

(** ** [cmd_login] checks its parameters first *)

(** C10. When no one of [email], [password], [auth_code] is truthy and
    [session] is [None], and when one of them is truthy while [session] is
    not [None], [cmd_login] raises [ValueError]; the wrapper and the list of
    commands run are as before, so no command was run. *)
Theorem login_rejects_zero_or_two_methods :
  forall (email password auth_code session : option string)
         (self : Wrapper) (w : World),
    (truthy email || truthy password || truthy auth_code = false
     /\ session = None)
    \/ (truthy email || truthy password || truthy auth_code = true
        /\ session <> None) ->
    cmd_login email password auth_code session self w
    = (Raise (ValueError
                (Msg "Invalid login parameters. Use only one login method.")),
       self, w).
Proof.
  intros email password auth_code session self w H. unfold cmd_login.
  destruct H as [[-> ->]|[-> Hs]]; [reflexivity|].
  destruct session; [reflexivity | contradiction].
Qed.

Lemma login_rejects_zero_or_two_methods_witness :
  cmd_login None (Some "") None None (mkWrapper "mega") (steady "" "" 0)
  = (Raise (ValueError
              (Msg "Invalid login parameters. Use only one login method.")),
     mkWrapper "mega", steady "" "" 0)
  /\ cmd_login (Some "a@b.c") (Some "pw") None (Some "sess") (mkWrapper "mega")
       (steady "" "" 0)
     = (Raise (ValueError
                 (Msg "Invalid login parameters. Use only one login method.")),
        mkWrapper "mega", steady "" "" 0).
Proof.
  split.
  - apply login_rejects_zero_or_two_methods. left. split; reflexivity.
  - apply login_rejects_zero_or_two_methods. right. split; [reflexivity | discriminate].
Defined.

(** ** The operations leave the wrapper as it is *)

Lemma keeps_ret {A} (a : A) : keeps_self (ret a).
Proof. intros self w. reflexivity. Qed.

Lemma keeps_raise {A} (e : exn) : keeps_self (@raise A e).
Proof. intros self w. reflexivity. Qed.

Lemma keeps_lift {A} (o : outcome A) : keeps_self (lift o).
Proof. intros self w. reflexivity. Qed.

Lemma keeps_assert c text : keeps_self (assert c text).
Proof. destruct c; intros self w; reflexivity. Qed.

Lemma keeps_bind {A B} (m : M A) (f : A -> M B) :
  keeps_self m -> (forall a, keeps_self (f a)) -> keeps_self (bind m f).
Proof.
  intros Hm Hf self w. unfold bind. specialize (Hm self w).
  destruct (m self w) as [[[a|e] self'] w']; unfold self_of in Hm; simpl in Hm;
    subst self'; [apply Hf | reflexivity].
Qed.

Lemma keeps_not_a_str x : keeps_self (not_a_str x).
Proof. destruct x; intros self w; reflexivity. Qed.

Lemma keeps_run args : keeps_self (_run_mega_cmd args).
Proof.
  intros self w. unfold _run_mega_cmd, bind, get_mega_cmd_path, subprocess_run.
  destruct (os w (calls w) _) as [out err rc|e]; reflexivity.
Qed.

Create HintDb keeps.
#[local] Hint Resolve keeps_ret keeps_raise keeps_lift keeps_assert keeps_run
  keeps_not_a_str : keeps.

(** One step through the text of a method: a sequencing, or a test. *)
Ltac keeps_step :=
  match goal with
  | |- keeps_self (bind _ _) => apply keeps_bind; [|intros ?]
  | |- keeps_self (if ?c then _ else _) => destruct c
  | |- keeps_self (match ?x with _ => _ end) => destruct x
  | |- keeps_self (let _ := _ in _) => cbv zeta
  | |- keeps_self _ => solve [auto with keeps]
  end.

Ltac keeps := repeat keeps_step.

(** C8. No operation writes to the wrapper: after any [cmd_*] call, whether
    it returns a value or raises, the wrapper (its only attribute,
    [mega_cmd_path], assigned by [__init__]) is what it was before. *)
Theorem operations_keep_the_wrapper :
  forall (op : Op) (self : Wrapper) (w : World),
    self_of (perform op self w) = self
    /\ mega_cmd_path (self_of (perform op self w)) = mega_cmd_path self.
Proof.
  assert (H : forall op, keeps_self (perform op)).
  { destruct op; unfold perform;
      (apply keeps_bind; [|intros; apply keeps_ret]).
    - unfold cmd_cat; keeps.
    - unfold cmd_cd; keeps.
    - unfold cmd_df; keeps.
    - unfold cmd_du; keeps.
    - unfold cmd_export, cmd_export__add, cmd_export__delete, cmd_export__list;
        keeps.
    - unfold cmd_export__add; keeps.
    - unfold cmd_export__delete; keeps.
    - unfold cmd_export__list; keeps.
    - unfold cmd_find; keeps.
    - unfold cmd_get; keeps.
    - unfold cmd_import; keeps.
    - unfold cmd_login; keeps.
    - unfold cmd_logout; keeps.
    - unfold cmd_lcd; keeps.
    - unfold cmd_lpwd; keeps.
    - unfold cmd_ls, ls_decode; keeps.
    - unfold cmd_put; keeps.
    - unfold cmd_pwd; keeps.
    - unfold cmd_session; keeps.
    - unfold cmd_tree; keeps.
    - unfold cmd_version; keeps.
    - unfold cmd_whoami; keeps. }
  intros op self w. rewrite (H op self w). split; reflexivity.
Qed.

(** ** Loops over the lines *)

Lemma for_each_app {S X} (body : S -> X -> outcome S) (xs ys : list X) :
  forall st,
    for_each body st (xs ++ ys)%list
    = (st' <~ for_each body st xs ;; for_each body st' ys).
Proof.
  induction xs as [|x xs IH]; intros st; simpl; [reflexivity|].
  destruct (body st x); simpl; [apply IH | reflexivity].
Qed.

(** Lines on which the body does nothing can be left out. *)
Lemma for_each_filter {S X} (body : S -> X -> outcome S) (known : X -> bool)
    (xs : list X) :
  (forall st x, known x = false -> body st x = Ok st) ->
  forall st, for_each body st xs = for_each body st (filter known xs).
Proof.
  intros Hskip. induction xs as [|x xs IH]; intros st; simpl; [reflexivity|].
  destruct (known x) eqn:E; simpl.
  - destruct (body st x); simpl; [apply IH | reflexivity].
  - rewrite (Hskip st x E). simpl. apply IH.
Qed.

Section Captured.

Variable R : string -> regex -> Prop.

Lemma Forall2_one gs b :
  Forall2 R gs [b] -> exists g, gs = [g] /\ R g b.
Proof.
  intros H. inversion H as [|g b' gs' bs' Hg Hrest]; subst.
  inversion Hrest; subst. eauto.
Qed.

Lemma Forall2_two gs b1 b2 :
  Forall2 R gs [b1; b2] -> exists g1 g2, gs = [g1; g2] /\ R g1 b1 /\ R g2 b2.
Proof.
  intros H. inversion H as [|g b' gs' bs' Hg Hrest]; subst.
  apply Forall2_one in Hrest. destruct Hrest as (g2 & -> & H2). eauto.
Qed.

Lemma Forall2_three gs b1 b2 b3 :
  Forall2 R gs [b1; b2; b3] ->
  exists g1 g2 g3, gs = [g1; g2; g3] /\ R g1 b1 /\ R g2 b2 /\ R g3 b3.
Proof.
  intros H. inversion H as [|g b' gs' bs' Hg Hrest]; subst.
  apply Forall2_two in Hrest. destruct Hrest as (g2 & g3 & -> & H2 & H3).
  eauto 7.
Qed.

Lemma Forall2_four gs b1 b2 b3 b4 :
  Forall2 R gs [b1; b2; b3; b4] ->
  exists g1 g2 g3 g4,
    gs = [g1; g2; g3; g4] /\ R g1 b1 /\ R g2 b2 /\ R g3 b3 /\ R g4 b4.
Proof.
  intros H. inversion H as [|g b' gs' bs' Hg Hrest]; subst.
  apply Forall2_three in Hrest.
  destruct Hrest as (g2 & g3 & g4 & -> & H2 & H3 & H4). eauto 9.
Qed.

End Captured.

(** ** Matching a line of a known form *)

Lemma rmatch_Seq r1 r2 k i s cs :
  rmatch (Seq r1 r2) k i s cs = rmatch r1 (rmatch r2 k) i s cs.
Proof. reflexivity. Qed.

Lemma rmatch_Str lit k s cs : forall i,
  rmatch (Str lit) k i (lit ++ s) cs = k (i + String.length lit)%nat s cs.
Proof.
  induction lit as [|c lit IH]; intros i; simpl.
  - rewrite Nat.add_0_r. reflexivity.
  - rewrite Ascii.eqb_refl, IH, Nat.add_succ_r. reflexivity.
Qed.

Lemma more_greedy_run p k w rest cs res : forall i,
  all_in p w -> head_kept p rest ->
  k (i + String.length w)%nat rest cs = Some res ->
  more_greedy p k i (w ++ rest) cs = Some res.
Proof.
  unfold all_in. induction w as [|c w IH]; intros i Hw Hrest Hk; simpl in *.
  - rewrite Nat.add_0_r in Hk.
    destruct rest as [|d rest]; simpl in *; [exact Hk|].
    rewrite Hrest. exact Hk.
  - apply andb_true_iff in Hw. destruct Hw as [Hc Hw]. rewrite Hc.
    rewrite (IH (S i) Hw Hrest); [reflexivity|].
    rewrite Nat.add_succ_r in Hk. exact Hk.
Qed.

Lemma rmatch_Plus_run p k w rest cs res i :
  w <> "" -> all_in p w -> head_kept p rest ->
  k (i + String.length w)%nat rest cs = Some res ->
  rmatch (Plus p) k i (w ++ rest) cs = Some res.
Proof.
  destruct w as [|c w]; [contradiction|]. intros _ Hw Hrest Hk.
  unfold all_in in Hw. simpl in *.
  apply andb_true_iff in Hw. destruct Hw as [Hc Hw]. rewrite Hc.
  apply more_greedy_run; [exact Hw | exact Hrest|].
  rewrite Nat.add_succ_r in Hk. exact Hk.
Qed.

Lemma rmatch_Grp_Plus_run p k w rest cs res i :
  w <> "" -> all_in p w -> head_kept p rest ->
  k (i + String.length w)%nat rest (cs ++ [w])%list = Some res ->
  rmatch (Grp (Plus p)) k i (w ++ rest) cs = Some res.
Proof.
  intros Hne Hw Hrest Hk. cbn [rmatch].
  apply (@rmatch_Plus_run p
           (fun i' s' cs' => k i' s' (cs' ++ [take (i' - i) (w ++ rest)])%list));
    try assumption.
  replace (i + String.length w - i)%nat with (String.length w) by lia.
  rewrite take_app_length. exact Hk.
Qed.

Lemma spaces_all n : all_in space (spaces n).
Proof. unfold all_in. induction n; simpl; [reflexivity | exact IHn]. Qed.

(** *** What a match of a part says of the text *)

Lemma rmatch_Str_inv lit k : forall i s cs res,
  rmatch (Str lit) k i s cs = Some res ->
  exists s', s = lit ++ s' /\ k (i + String.length lit)%nat s' cs = Some res.
Proof.
  induction lit as [|c lit IH]; intros i s cs res H.
  - exists s. rewrite Nat.add_0_r. split; [reflexivity | exact H].
  - cbn [Str rmatch] in H. destruct s as [|d rest]; [discriminate|].
    destruct (Ascii.eqb_spec c d) as [<-|]; [|discriminate].
    destruct (IH _ _ _ _ H) as (s' & -> & Hk).
    exists s'. cbn [String.length]. rewrite Nat.add_succ_r.
    split; [reflexivity | exact Hk].
Qed.

Lemma rmatch_Plus_inv p k i s cs res :
  rmatch (Plus p) k i s cs = Some res ->
  exists w s',
    s = w ++ s' /\ w <> "" /\ all_in p w
    /\ k (i + String.length w)%nat s' cs = Some res.
Proof.
  intros H.
  destruct (rmatch_sound _ _ _ _ _ H) as (w & s' & gs & Hs & [Hne Hall] & Hgs & Hk).
  unfold captured in Hgs. cbn [groups] in Hgs. inversion Hgs; subst gs.
  rewrite app_nil_r in Hk. exists w, s'. auto.
Qed.

Lemma rmatch_Grp_Plus_inv p k i s cs res :
  rmatch (Grp (Plus p)) k i s cs = Some res ->
  exists w s',
    s = w ++ s' /\ w <> "" /\ all_in p w
    /\ k (i + String.length w)%nat s' (cs ++ [w])%list = Some res.
Proof.
  intros H. cbn [rmatch] in H.
  destruct (rmatch_Plus_inv _ _ _ _ _ H) as (w & s' & -> & Hne & Hall & Hk).
  replace (i + String.length w - i)%nat with (String.length w) in Hk by lia.
  rewrite take_app_length in Hk. exists w, s'. auto.
Qed.

Lemma rmatch_end_inv i s cs res :
  rmatch (Seq Eol Eps) accept i s cs = Some res ->
  (s = "" \/ s = nl) /\ res = cs.
Proof.
  cbn [rmatch]. destruct s as [|d [|e rest]]; [| |discriminate].
  - intros H. injection H as <-. auto.
  - destruct (is_lf d) eqn:E; [|discriminate].
    intros H. injection H as <-. split; [right|reflexivity].
    unfold is_lf in E. apply Nat.eqb_eq in E. unfold nl.
    rewrite <- (ascii_nat_embedding d). unfold code in E. rewrite E. reflexivity.
Qed.

Lemma rmatch_end i t cs :
  t = "" \/ t = nl -> rmatch (Seq Eol Eps) accept i t cs = Some cs.
Proof. intros [->| ->]; reflexivity. Qed.

(** *** Characters of one class are not of another *)

Lemma digit_not_space c : digit c = true -> space c = false.
Proof.
  unfold digit, space, isdigit, isspace. set (n := code c). clearbody n.
  intros H. apply andb_true_iff in H. destruct H as [H1 H2].
  apply Nat.leb_le in H1, H2.
  repeat match goal with
         | |- context [(?a <=? ?b)%nat] => destruct (Nat.leb_spec a b)
         | |- context [(?a =? ?b)%nat] => destruct (Nat.eqb_spec a b)
         end; try reflexivity; lia.
Qed.

Lemma space_not_digit c : space c = true -> digit c = false.
Proof.
  intros H. destruct (digit c) eqn:E; [|reflexivity].
  rewrite (digit_not_space c E) in H. discriminate H.
Qed.

Lemma digit_not_colon c : digit c = true -> isnot ":" c = true.
Proof.
  unfold digit, isdigit, isnot. intros H.
  cbn [mem]. rewrite orb_false_r.
  destruct (Ascii.eqb_spec c ":") as [->|]; [discriminate H | reflexivity].
Qed.

Lemma head_kept_app p q w rest :
  w <> "" -> all_in q w -> (forall c, q c = true -> p c = false) ->
  head_kept p (w ++ rest).
Proof.
  destruct w as [|c w]; [contradiction|]. intros _ Hw Hpq.
  unfold all_in in Hw. simpl in Hw. apply andb_true_iff in Hw.
  simpl. apply Hpq. exact (proj1 Hw).
Qed.

(** *** What [strip] leaves does not end with a line feed *)

Lemma endswith_of_lstrip p z suf :
  endswith (lstrip_by p z) suf = true -> endswith z suf = true.
Proof.
  induction z as [|c z IH]; [trivial|]. simpl lstrip_by.
  destruct (p c); [|trivial]. intros H.
  change (endswith (String c z) suf)
    with (String.eqb (String c z) suf || endswith z suf).
  rewrite (IH H). apply orb_true_r.
Qed.

Lemma strip_no_final_newline s x : strip s = x ++ nl -> False.
Proof.
  intros H.
  assert (E : endswith (strip s) nl = true) by (rewrite H; apply endswith_snoc).
  unfold strip in E. apply endswith_of_lstrip in E.
  apply rstrip_by_last in E. discriminate E.
Qed.

Lemma append_nil_r (s : string) : s ++ "" = s.
Proof. induction s as [|c s IH]; simpl; [|rewrite IH]; reflexivity. Qed.

(** ** [cmd_du] *)

(** *** The two patterns, by the form of the text *)

Lemma rmatch_Bol k s cs : rmatch Bol k 0 s cs = k 0 s cs.
Proof. reflexivity. Qed.

Lemma head_kept_end p t : t = "" \/ t = nl -> p "010"%char = false -> head_kept p t.
Proof. intros [->| ->] H; [exact I | exact H]. Qed.

(** [RE_DU_TOTAL] matches a text exactly when it is a total text, followed
    by nothing or by one line feed; the groups are its two numbers. *)
Lemma du_total_pattern s gs :
  py_match RE_DU_TOTAL s = Some gs <->
  exists x t a b,
    s = x ++ t /\ (t = "" \/ t = nl) /\ du_total_text x a b /\ gs = [a; b].
Proof.
  unfold py_match, RE_DU_TOTAL, cat. cbn [fold_right]. split.
  - intros H. rewrite rmatch_Seq, rmatch_Bol in H.
    rewrite rmatch_Seq in H. apply rmatch_Str_inv in H.
    destruct H as (s1 & -> & H).
    rewrite rmatch_Seq in H. apply rmatch_Plus_inv in H.
    destruct H as (w1 & s2 & -> & Hw1n & Hw1 & H).
    rewrite rmatch_Seq in H. apply rmatch_Grp_Plus_inv in H.
    destruct H as (a & s3 & -> & Han & Ha & H).
    rewrite rmatch_Seq in H. apply rmatch_Plus_inv in H.
    destruct H as (w2 & s4 & -> & Hw2n & Hw2 & H).
    rewrite rmatch_Seq in H. apply rmatch_Grp_Plus_inv in H.
    destruct H as (b & t & -> & Hbn & Hb & H).
    apply rmatch_end_inv in H. destruct H as [Ht ->].
    exists ("Total storage used:" ++ w1 ++ a ++ w2 ++ b), t, a, b.
    repeat split; try assumption.
    + rewrite !string_app_assoc. reflexivity.
    + exists w1, w2. unfold blanks, digits. auto 10.
  - intros (x & t & a & b & -> & Ht & (w1 & w2 & -> & [Hw1n Hw1] & [Han Ha]
                                        & [Hw2n Hw2] & [Hbn Hb]) & ->).
    rewrite !string_app_assoc.
    rewrite rmatch_Seq, rmatch_Bol, rmatch_Seq, rmatch_Str, rmatch_Seq.
    apply rmatch_Plus_run; [exact Hw1n | exact Hw1 | |].
    { exact (@head_kept_app space digit a _ Han Ha digit_not_space). }
    rewrite rmatch_Seq.
    apply rmatch_Grp_Plus_run; [exact Han | exact Ha | |].
    { exact (@head_kept_app digit space w2 _ Hw2n Hw2 space_not_digit). }
    rewrite rmatch_Seq.
    apply rmatch_Plus_run; [exact Hw2n | exact Hw2 | |].
    { exact (@head_kept_app space digit b _ Hbn Hb digit_not_space). }
    rewrite rmatch_Seq.
    apply rmatch_Grp_Plus_run; [exact Hbn | exact Hb | |].
    { apply head_kept_end; [exact Ht | reflexivity]. }
    apply rmatch_end. exact Ht.
Qed.

(** [RE_DU_ENTRY] matches a text exactly when it is an entry text, followed
    by nothing or by one line feed; the groups are the path and the two
    numbers. *)
Lemma du_entry_pattern s gs :
  py_match RE_DU_ENTRY s = Some gs <->
  exists x t p a b,
    s = x ++ t /\ (t = "" \/ t = nl) /\ du_entry_text x p a b /\ gs = [p; a; b].
Proof.
  unfold py_match, RE_DU_ENTRY, cat. cbn [fold_right]. split.
  - intros H. rewrite rmatch_Seq, rmatch_Bol in H.
    rewrite rmatch_Seq in H. apply rmatch_Grp_Plus_inv in H.
    destruct H as (p & s0 & -> & Hpn & Hp & H).
    rewrite rmatch_Seq in H. apply rmatch_Str_inv in H.
    destruct H as (s1 & -> & H).
    rewrite rmatch_Seq in H. apply rmatch_Plus_inv in H.
    destruct H as (w1 & s2 & -> & Hw1n & Hw1 & H).
    rewrite rmatch_Seq in H. apply rmatch_Grp_Plus_inv in H.
    destruct H as (a & s3 & -> & Han & Ha & H).
    rewrite rmatch_Seq in H. apply rmatch_Plus_inv in H.
    destruct H as (w2 & s4 & -> & Hw2n & Hw2 & H).
    rewrite rmatch_Seq in H. apply rmatch_Grp_Plus_inv in H.
    destruct H as (b & t & -> & Hbn & Hb & H).
    apply rmatch_end_inv in H. destruct H as [Ht ->].
    exists (p ++ ":" ++ w1 ++ a ++ w2 ++ b), t, p, a, b.
    repeat split; try assumption.
    + rewrite !string_app_assoc. reflexivity.
    + exists w1, w2. unfold blanks, digits. auto 10.
  - intros (x & t & p & a & b & -> & Ht
            & (w1 & w2 & -> & Hpn & Hp & [Hw1n Hw1] & [Han Ha]
               & [Hw2n Hw2] & [Hbn Hb]) & ->).
    rewrite !string_app_assoc.
    rewrite rmatch_Seq, rmatch_Bol, rmatch_Seq.
    apply rmatch_Grp_Plus_run; [exact Hpn | exact Hp | reflexivity |].
    rewrite rmatch_Seq, rmatch_Str, rmatch_Seq.
    apply rmatch_Plus_run; [exact Hw1n | exact Hw1 | |].
    { exact (@head_kept_app space digit a _ Han Ha digit_not_space). }
    rewrite rmatch_Seq.
    apply rmatch_Grp_Plus_run; [exact Han | exact Ha | |].
    { exact (@head_kept_app digit space w2 _ Hw2n Hw2 space_not_digit). }
    rewrite rmatch_Seq.
    apply rmatch_Plus_run; [exact Hw2n | exact Hw2 | |].
    { exact (@head_kept_app space digit b _ Hbn Hb digit_not_space). }
    rewrite rmatch_Seq.
    apply rmatch_Grp_Plus_run; [exact Hbn | exact Hb | |].
    { apply head_kept_end; [exact Ht | reflexivity]. }
    apply rmatch_end. exact Ht.
Qed.

(** On a stripped line the end of the pattern is the end of the text. *)
Lemma du_total_stripped line gs :
  py_match RE_DU_TOTAL (strip line) = Some gs <->
  exists a b, du_total_text (strip line) a b /\ gs = [a; b].
Proof.
  rewrite du_total_pattern. split.
  - intros (x & t & a & b & Hs & [->| ->] & Htext & ->).
    + rewrite append_nil_r in Hs. rewrite Hs. eauto.
    + destruct (strip_no_final_newline _ _ Hs).
  - intros (a & b & Htext & ->).
    exists (strip line), "", a, b. rewrite append_nil_r. auto.
Qed.

Lemma du_entry_stripped line gs :
  py_match RE_DU_ENTRY (strip line) = Some gs <->
  exists p a b, du_entry_text (strip line) p a b /\ gs = [p; a; b].
Proof.
  rewrite du_entry_pattern. split.
  - intros (x & t & p & a & b & Hs & [->| ->] & Htext & ->).
    + rewrite append_nil_r in Hs. rewrite Hs. eauto.
    + destruct (strip_no_final_newline _ _ Hs).
  - intros (p & a & b & Htext & ->).
    exists (strip line), "", p, a, b. rewrite append_nil_r. auto.
Qed.

Lemma digits_have_a_value a : digits a -> exists x, digits_value 0 a = Some x.
Proof. intros [_ Ha]. exact (digits_value_all 0 Ha). Qed.

(** The lines taken as a total are the lines of the form of a total. *)
Lemma du_is_total_iff line :
  du_is_total line = true <-> exists x y, du_total_line line x y.
Proof.
  unfold du_is_total, du_total_line. split.
  - destruct (py_match RE_DU_TOTAL (strip line)) as [gs|] eqn:E; [|discriminate].
    intros _. apply du_total_stripped in E.
    destruct E as (a & b & Htext & _).
    assert (Hd := Htext). destruct Hd as (w1 & w2 & _ & _ & Ha & _ & Hb).
    destruct (digits_have_a_value Ha) as [x Hx].
    destruct (digits_have_a_value Hb) as [y Hy].
    exists x, y, a, b. auto.
  - intros (x & y & a & b & Htext & _).
    assert (E : py_match RE_DU_TOTAL (strip line) = Some [a; b])
      by (apply du_total_stripped; eauto).
    rewrite E. reflexivity.
Qed.

(** The lines taken as an entry are the lines of the form of an entry that
    are not of the form of a total. *)
Lemma du_is_entry_iff line :
  du_is_entry line = true <->
  du_is_total line = false /\ exists e, du_entry_line line e.
Proof.
  unfold du_is_entry, du_entry_line. split.
  - intros H. apply andb_true_iff in H. destruct H as [Ht He].
    apply negb_true_iff in Ht. split; [exact Ht|].
    destruct (py_match RE_DU_ENTRY (strip line)) as [gs|] eqn:E; [|discriminate].
    apply du_entry_stripped in E. destruct E as (p & a & b & Htext & _).
    assert (Hd := Htext).
    destruct Hd as (w1 & w2 & _ & _ & _ & _ & Ha & _ & Hb).
    destruct (digits_have_a_value Ha) as [x Hx].
    destruct (digits_have_a_value Hb) as [y Hy].
    exists (mkMEGADuEntry p x y), a, b. auto.
  - intros (Ht & e & a & b & Htext & _). rewrite Ht.
    assert (E : py_match RE_DU_ENTRY (strip line)
                = Some [du_remote_path e; a; b])
      by (apply du_entry_stripped; eauto).
    rewrite E. reflexivity.
Qed.

(** *** The loop over the lines *)

(** [int] on a group of digits found in the line [line]: the value of the
    digits, or the refusal of a number over the limit. *)
Lemma py_int_within line g :
  lang (Plus digit) g -> (String.length g <= String.length line)%nat ->
  (exists n, py_int g = Ok n /\ digits_value 0 g = Some n)
  \/ (exists m, (int_max_str_digits < m <= String.length line)%nat
                /\ py_int g = Raise (int_limit_error m)).
Proof.
  intros Hg Hlen. destruct (@py_int_cases g Hg) as [(n & Hn & Hv & _)|[Hover Hr]].
  - left. eauto.
  - right. exists (String.length g). split; [lia | exact Hr].
Qed.

Lemma int_refused_short {A} lines (r : outcome A) :
  Forall short lines -> int_refused lines r -> False.
Proof.
  intros Hall (l & Hin & n & Hn & _).
  rewrite Forall_forall in Hall. specialize (Hall l Hin). unfold short in Hall. lia.
Qed.

Lemma int_refused_cons {A} l lines (r : outcome A) :
  int_refused lines r -> int_refused (l :: lines) r.
Proof. intros (l' & Hin & H). exists l'. split; [right; exact Hin | exact H]. Qed.

Lemma int_refused_head {A} l lines (r : outcome A) :
  int_refused_at l r -> int_refused (l :: lines) r.
Proof. intros H. exists l. split; [left; reflexivity | exact H]. Qed.

(** What one round of the loop does, by the kind of the line. *)
Lemma du_line_cases r line :
  (du_is_total line = true /\
   exists x y, du_total_line line x y
               /\ du_line r line = Ok (mkMEGADuResult (entries r) x y))
  \/ (du_is_total line = false /\ du_is_entry line = true /\
      exists e, du_entry_line line e
                /\ du_line r line
                   = Ok (mkMEGADuResult (entries r ++ [e])%list (size_total r)
                           (size_total_with_versions r)))
  \/ (du_is_total line = false /\ du_is_entry line = false /\ du_line r line = Ok r)
  \/ int_refused_at line (du_line r line).
Proof.
  pose proof (strip_length line) as Hstrip.
  unfold du_is_entry, du_is_total, du_line, du_total_line, du_entry_line,
    int_refused_at.
  destruct (py_match RE_DU_TOTAL (strip line)) as [gs|] eqn:Et.
  - pose proof (py_match_bounded _ _ Et) as Hb.
    apply du_total_stripped in Et. destruct Et as (a & b & Htext & ->).
    assert (Hd := Htext). destruct Hd as (w1 & w2 & _ & _ & Ha & _ & Hb').
    inversion Hb as [|? ? Hla Hb2]; subst. inversion Hb2 as [|? ? Hlb _]; subst.
    cbn [group nth_error Nat.sub obind].
    destruct (@py_int_within line a Ha ltac:(lia)) as [(x & -> & Hx)|(m & Hm & ->)];
      cbn [obind]; [|right; right; right; eauto].
    destruct (@py_int_within line b Hb' ltac:(lia)) as [(y & -> & Hy)|(m & Hm & ->)];
      cbn [obind]; [|right; right; right; eauto].
    left. split; [reflexivity|]. exists x, y. split; [|reflexivity].
    exists a, b. auto.
  - destruct (py_match RE_DU_ENTRY (strip line)) as [gs|] eqn:Ee.
    + pose proof (py_match_bounded _ _ Ee) as Hb.
      apply du_entry_stripped in Ee. destruct Ee as (p & a & b & Htext & ->).
      assert (Hd := Htext).
      destruct Hd as (w1 & w2 & _ & _ & _ & _ & Ha & _ & Hb').
      inversion Hb as [|? ? _ Hb1]; subst. inversion Hb1 as [|? ? Hla Hb2]; subst.
      inversion Hb2 as [|? ? Hlb _]; subst.
      cbn [unpack3 obind].
      destruct (@py_int_within line a Ha ltac:(lia)) as [(x & -> & Hx)|(m & Hm & ->)];
        cbn [obind]; [|right; right; right; eauto].
      destruct (@py_int_within line b Hb' ltac:(lia)) as [(y & -> & Hy)|(m & Hm & ->)];
        cbn [obind]; [|right; right; right; eauto].
      right. left. repeat split. exists (mkMEGADuEntry p x y). split; [|reflexivity].
      exists a, b. auto.
    + right. right. left. auto.
Qed.

Lemma du_loop lines : forall before,
  (exists r es,
     for_each du_line before lines = Ok r
     /\ entries r = (entries before ++ es)%list
     /\ Forall2 du_entry_line (filter du_is_entry lines) es
     /\ du_totals_of lines before r)
  \/ int_refused lines (for_each du_line before lines).
Proof.
  unfold du_totals_of.
  induction lines as [|l rest IH]; intros before.
  - left. exists before, []. simpl. rewrite app_nil_r. auto.
  - cbn [for_each filter last_such].
    destruct (du_line_cases before l)
      as [(Ht & x & y & Hxy & Hl)|[(Ht & He & e & Hfrom & Hl)
                                  |[(Ht & He & Hl)|(n & Hn & Hl)]]];
      rewrite Hl; cbn [obind];
      [| | |right; apply int_refused_head; exists n; auto];
      match goal with
      | |- context [for_each du_line ?st rest] =>
          destruct (IH st) as [(r & es & Hloop & Hes & Hall & Htot)|Hr];
            [|right; apply int_refused_cons; exact Hr]
      end;
      left; rewrite Hloop; cbn [entries size_total size_total_with_versions] in *.
    + assert (He : du_is_entry l = false)
        by (unfold du_is_entry; rewrite Ht; reflexivity).
      rewrite He, Ht. exists r, es. repeat split; try assumption.
      destruct (last_such du_is_total rest); [exact Htot|].
      destruct Htot as [-> ->]. exact Hxy.
    + rewrite He, Ht. exists r, (e :: es). repeat split.
      * rewrite Hes, <- app_assoc. reflexivity.
      * constructor; assumption.
      * destruct (last_such du_is_total rest); exact Htot.
    + rewrite He, Ht. exists r, es. repeat split; try assumption.
      destruct (last_such du_is_total rest); exact Htot.
Qed.

Lemma cmd_du_completed self w remote_paths out err :
  answers w self (du_args remote_paths) out err 0 ->
  result_of (cmd_du (inr remote_paths) self w)
  = for_each du_line du_init (splitlines (strip (strip out))).
Proof.
  intros H. unfold cmd_du. cbn [not_a_str]. rewrite bind_ret.
  change (["du"; "--versions"]
          ++ map (fun p => clean_remote_path p false) remote_paths)%list
    with (du_args remote_paths).
  rewrite (bind_run_completed _ H). cbn [return_code stdout Z.eqb negb].
  reflexivity.
Qed.

Lemma du_report lines :
  (exists rep, for_each du_line du_init lines = Ok rep /\ du_report_of lines rep)
  \/ int_refused lines (for_each du_line du_init lines).
Proof.
  destruct (du_loop lines du_init) as [(r & es & Hloop & Hes & Hall & Htot)|Hr];
    [left | right; exact Hr].
  exists r. split; [exact Hloop|]. split.
  - rewrite Hes. exact Hall.
  - exact Htot.
Qed.

(** C6. On exit code 0 [cmd_du] returns a report whose entries are, in the
    order of the lines, the path and the two integers of each entry line,
    and whose totals are the two integers of the (last) total line, or 0
    and 0 when no line is a total line; the one other outcome is the
    [ValueError] of [int] on a number of more than 4300 digits, which no
    output of lines of at most 4300 characters has.  A total line is a line
    that, stripped, reads [Total storage used:], blanks, digits, blanks,
    digits; an entry line is a line that is no total line and, stripped,
    reads a path without colon, a colon, blanks, digits, blanks, digits. *)
Theorem du_report_follows_the_lines :
  forall (self : Wrapper) (w : World) (remote_paths : list string)
         (out err : string),
    answers w self (du_args remote_paths) out err 0 ->
    let lines := splitlines (strip (strip out)) in
    let r := result_of (cmd_du (inr remote_paths) self w) in
    ((exists rep, r = Ok rep /\ du_report_of lines rep) \/ int_refused lines r)
    /\ (Forall short lines -> exists rep, r = Ok rep /\ du_report_of lines rep)
    /\ (forall l, du_is_total l = true <-> exists x y, du_total_line l x y)
    /\ (forall l, du_is_entry l = true <->
                  du_is_total l = false /\ exists e, du_entry_line l e).
Proof.
  intros self w remote_paths out err H lines r.
  assert (Hr : (exists rep, r = Ok rep /\ du_report_of lines rep)
               \/ int_refused lines r).
  { subst r. rewrite (cmd_du_completed H). exact (du_report lines). }
  split; [exact Hr|]. split; [|split].
  - intros Hshort. destruct Hr as [Hr|Hr]; [exact Hr|].
    destruct (int_refused_short Hshort Hr).
  - exact du_is_total_iff.
  - exact du_is_entry_iff.
Qed.

Lemma du_report_follows_the_lines_witness :
  let out := "FILENAME  SIZE" ++ nl ++ "/a: 1 2" ++ nl ++ "b:  30   41" ++ nl
             ++ "----" ++ nl ++ "Total storage used: 31 43" in
  let self := mkWrapper "mega" in
  let w := steady out "" 0 in
  let lines := splitlines (strip (strip out)) in
  let r := result_of (cmd_du (inr ["/a"; "b"]) self w) in
  answers w self (du_args ["/a"; "b"]) out "" 0
  /\ r = Ok (mkMEGADuResult [mkMEGADuEntry "/a" 1 2; mkMEGADuEntry "b" 30 41]
               31 43)
  /\ ((exists rep, r = Ok rep /\ du_report_of lines rep) \/ int_refused lines r)
  /\ (Forall short lines -> exists rep, r = Ok rep /\ du_report_of lines rep)
  /\ (forall l, du_is_total l = true <-> exists x y, du_total_line l x y)
  /\ (forall l, du_is_entry l = true <->
                du_is_total l = false /\ exists e, du_entry_line l e).
Proof.
  intros out self w lines r. split; [reflexivity|]. split; [reflexivity|].
  apply (@du_report_follows_the_lines self w ["/a"; "b"] out "").
  reflexivity.
Defined.

(** ** [cmd_df] *)

Lemma used_storage_line_matches n1 n2 n3 :
  py_match RE_DF_TOTAL (used_storage_line n1 n2 n3)
  = Some ["1000"; "50.0"; "2000"].
Proof.
  unfold py_match, RE_DF_TOTAL, cat, used_storage_line. cbn [fold_right].
  rewrite rmatch_Seq, rmatch_Str, rmatch_Seq.
  apply rmatch_Plus_run;
    [discriminate | apply spaces_all | reflexivity |].
  rewrite rmatch_Seq.
  apply rmatch_Grp_Plus_run; [discriminate | reflexivity | reflexivity |].
  rewrite rmatch_Seq.
  apply rmatch_Plus_run;
    [discriminate | apply spaces_all | reflexivity |].
  rewrite rmatch_Seq.
  change ("50.0% of" ++ spaces (S n3) ++ "2000")
    with ("50.0" ++ "% of" ++ spaces (S n3) ++ "2000").
  apply rmatch_Grp_Plus_run; [discriminate | reflexivity | reflexivity |].
  rewrite rmatch_Seq, rmatch_Str, rmatch_Seq.
  apply rmatch_Plus_run;
    [discriminate | apply spaces_all | reflexivity |].
  rewrite rmatch_Seq.
  change "2000" with ("2000" ++ "") at 1.
  apply rmatch_Grp_Plus_run; [discriminate | reflexivity | exact I |].
  reflexivity.
Qed.

Lemma three_ints r l :
  groups r = [Plus digit; Plus digit; Plus digit] ->
  py_match r l = None \/
  exists a b c,
    py_match r l = Some [a; b; c]
    /\ lang (Plus digit) a /\ lang (Plus digit) b /\ lang (Plus digit) c
    /\ (String.length a <= String.length l)%nat
    /\ (String.length b <= String.length l)%nat
    /\ (String.length c <= String.length l)%nat.
Proof.
  intros Hg. destruct (py_match r l) as [caps|] eqn:E; [right | left; reflexivity].
  pose proof (py_match_bounded _ _ E) as Hb.
  apply py_match_captured in E. unfold captured in E. rewrite Hg in E.
  apply Forall2_three in E. destruct E as (a & b & c & -> & Ha & Hb' & Hc).
  inversion Hb as [|? ? Hla Hb1]; subst. inversion Hb1 as [|? ? Hlb Hb2]; subst.
  inversion Hb2 as [|? ? Hlc _]; subst.
  exists a, b, c. auto 10.
Qed.

(** One of the three [if]s that read three integers: the fields are left
    as they are, or set to three integers that are not negative, or [int]
    refuses a number of the line. *)
Lemma df_three_cases r l set st :
  groups r = [Plus digit; Plus digit; Plus digit] ->
  df_three (py_match r l) set st = Ok st
  \/ (exists x y z,
        ((0 <= x)%Z /\ (0 <= y)%Z /\ (0 <= z)%Z)
        /\ df_three (py_match r l) set st = Ok (set x y z st))
  \/ int_refused_at l (df_three (py_match r l) set st).
Proof.
  intros Hg. unfold int_refused_at.
  destruct (@three_ints r l Hg)
    as [->|(a & b & c & -> & Ha & Hb & Hc & Hla & Hlb & Hlc)].
  - left. reflexivity.
  - right. unfold df_three. cbn [group nth_error Nat.sub obind].
    destruct (@py_int_within l a Ha Hla) as [(x & Hx & Hvx)|(m & Hm & ->)];
      [rewrite Hx|right; eauto]; cbn [obind].
    destruct (@py_int_within l b Hb Hlb) as [(y & Hy & Hvy)|(m & Hm & ->)];
      [rewrite Hy|right; eauto]; cbn [obind].
    destruct (@py_int_within l c Hc Hlc) as [(z & Hz & Hvz)|(m & Hm & ->)];
      [rewrite Hz|right; eauto]; cbn [obind].
    left. exists x, y, z. split; [|reflexivity].
    pose proof (@py_int_nonneg _ _ Hx). pose proof (@py_int_nonneg _ _ Hy).
    pose proof (@py_int_nonneg _ _ Hz). auto.
Qed.

(** The last [if], on the line of the file versions. *)
Lemma df_versions_cases l st :
  exists o,
    (match py_match RE_DF_VERSIONS l with
     | Some gs => g1 <~ group gs 1 ;; a <~ py_int g1 ;; Ok (df_set_versions a st)
     | None => Ok st
     end) = o
    /\ (o = Ok st
        \/ (exists x, (0 <= x)%Z /\ o = Ok (df_set_versions x st))
        \/ int_refused_at l o).
Proof.
  eexists. split; [reflexivity|].
  destruct (py_match RE_DF_VERSIONS l) as [caps|] eqn:E; [right | left; reflexivity].
  pose proof (py_match_bounded _ _ E) as Hb.
  apply py_match_captured in E. unfold captured in E.
  change (groups RE_DF_VERSIONS) with [Plus digit] in E.
  apply Forall2_one in E. destruct E as (a & -> & Ha).
  inversion Hb as [|? ? Hla _]; subst.
  cbn [group nth_error Nat.sub obind]. unfold int_refused_at.
  destruct (@py_int_within l a Ha Hla) as [(x & Hx & Hvx)|(m & Hm & ->)];
    [rewrite Hx|right; eauto]; cbn [obind].
  left. exists x. split; [exact (@py_int_nonneg _ _ Hx) | reflexivity].
Qed.

(** A line that is not a [USED STORAGE] line leaves the three fields of the
    used storage as they are, unless [int] refuses a number of it. *)
Lemma df_line_other st l :
  py_match RE_DF_TOTAL l = None ->
  (exists st', df_line st l = Ok st' /\ same_usage st st')
  \/ int_refused_at l (df_line st l).
Proof.
  intros Ht. unfold df_line. rewrite Ht. unfold same_usage.
  destruct (@df_three_cases RE_DF_CLOUD l df_set_cloud st eq_refl)
    as [->|[(x & y & z & _ & ->)|(n & Hn & ->)]]; cbn [obind];
    try (right; exists n; split; [exact Hn | reflexivity]);
  match goal with |- context [df_three (py_match RE_DF_INBOX l) df_set_inbox ?s] =>
    destruct (@df_three_cases RE_DF_INBOX l df_set_inbox s eq_refl)
      as [->|[(x1 & y1 & z1 & _ & ->)|(n & Hn & ->)]] end; cbn [obind];
    try (right; exists n; split; [exact Hn | reflexivity]);
  match goal with |- context [df_three (py_match RE_DF_BIN l) df_set_bin ?s] =>
    destruct (@df_three_cases RE_DF_BIN l df_set_bin s eq_refl)
      as [->|[(x2 & y2 & z2 & _ & ->)|(n & Hn & ->)]] end; cbn [obind];
    try (right; exists n; split; [exact Hn | reflexivity]);
  match goal with |- context [df_set_versions _ ?s] =>
    destruct (df_versions_cases l s) as (o & -> & [->|[(x3 & _ & ->)|(n & Hn & ->)]])
  end;
    try (right; exists n; split; [exact Hn | reflexivity]);
  left; eexists; split; try reflexivity; repeat split.
Qed.

Lemma df_loop_other ls :
  Forall (fun l => py_match RE_DF_TOTAL l = None) ls ->
  forall st,
    (exists st', for_each df_line st ls = Ok st' /\ same_usage st st')
    \/ int_refused ls (for_each df_line st ls).
Proof.
  induction 1 as [|l ls Hl _ IH]; intros st; cbn [for_each].
  - left. exists st. repeat split.
  - destruct (@df_line_other st l Hl) as [(st1 & -> & H1 & H2 & H3)|(n & Hn & ->)];
      cbn [obind].
    + destruct (IH st1) as [(st' & -> & H1' & H2' & H3')|Hr].
      * left. exists st'. unfold same_usage. repeat split; congruence.
      * right. apply int_refused_cons. exact Hr.
    + right. apply int_refused_head. exists n. auto.
Qed.

Lemma df_line_used_storage st n1 n2 n3 :
  df_line st (used_storage_line n1 n2 n3)
  = Ok (df_set_total 1000 (float_of_int 50) 2000 st).
Proof.
  unfold df_line. rewrite used_storage_line_matches.
  change (py_match RE_DF_CLOUD (used_storage_line n1 n2 n3))
    with (@None (list string)).
  change (py_match RE_DF_INBOX (used_storage_line n1 n2 n3))
    with (@None (list string)).
  change (py_match RE_DF_BIN (used_storage_line n1 n2 n3))
    with (@None (list string)).
  change (py_match RE_DF_VERSIONS (used_storage_line n1 n2 n3))
    with (@None (list string)).
  reflexivity.
Qed.

Lemma int_refused_app {A} pre l post (r : outcome A) :
  int_refused pre r \/ int_refused post r -> int_refused (pre ++ post) r
  /\ int_refused (pre ++ l :: post) r.
Proof.
  intros [(x & Hin & H)|(x & Hin & H)]; split; exists x; (split; [|exact H]);
    apply in_or_app; simpl; auto.
Qed.

(** C3. On exit code 0, the line [USED STORAGE: 1000 50.0% of 2000] (its
    gaps one blank or more), being the only [USED STORAGE] line of the
    output, gives a result with [total_used_storage = 1000],
    [used_storage_percentage = 50.0] and [total_storage = 2000]; the one
    other outcome is the [ValueError] of [int] on a number of more than
    4300 digits in another line, which no output whose other lines have at
    most 4300 characters has. *)
Theorem df_reads_used_storage_line :
  forall (self : Wrapper) (w : World) (out err : string)
         (pre post : list string) (n1 n2 n3 : nat),
    answers w self ["df"] out err 0 ->
    splitlines (strip (strip out))
    = (pre ++ used_storage_line n1 n2 n3 :: post)%list ->
    Forall (fun l => py_match RE_DF_TOTAL l = None) (pre ++ post) ->
    let r := result_of (cmd_df self w) in
    (Forall short (pre ++ post) ->
     exists rep,
       r = Ok rep
       /\ total_used_storage rep = 1000%Z
       /\ used_storage_percentage rep = float_of_int 50
       /\ total_storage rep = 2000%Z)
    /\ ((exists rep,
           r = Ok rep
           /\ total_used_storage rep = 1000%Z
           /\ used_storage_percentage rep = float_of_int 50
           /\ total_storage rep = 2000%Z)
        \/ int_refused (pre ++ post) r).
Proof.
  intros self w out err pre post n1 n2 n3 H Hlines Hothers r.
  assert (Hr : (exists rep,
                  r = Ok rep
                  /\ total_used_storage rep = 1000%Z
                  /\ used_storage_percentage rep = float_of_int 50
                  /\ total_storage rep = 2000%Z)
               \/ int_refused (pre ++ post) r).
  { apply Forall_app in Hothers. destruct Hothers as [Hpre Hpost].
    subst r. unfold cmd_df. rewrite (bind_run_completed _ H).
    cbn [return_code stdout Z.eqb]. rewrite Hlines.
    unfold lift, result_of. cbn [fst].
    rewrite for_each_app.
    destruct (df_loop_other Hpre df_init) as [(st1 & -> & _)|Hp].
    - cbn [obind for_each]. rewrite df_line_used_storage. cbn [obind].
      destruct (df_loop_other Hpost
                  (df_set_total 1000 (float_of_int 50) 2000 st1))
        as [(rep & -> & H1 & H2 & H3)|Hp].
      + left. exists rep. repeat split; assumption.
      + right. apply (@int_refused_app _ pre "" post). right. exact Hp.
    - right. destruct Hp as (l & Hin & n & Hn & ->). cbn [obind].
      exists l. split; [apply in_or_app; left; exact Hin|].
      exists n. auto. }
  split; [|exact Hr].
  intros Hshort. destruct Hr as [Hr|Hr]; [exact Hr|].
  destruct (int_refused_short Hshort Hr).
Qed.

Lemma df_reads_used_storage_line_witness :
  let out :=
    "Cloud drive:          1000 in       5 file(s) and       2 folder(s)" ++ nl
    ++ "Inbox:                   0 in       0 file(s) and       0 folder(s)" ++ nl
    ++ "Rubbish bin:             0 in       0 file(s) and       0 folder(s)" ++ nl
    ++ "--------------------------------------------------------------" ++ nl
    ++ "USED STORAGE: 1000 50.0% of 2000" ++ nl
    ++ "--------------------------------------------------------------" ++ nl
    ++ "Total size taken up by file versions:          0" in
  exists rep,
    result_of (cmd_df (mkWrapper "mega") (steady out "" 0)) = Ok rep
    /\ total_used_storage rep = 1000%Z
    /\ used_storage_percentage rep = float_of_int 50
    /\ total_storage rep = 2000%Z.
Proof.
  intros out.
  destruct (@df_reads_used_storage_line (mkWrapper "mega") (steady out "" 0) out ""
           [ "Cloud drive:          1000 in       5 file(s) and       2 folder(s)";
             "Inbox:                   0 in       0 file(s) and       0 folder(s)";
             "Rubbish bin:             0 in       0 file(s) and       0 folder(s)";
             "--------------------------------------------------------------" ]
           [ "--------------------------------------------------------------";
             "Total size taken up by file versions:          0" ]
           0 0 0) as [Hshort _].
  - reflexivity.
  - vm_compute. reflexivity.
  - repeat constructor.
  - apply Hshort.
    repeat (constructor; [apply Nat.leb_le; reflexivity|]). constructor.
Defined.


(** ** Lines that match no shape *)

Lemma is_some_false {A} (o : option A) : is_some o = false -> o = None.
Proof. destruct o; [discriminate | reflexivity]. Qed.

Lemma df_line_unknown st l : df_known l = false -> df_line st l = Ok st.
Proof.
  unfold df_known. intros H.
  repeat (apply orb_false_iff in H; destruct H as [H ?]).
  unfold df_line.
  repeat match goal with
         | H : is_some _ = false |- _ => apply is_some_false in H; rewrite H
         end.
  reflexivity.
Qed.

Lemma du_line_unknown st l : du_known l = false -> du_line st l = Ok st.
Proof.
  unfold du_known. intros H.
  apply orb_false_iff in H. destruct H as [Ht He].
  unfold du_line. apply is_some_false in Ht, He. rewrite Ht, He. reflexivity.
Qed.

Lemma captured_length gs r l :
  py_match r l = Some gs -> List.length gs = List.length (groups r).
Proof. intros H. apply py_match_captured in H. eapply Forall2_length; exact H. Qed.

(** Destructs the groups of a match into as many texts as the pattern has
    groups. *)
Ltac split_groups E gs :=
  let Hlen := fresh "Hlen" in
  pose proof (captured_length _ _ E) as Hlen;
  cbv in Hlen;
  repeat (let g := fresh "g" in destruct gs as [|g gs]; try discriminate Hlen).

Lemma export_list_line_cases es l :
  (export_known l = true /\ exists es', export_list_line es l = Ok es')
  \/ (export_known l = false
      /\ export_list_line es l
         = Raise (RuntimeError
                    (Msg ("Unexpected export list line format:" ++ nl ++ l)))).
Proof.
  unfold export_known, export_list_line.
  destruct (py_match RE_EXPORT__LIST_FILE l) as [gs|] eqn:Efile.
  - left. split; [reflexivity|]. split_groups Efile gs.
    cbn [unpack3 obind].
    destruct (py_match RE_EXPORT__LIST_AUTHTOKEN g1) as [gs|] eqn:Eauth.
    + split_groups Eauth gs. cbn [unpack2 obind]. eauto.
    + cbn [obind]. eauto.
  - destruct (py_match RE_EXPORT__LIST_FOLDER l) as [gs|] eqn:Efolder.
    + left. split; [reflexivity|]. split_groups Efolder gs.
      cbn [unpack2 obind].
      destruct (py_match RE_EXPORT__LIST_AUTHTOKEN g0) as [gs|] eqn:Eauth.
      * split_groups Eauth gs. cbn [unpack2 obind]. eauto.
      * cbn [obind]. eauto.
    + right. split; reflexivity.
Qed.

Lemma find_line_cases es l :
  ((find_blank l = true \/ find_known l = true)
   /\ exists es', find_line es l = Ok es')
  \/ (find_blank l = false /\ find_known l = false
      /\ find_line es l
         = Raise (RuntimeError (Msg ("Unexpected find line format:" ++ nl ++ l)))).
Proof.
  unfold find_blank, find_known, find_line.
  destruct (String.eqb (strip l) "") eqn:Eblank; [left; eauto|].
  destruct (py_match RE_FIND_FOLDER_EXPORTED (strip l)) as [gs|] eqn:E1.
  { left. split; [right; reflexivity|]. split_groups E1 gs.
    cbn [unpack3 obind]. eauto. }
  destruct (py_match RE_FIND_FOLDER (strip l)) as [gs|] eqn:E2.
  { left. split; [right; reflexivity|]. split_groups E2 gs.
    cbn [unpack2 obind]. eauto. }
  destruct (py_match RE_FIND_FILE_EXPORTED (strip l)) as [gs|] eqn:E3.
  { left. split; [right; reflexivity|]. split_groups E3 gs.
    cbn [unpack4 obind]. eauto. }
  destruct (py_match RE_FIND_FILE (strip l)) as [gs|] eqn:E4.
  { left. split; [right; reflexivity|]. split_groups E4 gs.
    cbn [unpack3 obind]. eauto. }
  right. repeat split.
Qed.

(** A loop whose body raises on the first line outside a set raises that. *)
Lemma for_each_first_bad {S} (body : S -> string -> outcome S)
    (good : string -> bool) (e : string -> exn) (pre post : list string)
    (l : string) :
  (forall st x, good x = true -> exists st', body st x = Ok st') ->
  (forall st, body st l = Raise (e l)) ->
  forallb good pre = true ->
  forall st, for_each body st (pre ++ l :: post)%list = Raise (e l).
Proof.
  intros Hgood Hbad. induction pre as [|x pre IH]; intros Hpre st; simpl.
  - rewrite Hbad. reflexivity.
  - simpl in Hpre. apply andb_true_iff in Hpre. destruct Hpre as [Hx Hpre].
    destruct (Hgood st x Hx) as [st' ->]. cbn [obind]. apply IH. exact Hpre.
Qed.

Lemma cmd_find_completed self w rp pat t s out err :
  answers w self (find_args rp pat t s) out err 0 ->
  result_of (cmd_find rp pat t s self w)
  = for_each find_line [] (splitlines (strip (strip out))).
Proof.
  intros H. unfold cmd_find. cbv zeta.
  replace ((((["find"; "-l"; "--show-handles"]
               ++ unless_none t (fun t0 => ("--mtime=" ++ t0)%string))
              ++ unless_none s (fun s0 => ("--size=" ++ s0)%string))
             ++ unless_none rp (fun p => clean_remote_path p false))
            ++ unless_none pat (fun p => ("--pattern=" ++ p)%string))%list
    with (find_args rp pat t s)
    by (unfold find_args; rewrite <- !app_assoc; reflexivity).
  rewrite (bind_run_completed _ H). reflexivity.
Qed.

Lemma cmd_export__list_completed self w rp out err :
  answers w self (export_args rp) out err 0 ->
  result_of (cmd_export__list rp self w)
  = for_each export_list_line [] (splitlines (strip (strip out))).
Proof.
  intros H. unfold cmd_export__list.
  change (["export"] ++ unless_none rp (fun p => clean_remote_path p false))%list
    with (export_args rp).
  rewrite (bind_run_completed _ H). reflexivity.
Qed.

Lemma cmd_df_completed self w out err :
  answers w self ["df"] out err 0 ->
  result_of (cmd_df self w)
  = for_each df_line df_init (splitlines (strip (strip out))).
Proof.
  intros H. unfold cmd_df. rewrite (bind_run_completed _ H). reflexivity.
Qed.

(** C1, as the code has it.  When the binary exits with 0:
    [cmd_export__list] raises the [RuntimeError] "Unexpected export list
    line format" at the first line that matches neither of its shapes;
    [cmd_find] raises the [RuntimeError] "Unexpected find line format" at the
    first line that is not blank and matches none of its four shapes (blank
    lines are passed over); [cmd_df] and [cmd_du] pass over every line that
    matches none of their shapes: their result is that of the output
    without those lines. *)
Theorem unmatched_lines_raise_or_are_skipped :
  forall (self : Wrapper) (w : World) (out err : string),
    (forall args, answers w self args out err 0) ->
    let lines := splitlines (strip (strip out)) in
    (forall remote_path pre l post,
        lines = (pre ++ l :: post)%list ->
        forallb export_known pre = true -> export_known l = false ->
        result_of (cmd_export__list remote_path self w)
        = Raise (RuntimeError
                   (Msg ("Unexpected export list line format:" ++ nl ++ l))))
    /\ (forall remote_path pattern time_constraint size_constraint pre l post,
           lines = (pre ++ l :: post)%list ->
           forallb (fun x => find_blank x || find_known x) pre = true ->
           find_blank l = false -> find_known l = false ->
           result_of (cmd_find remote_path pattern time_constraint
                        size_constraint self w)
           = Raise (RuntimeError
                      (Msg ("Unexpected find line format:" ++ nl ++ l))))
    /\ result_of (cmd_df self w)
       = for_each df_line df_init (filter df_known lines)
    /\ (forall remote_paths,
           result_of (cmd_du (inr remote_paths) self w)
           = for_each du_line du_init (filter du_known lines)).
Proof.
  intros self w out err H lines. repeat split.
  - intros rp pre l post Hlines Hpre Hl.
    rewrite (@cmd_export__list_completed self w rp out err (H _)). fold lines. rewrite Hlines.
    apply (@for_each_first_bad _ export_list_line export_known
             (fun l => RuntimeError
                         (Msg ("Unexpected export list line format:" ++ nl ++ l))));
      [ | | exact Hpre].
    + intros st x Hx. destruct (export_list_line_cases st x) as [[_ Hok]|[Hno _]];
        [exact Hok | congruence].
    + intros st. destruct (export_list_line_cases st l) as [[Hyes _]|[_ Hraise]];
        [congruence | exact Hraise].
  - intros rp pat t s pre l post Hlines Hpre Hblank Hl.
    rewrite (@cmd_find_completed self w rp pat t s out err (H _)). fold lines. rewrite Hlines.
    apply (@for_each_first_bad _ find_line
             (fun x => find_blank x || find_known x)
             (fun l => RuntimeError
                         (Msg ("Unexpected find line format:" ++ nl ++ l))));
      [ | | exact Hpre].
    + intros st x Hx. destruct (find_line_cases st x) as [[_ Hok]|(Hb & Hk & _)];
        [exact Hok | rewrite Hb, Hk in Hx; discriminate].
    + intros st. destruct (find_line_cases st l) as [[[Hb|Hk] _]|(_ & _ & Hraise)];
        [congruence | congruence | exact Hraise].
  - rewrite (@cmd_df_completed self w out err (H _)). fold lines.
    apply for_each_filter. intros st x. apply df_line_unknown.
  - intros ps. rewrite (@cmd_du_completed self w ps out err (H _)). fold lines.
    apply for_each_filter. intros st x. apply du_line_unknown.
Qed.

Lemma unmatched_lines_raise_or_are_skipped_witness :
  let out := "/a <H:1> (folder)" ++ nl ++ nl ++ "no such shape" in
  let self := mkWrapper "mega" in
  let w := steady out "" 0 in
  result_of (cmd_export__list None self w)
  = Raise (RuntimeError
             (Msg ("Unexpected export list line format:" ++ nl
                   ++ "/a <H:1> (folder)")))
  /\ result_of (cmd_find None None None None self w)
     = Raise (RuntimeError
                (Msg ("Unexpected find line format:" ++ nl ++ "no such shape")))
  /\ result_of (cmd_df self w) = Ok df_init
  /\ result_of (cmd_du (inr []) self w) = Ok du_init.
Proof.
  intros out self w.
  destruct (@unmatched_lines_raise_or_are_skipped self w out ""
              (fun _ => eq_refl))
    as (Hexport & Hfind & Hdf & Hdu).
  split; [|split; [|split]].
  - apply (Hexport None [] "/a <H:1> (folder)" [""; "no such shape"]);
      vm_compute; reflexivity.
  - apply (Hfind None None None None ["/a <H:1> (folder)"; ""] "no such shape" []);
      vm_compute; reflexivity.
  - rewrite Hdf. vm_compute. reflexivity.
  - rewrite Hdu. vm_compute. reflexivity.
Defined.

(** C1 does not hold of [cmd_df] and [cmd_du]: on exit code 0, a line that
    matches none of their shapes is passed over, and the result is returned
    with its fields at their initial values. *)
Lemma unmatched_line_is_not_an_error_for_df_and_du :
  let self := mkWrapper "mega" in
  let w := steady "no such shape" "" 0 in
  splitlines (strip (strip "no such shape")) = ["no such shape"]
  /\ df_known "no such shape" = false
  /\ du_known "no such shape" = false
  /\ result_of (cmd_df self w) = Ok df_init
  /\ result_of (cmd_du (inr []) self w) = Ok du_init.
Proof. vm_compute. repeat split. Qed.

(** ** [cmd_ls] *)

Lemma strip_keeps_head c x :
  isspace c = false -> exists y, strip (String c x) = String c y.
Proof.
  intros Hc. unfold strip. rewrite rstrip_by_cons, Hc.
  destruct (rstrip_by isspace x) as [|d kept]; simpl; rewrite Hc; eauto.
Qed.

Lemma ls_line_cases es l :
  has_flags l ->
  exists e, ls_line es l = Ok (es ++ [e])%list /\ ls_entry_of l e.
Proof.
  unfold has_flags, ls_line, ls_entry_of. intros Hflags.
  destruct (strip (slice 0 4 l)) as [|c fl] eqn:E; [contradiction|].
  cbn [first_char obind]. eexists. split; [reflexivity|].
  cbn [flags size date handle name link is_directory].
  repeat split. intros rest ->.
  destruct (@strip_keeps_head "d" (take 3 rest) eq_refl) as [y Hy].
  change (slice 0 4 (String "d" rest)) with (String "d" (take 3 rest)) in E.
  rewrite Hy in E. injection E as <- _. reflexivity.
Qed.

Lemma ls_loop lines : forall es,
  Forall has_flags lines ->
  exists es',
    for_each ls_line es lines = Ok (es ++ es')%list
    /\ Forall2 ls_entry_of lines es'.
Proof.
  induction lines as [|l lines IH]; intros es Hall.
  - exists []. rewrite app_nil_r. split; [reflexivity | constructor].
  - inversion Hall as [|l' lines' Hl Hrest]; subst.
    destruct (ls_line_cases es Hl) as (e & Hline & He).
    destruct (IH (es ++ [e])%list Hrest) as (es' & Hloop & Hes').
    exists (e :: es'). cbn [for_each]. rewrite Hline. cbn [obind].
    rewrite Hloop, <- app_assoc. split; [reflexivity|].
    constructor; assumption.
Qed.

(** C2, as the code has it.  On exit code 0, when each line after the header
    has a character that is not blank in columns 0-3, [cmd_ls] (in both
    modules) returns one entry per such line, in order, cut at fixed
    offsets: flags from columns 0-3, size from 9-21 (["-"] read as absent),
    date from 22-40, handle from 41-51, name from 52 on, each stripped; and
    a line whose first character is ["d"] gives [is_directory = true]. *)
Theorem ls_cuts_lines_at_fixed_offsets :
  forall (self : Wrapper) (w : World) (remote_path out err : string),
    (forall args, answers w self args out err 0) ->
    let lines := tl (splitlines (strip (strip out))) in
    Forall has_flags lines ->
    exists es,
      result_of (cmd_ls remote_path self w) = Ok es
      /\ result_of (TopLevel.cmd_ls remote_path self w) = Ok es
      /\ Forall2 ls_entry_of lines es.
Proof.
  intros self w remote_path out err H lines Hall.
  destruct (ls_loop [] Hall) as (es & Hloop & Hes).
  exists es. unfold cmd_ls, TopLevel.cmd_ls.
  rewrite !(bind_run_completed _ (H _)).
  unfold ls_decode. cbn [return_code stdout Z.eqb negb].
  fold lines. unfold lift, result_of. cbn [fst].
  rewrite Hloop. repeat split. exact Hes.
Qed.

Lemma ls_cuts_lines_at_fixed_offsets_witness :
  let out := "FLAGS VERS    SIZE            DATE       HANDLE NAME" ++ nl
             ++ sample_directory_line in
  let self := mkWrapper "mega" in
  let w := steady out "" 0 in
  exists es,
    result_of (cmd_ls "/" self w) = Ok es
    /\ result_of (TopLevel.cmd_ls "/" self w) = Ok es
    /\ Forall2 ls_entry_of [sample_directory_line] es.
Proof.
  intros out self w.
  apply (@ls_cuts_lines_at_fixed_offsets self w "/" out "" (fun _ => eq_refl)).
  constructor; [|constructor].
  unfold has_flags. vm_compute. discriminate.
Defined.

(** C2 does not hold of every output: a blank line among the listing lines
    makes the decoder raise [IndexError], and the directory line after it
    gives no entry. *)
Lemma ls_blank_line_gives_no_entries :
  let out := "FLAGS VERS    SIZE            DATE       HANDLE NAME" ++ nl ++ nl
             ++ sample_directory_line in
  let self := mkWrapper "mega" in
  let w := steady out "" 0 in
  tl (splitlines (strip (strip out))) = [""; sample_directory_line]
  /\ sample_directory_line = String "d" (drop 1 sample_directory_line)
  /\ strip (slice 41 52 sample_directory_line) = "H:abcDEF12"
  /\ result_of (cmd_ls "/" self w)
     = Raise (IndexError (Msg "string index out of range"))
  /\ result_of (TopLevel.cmd_ls "/" self w)
     = Raise (IndexError (Msg "string index out of range")).
Proof. vm_compute. repeat split. Qed.

(** * Further properties of the helpers and of the operations *)

(** ** The path helpers *)

Lemma lstrip_by_all_then (p : ascii -> bool) (b s : string) :
  all_in p b -> lstrip_by p (b ++ s) = lstrip_by p s.
Proof.
  unfold all_in. induction b as [|c b IH]; simpl; [reflexivity|].
  intros H. apply andb_true_iff in H. destruct H as [Hc Hb].
  rewrite Hc. apply IH. exact Hb.
Qed.

Lemma rstrip_by_all (p : ascii -> bool) (s : string) :
  all_in p s -> rstrip_by p s = "".
Proof.
  unfold all_in. induction s as [|c s IH]; [reflexivity|].
  simpl. intros H. apply andb_true_iff in H. destruct H as [Hc Hs].
  rewrite (IH Hs), Hc. reflexivity.
Qed.

Lemma slashes_all n : all_in (fun c => mem c "/") (slashes n).
Proof. unfold all_in. induction n; simpl; [reflexivity | exact IHn]. Qed.

Lemma slashes_head n : head_kept blank_or_newline (slashes n).
Proof. destruct n; [exact I | reflexivity]. Qed.

(** X1. With [ensure_trailing_slash=True] the result of [clean_remote_path]
    ends with a slash; and one leading ["./"] is removed, not more: what
    follows it is returned as it is, blanks and further ["./"] included. *)
Theorem clean_remote_path_slash_and_dot :
  forall p : string,
    endswith (clean_remote_path p true) "/" = true
    /\ clean_remote_path ("./" ++ p) false = p.
Proof.
  intros p. split.
  - unfold clean_remote_path.
    set (q := if startswith _ "./" then _ else _).
    destruct (endswith q "/") eqn:E; simpl; [exact E | apply endswith_snoc].
  - unfold clean_remote_path, lstrip, startswith. simpl.
    assert (Hp : prefix "" p = true) by (destruct p; reflexivity).
    rewrite Hp. destruct p; reflexivity.
Qed.

(** X2. Without [ensure_trailing_slash] the result of [clean_local_path]
    never ends with a slash, and a path made of slashes only (after blanks
    and newlines), such as the root, becomes the empty path; with
    [ensure_trailing_slash] it becomes ["/"]. *)
Theorem clean_local_path_drops_every_trailing_slash :
  forall (p b : string) (n : nat),
    endswith (clean_local_path p false) "/" = false
    /\ (all_in blank_or_newline b ->
        clean_local_path (b ++ slashes n) false = ""
        /\ clean_local_path (b ++ slashes n) true = "/").
Proof.
  intros p b n. split.
  - rewrite clean_local_path_stem. apply local_stem_no_slash.
  - intros Hb. rewrite !clean_local_path_stem.
    assert (H : local_stem (b ++ slashes n) = "").
    { unfold local_stem, lstrip, rstrip.
      change (fun c => mem c (" " ++ nl)) with blank_or_newline.
      rewrite (lstrip_by_all_then _ Hb).
      rewrite lstrip_by_fixed by apply slashes_head.
      apply rstrip_by_all, slashes_all. }
    rewrite H. split; reflexivity.
Qed.

Lemma clean_local_path_drops_every_trailing_slash_witness :
  clean_local_path (" " ++ nl ++ "///") false = ""
  /\ clean_local_path (" " ++ nl ++ "///") true = "/".
Proof.
  apply (@clean_local_path_drops_every_trailing_slash "" (" " ++ nl) 3).
  reflexivity.
Defined.

(** ** Stripping twice *)

Lemma rstrip_by_of_lstrip (p : ascii -> bool) (x : string) :
  rstrip_by p x = x -> rstrip_by p (lstrip_by p x) = lstrip_by p x.
Proof.
  induction x as [|c r IH]; [reflexivity|].
  intros H. simpl lstrip_by. destruct (p c) eqn:Ec; [|exact H].
  apply IH. rewrite rstrip_by_cons, Ec in H.
  destruct (rstrip_by p r) as [|d kept]; [discriminate|].
  injection H as H. exact H.
Qed.

Lemma strip_idem (s : string) : strip (strip s) = strip s.
Proof.
  unfold strip.
  rewrite rstrip_by_of_lstrip by apply rstrip_by_idem.
  apply lstrip_by_fixed, lstrip_by_head.
Qed.

(** X3. [cmd_version] and [cmd_lpwd] do not look at the exit code: for every
    exit code they return the standard output stripped once (the second
    [strip] changes nothing), and they do not raise. *)
Theorem version_and_lpwd_ignore_the_exit_code :
  forall (self : Wrapper) (w : World) (out err : string) (rc : Z),
    (forall args, answers w self args out err rc) ->
    result_of (cmd_version self w) = Ok (strip out)
    /\ result_of (cmd_lpwd self w) = Ok (strip out).
Proof.
  intros self w out err rc H. unfold cmd_version, cmd_lpwd.
  rewrite !(bind_run_completed _ (H _)). cbn [stdout].
  rewrite strip_idem. split; reflexivity.
Qed.

Lemma version_and_lpwd_ignore_the_exit_code_witness :
  result_of (cmd_version (mkWrapper "mega") (steady " 1.7.0 " "boom" 57))
  = Ok "1.7.0"
  /\ result_of (cmd_lpwd (mkWrapper "mega") (steady " 1.7.0 " "boom" 57))
     = Ok "1.7.0".
Proof.
  apply (@version_and_lpwd_ignore_the_exit_code (mkWrapper "mega")
           (steady " 1.7.0 " "boom" 57) " 1.7.0 " "boom" 57).
  intros args. reflexivity.
Defined.

(** ** One process for each operation *)

Lemma silent_ret {A} (a : A) : silent (ret a).
Proof. intros self w. split; reflexivity. Qed.

Lemma silent_raise {A} (e : exn) : silent (@raise A e).
Proof. intros self w. split; reflexivity. Qed.

Lemma silent_lift {A} (o : outcome A) : silent (lift o).
Proof. intros self w. split; reflexivity. Qed.

Lemma silent_assert c text : silent (assert c text).
Proof. destruct c; intros self w; split; reflexivity. Qed.

Lemma silent_bind {A B} (m : M A) (f : A -> M B) :
  silent m -> (forall a, silent (f a)) -> silent (bind m f).
Proof.
  intros Hm Hf self w. unfold bind. destruct (Hm self w) as [Hs Hw].
  destruct (m self w) as [[[a|e] self'] w'];
    unfold self_of, world_of in Hs, Hw; simpl in Hs, Hw; subst self' w';
    [apply Hf | split; reflexivity].
Qed.

Lemma one_run_of_silent {A} (m : M A) : silent m -> at_most_one_run m.
Proof. intros H self w. destruct (H self w). auto. Qed.

Lemma one_run_after_silent {A B} (m : M A) (f : A -> M B) :
  silent m -> (forall a, at_most_one_run (f a)) -> at_most_one_run (bind m f).
Proof.
  intros Hm Hf self w. unfold bind. destruct (Hm self w) as [Hs Hw].
  destruct (m self w) as [[[a|e] self'] w'];
    unfold self_of, world_of in Hs, Hw; simpl in Hs, Hw; subst self' w';
    [apply Hf | split; [reflexivity | left; reflexivity]].
Qed.

Lemma one_run_then_silent {A B} (m : M A) (f : A -> M B) :
  at_most_one_run m -> (forall a, silent (f a)) -> at_most_one_run (bind m f).
Proof.
  intros Hm Hf self w. unfold bind. destruct (Hm self w) as [Hs Hw].
  destruct (m self w) as [[[a|e] self'] w'];
    unfold self_of, world_of in Hs, Hw; simpl in Hs, Hw; subst self'.
  - destruct (Hf a self w') as [Hs' Hw']. rewrite Hs', Hw'. auto.
  - auto.
Qed.

Lemma one_run_run args : at_most_one_run (_run_mega_cmd args).
Proof.
  intros self w. unfold _run_mega_cmd, bind, get_mega_cmd_path, subprocess_run.
  cbn [mega_cmd_path app].
  destruct (os w (calls w) _) as [out err rc|e];
    (split; [reflexivity | right; exists args; reflexivity]).
Qed.

Lemma silent_not_a_str remote_paths : silent (not_a_str remote_paths).
Proof. destruct remote_paths; intros self w; split; reflexivity. Qed.

Create HintDb silent.
#[local] Hint Resolve silent_ret silent_raise silent_lift silent_assert
  silent_not_a_str : silent.

(** Through the text of a part of a method that runs nothing. *)
Ltac silent_step :=
  match goal with
  | |- silent (bind _ _) => apply silent_bind; [|intros ?]
  | |- silent (if ?c then _ else _) => destruct c
  | |- silent (match ?x with _ => _ end) => destruct x
  | |- silent (let _ := _ in _) => cbv zeta
  | |- silent _ => solve [auto with silent]
  end.

Ltac silent := repeat silent_step.

(** Through the text of a method: checks, then one run, then decoding. *)
Ltac one_run_step :=
  match goal with
  | |- at_most_one_run (bind (_run_mega_cmd _) _) =>
      apply one_run_then_silent; [apply one_run_run | intros ?; silent]
  | |- at_most_one_run (bind _ _) =>
      apply one_run_after_silent; [solve [silent] | intros ?]
  | |- at_most_one_run (if ?c then _ else _) => destruct c
  | |- at_most_one_run (match ?x with _ => _ end) => destruct x
  | |- at_most_one_run (let _ := _ in _) => cbv zeta
  | |- at_most_one_run _ => apply one_run_of_silent; solve [silent]
  end.

Ltac one_run := repeat one_run_step.

Lemma one_run_export__add p wr pw : at_most_one_run (cmd_export__add p wr pw).
Proof. unfold cmd_export__add. one_run. Qed.

Lemma one_run_export__delete p : at_most_one_run (cmd_export__delete p).
Proof. unfold cmd_export__delete. one_run. Qed.

Lemma one_run_export__list p : at_most_one_run (cmd_export__list p).
Proof. unfold cmd_export__list. one_run. Qed.

Lemma one_run_export a p wr pw : at_most_one_run (cmd_export a p wr pw).
Proof.
  unfold cmd_export.
  repeat match goal with
         | |- at_most_one_run (if ?c then _ else _) => destruct c
         | |- at_most_one_run (match ?x with _ => _ end) => destruct x
         | |- at_most_one_run (bind (assert _ _) _) =>
             apply one_run_after_silent; [apply silent_assert | intros ?]
         | |- at_most_one_run (bind (cmd_export__add _ _ _) _) =>
             apply one_run_then_silent;
             [apply one_run_export__add | intros ?; apply silent_ret]
         | |- at_most_one_run (bind (cmd_export__delete _) _) =>
             apply one_run_then_silent;
             [apply one_run_export__delete | intros ?; apply silent_ret]
         | |- at_most_one_run (bind (cmd_export__list _) _) =>
             apply one_run_then_silent;
             [apply one_run_export__list | intros ?; apply silent_ret]
         | |- at_most_one_run (raise _) =>
             apply one_run_of_silent, silent_raise
         end.
Qed.

Lemma one_run_operation op : at_most_one_run (perform op).
Proof.
  destruct op; unfold perform;
    (apply one_run_then_silent; [|intros; apply silent_ret]).
  - unfold cmd_cat; one_run.
  - unfold cmd_cd; one_run.
  - unfold cmd_df; one_run.
  - unfold cmd_du; one_run.
  - apply one_run_export.
  - apply one_run_export__add.
  - apply one_run_export__delete.
  - apply one_run_export__list.
  - unfold cmd_find; one_run.
  - unfold cmd_get; one_run.
  - unfold cmd_import; one_run.
  - unfold cmd_login; one_run.
  - unfold cmd_logout; one_run.
  - unfold cmd_lcd; one_run.
  - unfold cmd_lpwd; one_run.
  - unfold cmd_ls, ls_decode; one_run.
  - unfold cmd_put; one_run.
  - unfold cmd_pwd; one_run.
  - unfold cmd_session; one_run.
  - unfold cmd_tree; one_run.
  - unfold cmd_version; one_run.
  - unfold cmd_whoami; one_run.
Qed.

Lemma world_of_bind_silent {A B} (m : M A) (g : A -> M B) self w :
  (forall a, silent (g a)) ->
  world_of (bind m g self w) = world_of (m self w).
Proof.
  intros Hg. unfold bind.
  destruct (m self w) as [[[a|e] self'] w']; [apply Hg | reflexivity].
Qed.

Lemma world_of_run args self w :
  world_of (_run_mega_cmd args self w) = after_call w self args.
Proof.
  unfold _run_mega_cmd, bind, get_mega_cmd_path, subprocess_run.
  cbn [mega_cmd_path app].
  destruct (os w (calls w) _) as [out err rc|e]; reflexivity.
Qed.

Lemma runs_first_run {A} (args : list string) (f : CMDResult -> M A) :
  (forall res, silent (f res)) -> runs_first (bind (_run_mega_cmd args) f).
Proof.
  intros Hf. exists args. intros self w. split.
  - rewrite (@world_of_bind_silent _ _ _ f self w Hf). apply world_of_run.
  - intros e He. unfold bind, _run_mega_cmd, bind, get_mega_cmd_path,
      subprocess_run. cbn [mega_cmd_path app]. rewrite He. reflexivity.
Qed.

Lemma runs_first_then {A B} (m : M A) (g : A -> M B) :
  runs_first m -> (forall a, silent (g a)) -> runs_first (bind m g).
Proof.
  intros [args Hm] Hg. exists args. intros self w.
  destruct (Hm self w) as [Hw He]. split.
  - rewrite (@world_of_bind_silent _ _ _ g self w Hg). exact Hw.
  - intros e H. specialize (He e H). unfold bind.
    destruct (m self w) as [[[a|e'] self'] w']; [discriminate He|].
    injection He as ->. reflexivity.
Qed.

Lemma runs_first_after_ret {A B} (a : A) (f : A -> M B) :
  runs_first (f a) -> runs_first (bind (ret a) f).
Proof. rewrite bind_ret. trivial. Qed.

(** Through the text of a method up to its run. *)
Ltac runs_first :=
  cbv zeta;
  repeat first
    [ apply runs_first_run; intros; silent
    | apply runs_first_after_ret
    | apply runs_first_then; [|intros; solve [silent]] ].

(** A call that is not refused at once starts with a run of the binary. *)
Lemma operation_runs_first op :
  refused_at_once op = false -> runs_first (perform op).
Proof.
  intros H.
  destruct op as
    [ps|p| |ps|act rp wr pw|p wr pw|p|p|p pat t sz|r l pw m|l p pw|em pw au se|k|p| |p|lp rp| | |p| | ];
    unfold perform;
    (apply runs_first_then; [|intros; apply silent_ret]).
  - destruct ps; [discriminate H|].
    unfold cmd_cat. cbn [not_a_str]. runs_first.
  - unfold cmd_cd. runs_first.
  - unfold cmd_df. runs_first.
  - destruct ps; [discriminate H|].
    unfold cmd_du. cbn [not_a_str]. runs_first.
  - unfold cmd_export. cbn [refused_at_once] in H. revert H.
    destruct (String.eqb act "add").
    { destruct rp; [intros _|discriminate].
      unfold cmd_export__add. runs_first. }
    destruct (String.eqb act "delete").
    { destruct rp, wr, pw; try discriminate. intros _.
      cbn [negb is_none assert]. rewrite !bind_ret.
      unfold cmd_export__delete. runs_first. }
    destruct (String.eqb act "list"); [|discriminate].
    destruct wr, pw; try discriminate. intros _.
    cbn [negb is_none assert]. rewrite !bind_ret.
    unfold cmd_export__list. runs_first.
  - unfold cmd_export__add. runs_first.
  - unfold cmd_export__delete. runs_first.
  - unfold cmd_export__list. runs_first.
  - unfold cmd_find. runs_first.
  - unfold cmd_get. runs_first.
  - unfold cmd_import. runs_first.
  - unfold cmd_login. cbn [refused_at_once] in H. cbv zeta in H |- *. revert H.
    destruct (truthy em || truthy pw || truthy au).
    + destruct se; cbn [is_some Nat.b2n Nat.add Nat.eqb negb];
        [discriminate|].
      destruct em, pw; try discriminate. intros _. runs_first.
    + destruct se; cbn [is_some Nat.b2n Nat.add Nat.eqb negb];
        [|discriminate].
      intros _. runs_first.
  - unfold cmd_logout. runs_first.
  - unfold cmd_lcd. runs_first.
  - unfold cmd_lpwd. runs_first.
  - unfold cmd_ls, ls_decode. runs_first.
  - unfold cmd_put. destruct lp.
    + runs_first.
    + destruct rp; [|discriminate H].
      cbn [is_some is_none negb assert]. rewrite !bind_ret. runs_first.
  - unfold cmd_pwd. runs_first.
  - unfold cmd_session. runs_first.
  - unfold cmd_tree. runs_first.
  - unfold cmd_version. runs_first.
  - unfold cmd_whoami. runs_first.
Qed.

(** A call that is refused at once raises and runs nothing. *)
Lemma operation_refused op self w :
  refused_at_once op = true ->
  exists e, perform op self w = (Raise e, self, w).
Proof.
  intros H.
  destruct op as
    [ps|p| |ps|act rp wr pw|p wr pw|p|p|p pat t sz|r l pw m|l p pw|em pw au se|k|p| |p|lp rp| | |p| | ];
    try discriminate H; unfold perform.
  - destruct ps; [|discriminate H]. eexists. reflexivity.
  - destruct ps; [|discriminate H]. eexists. reflexivity.
  - unfold cmd_export. cbn [refused_at_once] in H. revert H.
    destruct (String.eqb act "add").
    { destruct rp; [discriminate|]. eexists. reflexivity. }
    destruct (String.eqb act "delete").
    { destruct rp, wr, pw; try discriminate;
        eexists; reflexivity. }
    destruct (String.eqb act "list"); [|eexists; reflexivity].
    destruct wr, pw; try discriminate; eexists; reflexivity.
  - unfold cmd_login. cbn [refused_at_once] in H. cbv zeta in H |- *. revert H.
    destruct (truthy em || truthy pw || truthy au);
      destruct se; cbn [is_some Nat.b2n Nat.add Nat.eqb negb];
      try discriminate; try (eexists; reflexivity).
    destruct em, pw; try discriminate; eexists; reflexivity.
  - destruct lp; [discriminate H|].
    destruct rp; [discriminate H|]. eexists. reflexivity.
Qed.

(** X4. An operation runs the binary of the wrapper at most once and changes
    nothing else of the world: the commands run afterwards are those run
    before, followed by at most one command that starts with
    [mega_cmd_path].  A call whose parameters are refused at once raises
    and runs nothing; every other call runs the binary exactly once. *)
Theorem operations_run_the_binary_at_most_once :
  forall (op : Op) (self : Wrapper) (w : World),
    let w' := world_of (perform op self w) in
    os w' = os w
    /\ (calls w' = calls w
        \/ exists args, calls w' = (calls w ++ [mega_cmd_path self :: args])%list)
    /\ (refused_at_once op = true ->
        calls w' = calls w
        /\ exists e, result_of (perform op self w) = Raise e)
    /\ (refused_at_once op = false ->
        exists args, calls w' = (calls w ++ [mega_cmd_path self :: args])%list).
Proof.
  intros op self w w'. subst w'.
  destruct (one_run_operation op self w) as [_ Hw].
  split; [destruct Hw as [->|[args ->]]; reflexivity|].
  split; [|split].
  - destruct Hw as [->|[args ->]];
      [left; reflexivity | right; exists args; reflexivity].
  - intros Hop. destruct (operation_refused op self w Hop) as [e ->].
    split; [reflexivity | exists e; reflexivity].
  - intros Hop. destruct (operation_runs_first op Hop) as [args Hargs].
    destruct (Hargs self w) as [-> _]. exists args. reflexivity.
Qed.

Lemma operations_run_the_binary_at_most_once_witness :
  (exists args,
     calls (world_of (perform call_version (mkWrapper "mega") (steady "" "" 0)))
     = ([] ++ ["mega" :: args])%list)
  /\ calls (world_of (perform (call_du (inl "/a")) (mkWrapper "mega")
                       (steady "" "" 0))) = []
  /\ exists e,
       result_of (perform (call_du (inl "/a")) (mkWrapper "mega")
                    (steady "" "" 0)) = Raise e.
Proof.
  split.
  - destruct (@operations_run_the_binary_at_most_once call_version
                (mkWrapper "mega") (steady "" "" 0)) as (_ & _ & _ & H).
    apply H. reflexivity.
  - destruct (@operations_run_the_binary_at_most_once (call_du (inl "/a"))
                (mkWrapper "mega") (steady "" "" 0)) as (_ & _ & H & _).
    apply H. reflexivity.
Defined.

(** ** Construction when the binary is there *)

(** X5. With [check_path=True] the constructor runs [mega_cmd_path version]
    once and accepts every exit code: the wrapper is returned also when the
    binary exits with an error.  An exception of [subprocess.run] other than
    [FileNotFoundError] leaves the constructor as it is. *)
Theorem constructor_accepts_every_exit_code :
  forall (path : string) (w : World),
    (forall out err rc,
        os w (calls w) [path; "version"] = Completed out err rc ->
        MEGAcmdWrapper path true w
        = (Ok (mkWrapper path),
           mkWorld (os w) (calls w ++ [[path; "version"]])%list))
    /\ (forall e,
           os w (calls w) [path; "version"] = Failed e ->
           (forall m, e <> FileNotFoundError m) ->
           fst (MEGAcmdWrapper path true w) = Raise e).
Proof.
  intros path w. split.
  - intros out err rc H.
    unfold MEGAcmdWrapper, __init__, bind, set_mega_cmd_path, try_except,
      cmd_version, _run_mega_cmd, bind, get_mega_cmd_path, subprocess_run.
    cbn [mega_cmd_path app]. rewrite H. reflexivity.
  - intros e H Hother.
    unfold MEGAcmdWrapper, __init__, bind, set_mega_cmd_path, try_except,
      cmd_version, _run_mega_cmd, bind, get_mega_cmd_path, subprocess_run.
    cbn [mega_cmd_path app]. rewrite H.
    destruct e; try reflexivity. exfalso. eapply Hother. reflexivity.
Qed.

Lemma constructor_accepts_every_exit_code_witness :
  MEGAcmdWrapper "mega" true (steady "" "broken" 1)
  = (Ok (mkWrapper "mega"),
     mkWorld (os (steady "" "broken" 1)) [["mega"; "version"]])
  /\ fst (MEGAcmdWrapper "mega" true
            (mkWorld (fun _ _ => Failed (OtherError "PermissionError")) []))
     = Raise (OtherError "PermissionError").
Proof.
  split.
  - apply (proj1 (@constructor_accepts_every_exit_code "mega"
                    (steady "" "broken" 1)) "" "broken" 1%Z).
    reflexivity.
  - apply (proj2 (@constructor_accepts_every_exit_code "mega"
                    (mkWorld (fun _ _ => Failed (OtherError "PermissionError")) []))
             (OtherError "PermissionError")).
    + reflexivity.
    + intros m. discriminate.
Defined.

(** ** Exit codes other than 0 *)

(** Opens a method whose command was answered. *)
Ltac answered H :=
  cbv zeta; rewrite ?(bind_run_completed _ (H _));
  cbn [return_code stdout stderr].

Ltac settle :=
  repeat split; intros;
  repeat match goal with
         | H : _ /\ _ |- _ => destruct H
         | H : Ok _ = Ok _ |- _ => injection H as H
         | H : Ok _ = Raise _ |- _ => discriminate H
         | H : Raise _ = Ok _ |- _ => discriminate H
         end;
  subst; try congruence; try lia; auto.

(** X6. On an exit code other than 0, [cmd_df], [cmd_du], [cmd_find],
    [cmd_ls] (in both modules), [cmd_tree] and [cmd_pwd] raise a
    [RuntimeError] whose text ends with the stripped standard error; the
    standard output is not read. *)
Theorem failed_listings_raise_with_stderr :
  forall (self : Wrapper) (w : World) (out err : string) (rc : Z),
    (forall args, answers w self args out err rc) ->
    rc <> 0%Z ->
    result_of (cmd_df self w)
    = Raise (RuntimeError (Msg ("Failed to get storage usage:" ++ nl ++ strip err)))
    /\ (forall ps,
           result_of (cmd_du (inr ps) self w)
           = Raise (RuntimeError (Msg ("Failed to get disk usage: " ++ strip err))))
    /\ (forall rp pat t s,
           result_of (cmd_find rp pat t s self w)
           = Raise (RuntimeError
                      (Msg ("Failed to find files/folders:" ++ nl ++ strip err))))
    /\ (forall rp,
           result_of (cmd_ls rp self w)
           = Raise (RuntimeError
                      (Msg ("Failed to list directory:" ++ nl ++ strip err)))
           /\ result_of (TopLevel.cmd_ls rp self w)
              = Raise (RuntimeError
                         (Msg ("Failed to list directory:" ++ nl ++ strip err))))
    /\ (forall rp,
           result_of (cmd_tree rp self w)
           = Raise (RuntimeError
                      (Msg ("Failed to get directory tree:" ++ nl ++ strip err))))
    /\ result_of (cmd_pwd self w)
       = Raise (RuntimeError
                  (Msg ("Failed to get current directory: " ++ strip err))).
Proof.
  intros self w out err rc H Hrc.
  assert (E : (rc =? 0)%Z = false) by (apply Z.eqb_neq; exact Hrc).
  unfold cmd_df, cmd_du, cmd_find, cmd_ls, TopLevel.cmd_ls, ls_decode,
    cmd_tree, cmd_pwd.
  repeat split; intros; cbn [not_a_str]; rewrite ?bind_ret; answered H;
    rewrite E; reflexivity.
Qed.

Lemma failed_listings_raise_with_stderr_witness :
  result_of (cmd_pwd (mkWrapper "mega") (steady "/" " Not logged in. " 57))
  = Raise (RuntimeError (Msg "Failed to get current directory: Not logged in.")).
Proof.
  apply (@failed_listings_raise_with_stderr (mkWrapper "mega")
           (steady "/" " Not logged in. " 57) "/" " Not logged in. " 57).
  - intros args. reflexivity.
  - discriminate.
Defined.

(** X7. On an exit code other than 0, [cmd_export__add],
    [cmd_export__delete], [cmd_export__list], [cmd_whoami], [cmd_logout] and
    [cmd_put] do not raise: they return [None], [False], the empty list,
    [None], [(False, None)] and [False]. *)
Theorem failed_commands_return_a_default :
  forall (self : Wrapper) (w : World) (out err : string) (rc : Z),
    (forall args, answers w self args out err rc) ->
    rc <> 0%Z ->
    (forall p wr pw, result_of (cmd_export__add p wr pw self w) = Ok None)
    /\ (forall p, result_of (cmd_export__delete p self w) = Ok false)
    /\ (forall p, result_of (cmd_export__list p self w) = Ok [])
    /\ result_of (cmd_whoami self w) = Ok None
    /\ (forall keep, result_of (cmd_logout keep self w) = Ok (false, None))
    /\ (forall p rp, result_of (cmd_put (inl p) rp self w) = Ok false)
    /\ (forall ps rp, result_of (cmd_put (inr ps) (Some rp) self w) = Ok false).
Proof.
  intros self w out err rc H Hrc.
  assert (E : (rc =? 0)%Z = false) by (apply Z.eqb_neq; exact Hrc).
  unfold cmd_export__add, cmd_export__delete, cmd_export__list, cmd_whoami,
    cmd_logout, cmd_put.
  repeat split; intros; answered H; rewrite ?E; try reflexivity.
  - unfold bind at 1. cbn [ret]. answered H. rewrite E. reflexivity.
  - unfold bind at 1. cbn [assert is_some is_none negb ret bind].
    answered H. rewrite E. reflexivity.
Qed.

Lemma failed_commands_return_a_default_witness :
  result_of (cmd_export__list None (mkWrapper "mega") (steady "" "no" 57))
  = Ok [].
Proof.
  apply (@failed_commands_return_a_default (mkWrapper "mega")
           (steady "" "no" 57) "" "no" 57).
  - intros args. reflexivity.
  - discriminate.
Defined.

(** ** Transfers and the local directory *)

(** X8. [cmd_get] returns [True] exactly when the exit code is 0 and the
    output contains ["Download finished"], and [False] exactly when the exit
    code is 0 and the output does not contain it; every other exit code
    raises a [RuntimeError], with texts of their own for 53, 54 and 55. *)
Theorem get_classifies_exit_code_and_output :
  forall (self : Wrapper) (w : World) (path_remote : string)
         (path_local password : option string) (merge : bool)
         (out err : string) (rc : Z),
    (forall args, answers w self args out err rc) ->
    let r := result_of (cmd_get path_remote path_local password merge self w) in
    let res := mkCMDResult (strip out) (strip err) rc in
    (r = Ok true <-> rc = 0%Z /\ contains (strip out) "Download finished" = true)
    /\ (r = Ok false <-> rc = 0%Z /\ contains (strip out) "Download finished" = false)
    /\ (rc = 53%Z -> r = Raise (RuntimeError (MsgRes "Remote path not found: " res)))
    /\ (rc = 54%Z -> r = Raise (RuntimeError (MsgRes "Local path error: " res)))
    /\ (rc = 55%Z ->
        r = Raise (RuntimeError
                     (MsgRes "Invalid download folder (local folder does not exist): "
                        res)))
    /\ (rc <> 0%Z -> rc <> 53%Z -> rc <> 54%Z -> rc <> 55%Z ->
        r = Raise (RuntimeError (MsgRes "Failed to get file/folder: " res))).
Proof.
  intros self w path_remote path_local password merge out err rc H r res.
  subst r res. unfold cmd_get. answered H.
  destruct (Z.eqb_spec rc 0); destruct (Z.eqb_spec rc 53);
    destruct (Z.eqb_spec rc 54); destruct (Z.eqb_spec rc 55);
    destruct (contains (strip out) "Download finished");
    cbn [negb result_of ret raise fst]; settle.
Qed.

Lemma get_classifies_exit_code_and_output_witness :
  result_of (cmd_get "/a" None None false (mkWrapper "mega")
               (steady "Download finished: ./a" "" 0)) = Ok true.
Proof.
  destruct (@get_classifies_exit_code_and_output (mkWrapper "mega")
              (steady "Download finished: ./a" "" 0) "/a" None None false
              "Download finished: ./a" "" 0%Z (fun _ => eq_refl))
    as ((_ & Hyes) & _).
  apply Hyes. split; reflexivity.
Defined.

(** X9. [cmd_put], given one local path, or several local paths and a
    remote path, returns [True] exactly when the exit code is 0 and the
    output contains ["Upload finished"], returns [False] exactly when the
    exit code is not 0, and raises a [RuntimeError] with the output when the
    exit code is 0 without that text; given several local paths and no
    remote path it raises an [AssertionError] and runs nothing.
    [cmd_import] returns [True] exactly when the exit code is 0 and the
    output contains ["Imported folder complete:"] or
    ["Imported file complete:"]; it never returns [False]: everything else
    raises a [RuntimeError]. *)
Theorem put_and_import_classify_exit_code_and_output :
  forall (self : Wrapper) (w : World) (local_path : string + list string)
         (remote_path password : option string)
         (exported_link : string) (out err : string) (rc : Z),
    (forall args, answers w self args out err rc) ->
    let put := result_of (cmd_put local_path remote_path self w) in
    let imp := result_of (cmd_import exported_link remote_path password self w) in
    let res := mkCMDResult (strip out) (strip err) rc in
    (refused_at_once (call_put local_path remote_path) = false ->
     (put = Ok true <-> rc = 0%Z /\ contains (strip out) "Upload finished" = true)
     /\ (put = Ok false <-> rc <> 0%Z)
     /\ (rc = 0%Z -> contains (strip out) "Upload finished" = false ->
         put = Raise (RuntimeError
                        (Msg ("Unexpected output from put command:" ++ nl
                              ++ strip out)))))
    /\ (refused_at_once (call_put local_path remote_path) = true ->
        (exists local_paths, local_path = inr local_paths) /\ remote_path = None
        /\ cmd_put local_path remote_path self w
           = (Raise (AssertionError
                       (Msg "remote_path must be set when uploading multiple local items.")),
              self, w))
    /\ (imp = Ok true <->
        rc = 0%Z
        /\ contains (strip out) "Imported folder complete:"
           || contains (strip out) "Imported file complete:" = true)
    /\ imp <> Ok false
    /\ (rc = 55%Z ->
        imp = Raise (RuntimeError
                       (MsgRes "Invalid remote path (Invalid destiny): " res)))
    /\ (rc <> 55%Z ->
        (rc = 0%Z ->
         contains (strip out) "Imported folder complete:"
         || contains (strip out) "Imported file complete:" = false) ->
        imp = Raise (RuntimeError (MsgRes "Failed to import link: " res))).
Proof.
  intros self w local_path remote_path password exported_link
    out err rc H put imp res.
  assert (Hput : refused_at_once (call_put local_path remote_path) = false ->
                 put = if (rc =? 0)%Z
                       then if contains (strip out) "Upload finished"
                            then Ok true
                            else Raise (RuntimeError
                                          (Msg ("Unexpected output from put command:"
                                                ++ nl ++ strip out)))
                       else Ok false).
  { intros Hr. subst put. unfold cmd_put.
    destruct local_path as [p|ps]; [|destruct remote_path; [|discriminate Hr]];
      cbn [assert is_some is_none negb]; rewrite !bind_ret; answered H;
      (destruct (Z.eqb_spec rc 0);
       [destruct (contains (strip out) "Upload finished")|]; reflexivity). }
  split; [|split].
  - intros Hr. rewrite (Hput Hr). clear Hput.
    destruct (Z.eqb_spec rc 0);
      destruct (contains (strip out) "Upload finished");
      settle; try discriminate.
  - intros Hr. clear Hput.
    destruct local_path as [p|ps]; [discriminate Hr|].
    destruct remote_path; [discriminate Hr|].
    split; [exists ps; reflexivity|]. split; reflexivity.
  - clear Hput. subst put imp res. unfold cmd_import. answered H.
    destruct (Z.eqb_spec rc 0); destruct (Z.eqb_spec rc 55);
      destruct (contains (strip out) "Imported folder complete:");
      destruct (contains (strip out) "Imported file complete:");
      cbn [negb orb result_of ret raise fst]; settle;
      try discriminate;
      try match goal with
          | H : _ -> false = false |- _ => clear H
          | H : ?a = ?a -> true = false |- _ => specialize (H eq_refl); discriminate H
          end.
Qed.

Lemma put_and_import_classify_exit_code_and_output_witness :
  result_of (cmd_put (inr ["a.txt"; "b/"]) (Some "/up") (mkWrapper "mega")
               (steady "Upload finished: /up" "" 0)) = Ok true.
Proof.
  destruct (@put_and_import_classify_exit_code_and_output (mkWrapper "mega")
              (steady "Upload finished: /up" "" 0) (inr ["a.txt"; "b/"])
              (Some "/up") None ""
              "Upload finished: /up" "" 0%Z (fun _ => eq_refl))
    as (Hput & _).
  destruct (Hput eq_refl) as ((_ & Hyes) & _).
  apply Hyes. split; reflexivity.
Defined.

(** X10. [cmd_lcd] returns [True] exactly for exit code 0, [False] exactly
    for 55, and raises a [RuntimeError] for every other code; the path it
    passes has no trailing slash. *)
Theorem lcd_classifies_exit_codes :
  forall (self : Wrapper) (w : World) (local_path out err : string) (rc : Z),
    (forall args, answers w self args out err rc) ->
    let r := result_of (cmd_lcd local_path self w) in
    (r = Ok true <-> rc = 0%Z)
    /\ (r = Ok false <-> rc = 55%Z)
    /\ (rc <> 0%Z -> rc <> 55%Z ->
        r = Raise (RuntimeError
                     (MsgRes "Failed to change local directory: "
                        (mkCMDResult (strip out) (strip err) rc))))
    /\ exists p,
         calls (world_of (cmd_lcd local_path self w))
         = (calls w ++ [[mega_cmd_path self; "lcd"; p]])%list
         /\ endswith p "/" = false.
Proof.
  intros self w local_path out err rc H r. subst r.
  unfold cmd_lcd. answered H.
  destruct (Z.eqb_spec rc 0); destruct (Z.eqb_spec rc 55);
    cbn [result_of world_of ret raise fst snd after_call calls];
    settle;
    (eexists; split; [reflexivity|];
     rewrite clean_local_path_stem; apply local_stem_no_slash).
Qed.

Lemma lcd_classifies_exit_codes_witness :
  result_of (cmd_lcd "/tmp/" (mkWrapper "mega") (steady "" "" 55)) = Ok false.
Proof.
  destruct (@lcd_classifies_exit_codes (mkWrapper "mega") (steady "" "" 55)
              "/tmp/" "" "" 55%Z (fun _ => eq_refl)) as (_ & (_ & Hno) & _).
  apply Hno. reflexivity.
Defined.

(** ** What the reports can contain *)

Lemma isnot_colon_all w : all_in (isnot ":") w -> mem ":" w = false.
Proof.
  unfold all_in. induction w as [|c w IH]; [reflexivity|].
  change (list_ascii_of_string (String c w)) with (c :: list_ascii_of_string w).
  cbn [forallb]. intros H. apply andb_true_iff in H. destruct H as [Hc Hw].
  change (mem ":" (String c w)) with (Ascii.eqb ":" c || mem ":" w).
  rewrite (IH Hw), orb_false_r.
  unfold isnot in Hc. change (mem c ":") with (Ascii.eqb c ":" || false) in Hc.
  rewrite orb_false_r in Hc. apply negb_true_iff in Hc.
  rewrite Ascii.eqb_sym. exact Hc.
Qed.

Lemma du_entry_line_ok l e : du_entry_line l e -> du_entry_ok e.
Proof.
  intros (a & b & (w1 & w2 & _ & Hne & Hall & _) & Ha & Hb).
  unfold du_entry_ok.
  repeat split;
    [ apply (@digits_value_nonneg _ _ _ Ha); lia
    | apply (@digits_value_nonneg _ _ _ Hb); lia
    | exact Hne | apply isnot_colon_all; exact Hall ].
Qed.

Lemma du_report_of_ok lines rep : du_report_of lines rep -> du_report_ok rep.
Proof.
  intros [Hall Htot]. unfold du_report_ok.
  assert (Ht : (0 <= size_total rep)%Z /\ (0 <= size_total_with_versions rep)%Z).
  { destruct (last_such du_is_total lines).
    - destruct Htot as (a & b & _ & Ha & Hb).
      split; [apply (@digits_value_nonneg _ _ _ Ha)
             | apply (@digits_value_nonneg _ _ _ Hb)]; lia.
    - destruct Htot as [-> ->]. split; reflexivity. }
  destruct Ht as [Ht1 Ht2]. repeat split; try assumption.
  clear - Hall. induction Hall as [|l e ls es' Hle _ IH]; constructor.
  - eapply du_entry_line_ok; exact Hle.
  - exact IH.
Qed.

(** X11. On exit code 0 [cmd_du] returns a report whose totals and sizes
    are not negative and in which the path of each entry is not empty and
    holds no colon (a line whose path holds a colon is not of the entry
    shape and is passed over), or raises the [ValueError] of [int] on a
    number of more than 4300 digits; it raises nothing else, and returns a
    report whenever no line of the output has more than 4300 characters. *)
Theorem du_always_returns_a_sound_report :
  forall (self : Wrapper) (w : World) (remote_paths : list string)
         (out err : string),
    answers w self (du_args remote_paths) out err 0 ->
    let lines := splitlines (strip (strip out)) in
    let r := result_of (cmd_du (inr remote_paths) self w) in
    ((exists rep, r = Ok rep /\ du_report_ok rep) \/ int_refused lines r)
    /\ (Forall short lines -> exists rep, r = Ok rep /\ du_report_ok rep).
Proof.
  intros self w remote_paths out err H lines r.
  assert (Hr : (exists rep, r = Ok rep /\ du_report_ok rep)
               \/ int_refused lines r).
  { subst r. rewrite (cmd_du_completed H).
    destruct (du_report lines) as [(rep & Hrep & Hof)|Hr];
      [left | right; exact Hr].
    exists rep. split; [exact Hrep | exact (du_report_of_ok Hof)]. }
  split; [exact Hr|].
  intros Hshort. destruct Hr as [Hr|Hr]; [exact Hr|].
  destruct (int_refused_short Hshort Hr).
Qed.

Lemma du_always_returns_a_sound_report_witness :
  exists rep,
    result_of (cmd_du (inr ["/a"]) (mkWrapper "mega")
                 (steady ("a:b: 1 2" ++ nl ++ "/a: 3 4") "" 0)) = Ok rep
    /\ du_report_ok rep.
Proof.
  destruct (@du_always_returns_a_sound_report (mkWrapper "mega")
              (steady ("a:b: 1 2" ++ nl ++ "/a: 3 4") "" 0) ["/a"]
              ("a:b: 1 2" ++ nl ++ "/a: 3 4") "" eq_refl) as [_ Hshort].
  apply Hshort.
  repeat (constructor; [apply Nat.leb_le; reflexivity|]). constructor.
Defined.

Lemma df_three_ok r l set st :
  groups r = [Plus digit; Plus digit; Plus digit] ->
  (forall x y z st, (0 <= x)%Z -> (0 <= y)%Z -> (0 <= z)%Z ->
                    df_counters_ok st -> df_counters_ok (set x y z st)) ->
  df_counters_ok st ->
  (exists st', df_three (py_match r l) set st = Ok st' /\ df_counters_ok st')
  \/ int_refused_at l (df_three (py_match r l) set st).
Proof.
  intros Hg Hset Hst.
  destruct (@df_three_cases r l set st Hg)
    as [->|[(x & y & z & (Hx & Hy & Hz) & ->)|Hr]].
  - left. exists st. split; [reflexivity | exact Hst].
  - left. exists (set x y z st). split; [reflexivity|]. apply Hset; assumption.
  - right. exact Hr.
Qed.

Lemma py_float_cases g :
  (exists f, py_float g = Ok f) \/ py_float g = Raise (float_error g).
Proof.
  unfold py_float.
  destruct (scan_float false 0 0 0 g) as [[[m k] [|n]]|]; eauto.
Qed.

(** The [if] on the [USED STORAGE] line. *)
Lemma df_total_ok l st :
  df_counters_ok st ->
  exists o,
    (match py_match RE_DF_TOTAL l with
     | Some gs =>
         g1 <~ group gs 1 ;; a <~ py_int g1 ;;
         g2 <~ group gs 2 ;; p <~ py_float g2 ;;
         g3 <~ group gs 3 ;; c <~ py_int g3 ;;
         Ok (df_set_total a p c st)
     | None => Ok st
     end) = o
    /\ ((exists st', o = Ok st' /\ df_counters_ok st')
        \/ float_refused_at l o \/ int_refused_at l o).
Proof.
  intros Hst. eexists. split; [reflexivity|].
  unfold float_refused_at, int_refused_at.
  destruct (py_match RE_DF_TOTAL l) as [caps|] eqn:E; [|left; eauto].
  pose proof (py_match_bounded _ _ E) as Hb.
  apply py_match_captured in E. unfold captured in E.
  change (groups RE_DF_TOTAL)
    with [Plus digit; Plus (fun c => digit c || only "." c); Plus digit] in E.
  apply Forall2_three in E. destruct E as (a & b & c & -> & Ha & _ & Hc).
  inversion Hb as [|? ? Hla Hb1]; subst. inversion Hb1 as [|? ? _ Hb2]; subst.
  inversion Hb2 as [|? ? Hlc _]; subst.
  cbn [group nth_error Nat.sub obind].
  destruct (@py_int_within l a Ha Hla) as [(x & Hx & _)|(m & Hm & ->)];
    [rewrite Hx|right; right; eauto]; cbn [obind].
  destruct (py_float_cases b) as [[f ->]| ->]; cbn [obind];
    [|right; left; eauto].
  destruct (@py_int_within l c Hc Hlc) as [(z & Hz & _)|(m & Hm & ->)];
    [rewrite Hz|right; right; eauto]; cbn [obind].
  left. eexists. split; [reflexivity|].
  pose proof (@py_int_nonneg _ _ Hx). pose proof (@py_int_nonneg _ _ Hz).
  unfold df_counters_ok in *; cbn; intuition lia.
Qed.

Lemma df_versions_ok l st :
  df_counters_ok st ->
  exists o,
    (match py_match RE_DF_VERSIONS l with
     | Some gs => g1 <~ group gs 1 ;; a <~ py_int g1 ;; Ok (df_set_versions a st)
     | None => Ok st
     end) = o
    /\ ((exists st', o = Ok st' /\ df_counters_ok st') \/ int_refused_at l o).
Proof.
  intros Hst.
  destruct (df_versions_cases l st) as (o & Ho & Hcases).
  exists o. split; [exact Ho|].
  destruct Hcases as [->|[(x & Hx & ->)|Hr]].
  - left. eauto.
  - left. eexists. split; [reflexivity|].
    unfold df_counters_ok in *; cbn; intuition lia.
  - right. exact Hr.
Qed.

Lemma df_line_ok st l :
  df_counters_ok st ->
  (exists st', df_line st l = Ok st' /\ df_counters_ok st')
  \/ float_refused_at l (df_line st l) \/ int_refused_at l (df_line st l).
Proof.
  intros Hst. unfold df_line.
  destruct (@df_three_ok RE_DF_CLOUD l df_set_cloud st eq_refl)
    as [(s1 & -> & H1)|(n & Hn & ->)];
    [unfold df_counters_ok; cbn; intuition lia | exact Hst | |
     right; right; exists n; auto].
  cbn [obind].
  destruct (@df_three_ok RE_DF_INBOX l df_set_inbox s1 eq_refl)
    as [(s2 & -> & H2)|(n & Hn & ->)];
    [unfold df_counters_ok; cbn; intuition lia | exact H1 | |
     right; right; exists n; auto].
  cbn [obind].
  destruct (@df_three_ok RE_DF_BIN l df_set_bin s2 eq_refl)
    as [(s3 & -> & H3)|(n & Hn & ->)];
    [unfold df_counters_ok; cbn; intuition lia | exact H2 | |
     right; right; exists n; auto].
  cbn [obind].
  destruct (df_total_ok l H3)
    as (o & -> & [(s4 & -> & H4)|[(a & g & c & Hm & ->)|(n & Hn & ->)]]);
    cbn [obind];
    [ | right; left; exists a, g, c; auto | right; right; exists n; auto].
  destruct (df_versions_ok l H4) as (o & -> & [(s5 & -> & H5)|(n & Hn & ->)]);
    [left; eauto | right; right; exists n; auto].
Qed.

Lemma df_loop_ok lines : forall st,
  df_counters_ok st ->
  (exists st', for_each df_line st lines = Ok st' /\ df_counters_ok st')
  \/ float_refused lines (for_each df_line st lines)
  \/ int_refused lines (for_each df_line st lines).
Proof.
  induction lines as [|l lines IH]; intros st Hst; cbn [for_each].
  - left. eauto.
  - destruct (df_line_ok l Hst)
      as [(s1 & -> & H1)|[(a & g & c & Hm & ->)|(n & Hn & ->)]]; cbn [obind].
    + destruct (IH s1 H1) as [Hok|[(l' & Hin & Hr)|Hr]].
      * left. exact Hok.
      * right. left. exists l'. split; [right; exact Hin | exact Hr].
      * right. right. apply int_refused_cons. exact Hr.
    + right. left. exists l. split; [left; reflexivity|].
      exists a, g, c. auto.
    + right. right. apply int_refused_head. exists n. auto.
Qed.

(** X12. On exit code 0 [cmd_df] returns a report whose counters are not
    negative, or raises the [ValueError] of [float] on the percentage of a
    [USED STORAGE] line (one that is not a number, such as [1.2.3]), whose
    text names that percentage, or raises the [ValueError] of [int] on a
    number of more than 4300 digits; it raises nothing else, and not the
    last when no line of the output has more than 4300 characters. *)
Theorem df_returns_counters_or_float_error :
  forall (self : Wrapper) (w : World) (out err : string),
    answers w self ["df"] out err 0 ->
    let lines := splitlines (strip (strip out)) in
    let r := result_of (cmd_df self w) in
    ((exists rep, r = Ok rep /\ df_counters_ok rep)
     \/ float_refused lines r \/ int_refused lines r)
    /\ (Forall short lines ->
        (exists rep, r = Ok rep /\ df_counters_ok rep)
        \/ float_refused lines r).
Proof.
  intros self w out err H lines r.
  assert (Hr : (exists rep, r = Ok rep /\ df_counters_ok rep)
               \/ float_refused lines r \/ int_refused lines r).
  { subst r. rewrite (cmd_df_completed H).
    apply df_loop_ok. unfold df_counters_ok. cbn. lia. }
  split; [exact Hr|].
  intros Hshort. destruct Hr as [Hr|[Hr|Hr]]; [left; exact Hr | right; exact Hr|].
  destruct (int_refused_short Hshort Hr).
Qed.

Lemma df_returns_counters_or_float_error_witness :
  let out := "USED STORAGE: 1 1.2.3% of 5" in
  let r := result_of (cmd_df (mkWrapper "mega") (steady out "" 0)) in
  r = Raise (float_error "1.2.3")
  /\ ((exists rep, r = Ok rep /\ df_counters_ok rep)
      \/ float_refused (splitlines (strip (strip out))) r).
Proof.
  intros out r. split; [reflexivity|].
  destruct (@df_returns_counters_or_float_error (mkWrapper "mega")
              (steady out "" 0) out "" eq_refl) as [_ Hshort].
  apply Hshort.
  repeat (constructor; [apply Nat.leb_le; reflexivity|]). constructor.
Defined.

(** ** What [cmd_find] and the export commands can return *)

Lemma plus_nonempty p g : lang (Plus p) g -> g <> "".
Proof. intros [H _]. exact H. Qed.

Lemma plus_lazy_nonempty p g : lang (PlusLazy p) g -> g <> "".
Proof. intros [H _]. exact H. Qed.

Lemma Some_nonempty (g : string) : g <> "" -> Some g <> Some "".
Proof. intros H E. injection E as E. contradiction. Qed.

Lemma groups_find_folder_exported :
  groups RE_FIND_FOLDER_EXPORTED
  = [Plus (isnot "<"); Plus (fun c => word c || digit c || only ":" c); Plus dot].
Proof. reflexivity. Qed.

Lemma groups_find_folder :
  groups RE_FIND_FOLDER
  = [Plus (isnot "<"); Plus (fun c => word c || digit c || only ":" c)].
Proof. reflexivity. Qed.

Lemma groups_find_file_exported :
  groups RE_FIND_FILE_EXPORTED
  = [Plus (isnot "<"); Plus (fun c => word c || digit c || only ":" c);
     Plus (isnot ",)"); Plus dot].
Proof. reflexivity. Qed.

Lemma groups_find_file :
  groups RE_FIND_FILE
  = [Plus (isnot "<"); Plus (fun c => word c || digit c || only ":" c);
     Plus (isnot ")")].
Proof. reflexivity. Qed.

(** The groups of a match, with what each of them is. *)
Ltac groups_of E G :=
  apply py_match_captured in E; unfold captured in E; rewrite G in E.

Ltac entry_ok :=
  repeat split; cbn;
  try discriminate; try reflexivity;
  try (apply Some_nonempty);
  try (eapply plus_nonempty; eassumption);
  try (eapply plus_lazy_nonempty; eassumption).

Lemma find_line_entry es l :
  (find_blank l = true /\ find_line es l = Ok es)
  \/ (find_blank l = false
      /\ exists e, find_line es l = Ok (es ++ [e])%list /\ find_entry_ok e)
  \/ (find_blank l = false /\ find_known l = false
      /\ find_line es l = Raise (find_error l)).
Proof.
  unfold find_blank, find_known, find_line, find_error, find_entry_ok.
  destruct (String.eqb (strip l) "") eqn:Eblank; [left; auto|right].
  destruct (py_match RE_FIND_FOLDER_EXPORTED (strip l)) as [gs|] eqn:E1.
  { left. split; [reflexivity|]. groups_of E1 groups_find_folder_exported.
    apply Forall2_three in E1. destruct E1 as (a & b & c & -> & Ha & Hb & Hc).
    cbn [unpack3 obind]. eexists. split; [reflexivity|]. entry_ok. }
  destruct (py_match RE_FIND_FOLDER (strip l)) as [gs|] eqn:E2.
  { left. split; [reflexivity|]. groups_of E2 groups_find_folder.
    apply Forall2_two in E2. destruct E2 as (a & b & -> & Ha & Hb).
    cbn [unpack2 obind]. eexists. split; [reflexivity|]. entry_ok. }
  destruct (py_match RE_FIND_FILE_EXPORTED (strip l)) as [gs|] eqn:E3.
  { left. split; [reflexivity|]. groups_of E3 groups_find_file_exported.
    apply Forall2_four in E3.
    destruct E3 as (a & b & c & d & -> & Ha & Hb & Hc & Hd).
    cbn [unpack4 obind]. eexists. split; [reflexivity|]. entry_ok. }
  destruct (py_match RE_FIND_FILE (strip l)) as [gs|] eqn:E4.
  { left. split; [reflexivity|]. groups_of E4 groups_find_file.
    apply Forall2_three in E4. destruct E4 as (a & b & c & -> & Ha & Hb & Hc).
    cbn [unpack3 obind]. eexists. split; [reflexivity|]. entry_ok. }
  right. repeat split.
Qed.

Lemma find_loop lines : forall es,
  (exists es',
      for_each find_line es lines = Ok (es ++ es')%list
      /\ List.length es'
         = List.length (filter (fun l => negb (find_blank l)) lines)
      /\ Forall find_entry_ok es')
  \/ (exists l,
         In l lines /\ find_blank l = false /\ find_known l = false
         /\ for_each find_line es lines = Raise (find_error l)).
Proof.
  induction lines as [|l lines IH]; intros es; cbn [for_each filter].
  - left. exists []. rewrite app_nil_r. repeat split. constructor.
  - destruct (find_line_entry es l)
      as [(Hb & ->)|[(Hb & e & -> & He)|(Hb & Hk & ->)]];
      rewrite Hb; cbn [obind negb].
    + destruct (IH es) as [(es' & -> & Hlen & Hall)|(x & Hin & Hxb & Hxk & ->)].
      * left. exists es'. auto.
      * right. exists x. repeat split; auto. right. exact Hin.
    + destruct (IH (es ++ [e])%list)
        as [(es' & -> & Hlen & Hall)|(x & Hin & Hxb & Hxk & ->)].
      * left. exists (e :: es'). rewrite <- app_assoc.
        repeat split; [simpl; rewrite Hlen; reflexivity | constructor; assumption].
      * right. exists x. repeat split; auto. right. exact Hin.
    + right. exists l. repeat split; auto. left. reflexivity.
Qed.

(** X13. On exit code 0 [cmd_find] either returns one entry for each line
    that is not blank, or raises the "Unexpected find line format" error for
    a line of the output that is not blank and has none of the four shapes;
    it raises nothing else.  In each entry returned [flags] and [date] are
    [None], the name and the handle are not empty, the size is [None]
    exactly for directories, and a link, when there is one, is not empty. *)
Theorem find_returns_sound_entries_or_format_error :
  forall (self : Wrapper) (w : World)
         (remote_path pattern time_constraint size_constraint : option string)
         (out err : string),
    (forall args, answers w self args out err 0) ->
    let lines := splitlines (strip (strip out)) in
    let r := result_of (cmd_find remote_path pattern time_constraint
                          size_constraint self w) in
    (exists es,
        r = Ok es
        /\ List.length es
           = List.length (filter (fun l => negb (find_blank l)) lines)
        /\ Forall find_entry_ok es)
    \/ (exists l,
           In l lines /\ find_blank l = false /\ find_known l = false
           /\ r = Raise (find_error l)).
Proof.
  intros self w rp pat t s out err H lines r. subst r.
  rewrite (@cmd_find_completed self w rp pat t s out err (H _)). fold lines.
  destruct (find_loop lines [])
    as [(es & -> & Hlen & Hall)|(l & Hin & Hb & Hk & ->)].
  - left. exists es. auto.
  - right. exists l. auto.
Qed.

Lemma find_returns_sound_entries_or_format_error_witness :
  let out := "/a <H:1> (folder)" ++ nl ++ nl ++ "/a/b.txt <H:2> (12 KB)" in
  exists es,
    result_of (cmd_find None None None None (mkWrapper "mega")
                 (steady out "" 0)) = Ok es
    /\ List.length es = 2 /\ Forall find_entry_ok es.
Proof.
  intros out.
  destruct (@find_returns_sound_entries_or_format_error (mkWrapper "mega")
              (steady out "" 0) None None None None out "" (fun _ => eq_refl))
    as [(es & Hr & Hlen & Hall)|(l & _ & _ & _ & Hr)].
  - exists es. repeat split; assumption.
  - vm_compute in Hr. discriminate Hr.
Defined.

Lemma groups_export_list_file :
  groups RE_EXPORT__LIST_FILE
  = [Plus dot; Plus (isnot ","); Plus (isnot ")")].
Proof. reflexivity. Qed.

Lemma groups_export_list_folder :
  groups RE_EXPORT__LIST_FOLDER = [Plus dot; Plus (isnot ")")].
Proof. reflexivity. Qed.

Lemma groups_export_list_authtoken :
  groups RE_EXPORT__LIST_AUTHTOKEN = [Plus dot; PlusLazy dot].
Proof. reflexivity. Qed.

Lemma export_list_line_entry es l :
  (export_known l = true
   /\ exists e,
        export_list_line es l = Ok (es ++ [e])%list /\ export_entry_ok e)
  \/ (export_known l = false
      /\ export_list_line es l = Raise (export_list_error l)).
Proof.
  unfold export_known, export_list_line, export_list_error, export_entry_ok.
  destruct (py_match RE_EXPORT__LIST_FILE l) as [gs|] eqn:Efile.
  - left. split; [reflexivity|]. groups_of Efile groups_export_list_file.
    apply Forall2_three in Efile.
    destruct Efile as (a & b & c & -> & Ha & Hb & Hc).
    cbn [unpack3 obind].
    destruct (py_match RE_EXPORT__LIST_AUTHTOKEN c) as [gs|] eqn:Eauth.
    + groups_of Eauth groups_export_list_authtoken.
      apply Forall2_two in Eauth. destruct Eauth as (x & y & -> & Hx & Hy).
      cbn [unpack2 obind]. eexists. split; [reflexivity|]. entry_ok.
    + cbn [obind]. eexists. split; [reflexivity|]. entry_ok.
  - destruct (py_match RE_EXPORT__LIST_FOLDER l) as [gs|] eqn:Efolder.
    + left. split; [reflexivity|]. groups_of Efolder groups_export_list_folder.
      apply Forall2_two in Efolder. destruct Efolder as (a & c & -> & Ha & Hc).
      cbn [unpack2 obind].
      destruct (py_match RE_EXPORT__LIST_AUTHTOKEN c) as [gs|] eqn:Eauth.
      * groups_of Eauth groups_export_list_authtoken.
        apply Forall2_two in Eauth. destruct Eauth as (x & y & -> & Hx & Hy).
        cbn [unpack2 obind]. eexists. split; [reflexivity|]. entry_ok.
      * cbn [obind]. eexists. split; [reflexivity|]. entry_ok.
    + right. split; reflexivity.
Qed.

Lemma export_list_loop lines : forall es,
  (exists es',
      for_each export_list_line es lines = Ok (es ++ es')%list
      /\ List.length es' = List.length lines
      /\ Forall export_entry_ok es')
  \/ (exists l,
         In l lines /\ export_known l = false
         /\ for_each export_list_line es lines = Raise (export_list_error l)).
Proof.
  induction lines as [|l lines IH]; intros es; cbn [for_each].
  - left. exists []. rewrite app_nil_r. repeat split. constructor.
  - destruct (export_list_line_entry es l) as [(Hk & e & -> & He)|(Hk & ->)];
      cbn [obind].
    + destruct (IH (es ++ [e])%list)
        as [(es' & -> & Hlen & Hall)|(x & Hin & Hxk & ->)].
      * left. exists (e :: es'). rewrite <- app_assoc.
        repeat split; [simpl; rewrite Hlen; reflexivity | constructor; assumption].
      * right. exists x. repeat split; auto. right. exact Hin.
    + right. exists l. repeat split; auto. left. reflexivity.
Qed.

(** X14. On exit code 0 [cmd_export__list] either returns one entry for each
    line of the output, or raises the "Unexpected export list line format"
    error for a line that has neither shape; it raises nothing else.  In
    each entry returned the path and the link are not empty, an entry
    without a size is a folder, and a size or a token, when there is one,
    is not empty. *)
Theorem export_list_returns_sound_entries_or_format_error :
  forall (self : Wrapper) (w : World) (remote_path : option string)
         (out err : string),
    answers w self (export_args remote_path) out err 0 ->
    let lines := splitlines (strip (strip out)) in
    let r := result_of (cmd_export__list remote_path self w) in
    (exists es,
        r = Ok es /\ List.length es = List.length lines
        /\ Forall export_entry_ok es)
    \/ (exists l,
           In l lines /\ export_known l = false
           /\ r = Raise (export_list_error l)).
Proof.
  intros self w rp out err H lines r. subst r.
  rewrite (@cmd_export__list_completed self w rp out err H). fold lines.
  destruct (export_list_loop lines [])
    as [(es & -> & Hlen & Hall)|(l & Hin & Hk & ->)].
  - left. exists es. auto.
  - right. exists l. auto.
Qed.

Lemma export_list_returns_sound_entries_or_format_error_witness :
  let out :=
    "/d (folder, shared as exported permanent folder link: https://mega.nz/folder/a#k AuthToken=t)"
    ++ nl
    ++ "/f.txt (12 KB, shared as exported permanent file link: https://mega.nz/file/b#k)" in
  exists es,
    result_of (cmd_export__list None (mkWrapper "mega") (steady out "" 0)) = Ok es
    /\ List.length es = 2 /\ Forall export_entry_ok es.
Proof.
  intros out.
  destruct (@export_list_returns_sound_entries_or_format_error
              (mkWrapper "mega") (steady out "" 0) None out "" eq_refl)
    as [(es & Hr & Hlen & Hall)|(l & _ & _ & Hr)].
  - exists es. repeat split; assumption.
  - vm_compute in Hr. discriminate Hr.
Defined.

Lemma groups_export_add_folder :
  groups RE_EXPORT__ADD_FOLDER
  = [PlusLazy dot; Seq (Str "ht") (PlusLazy dot); Plus dot].
Proof. reflexivity. Qed.

Lemma groups_export_add_file :
  groups RE_EXPORT__ADD_FILE = [PlusLazy dot; Seq (Str "ht") (PlusLazy dot)].
Proof. reflexivity. Qed.

Lemma ht_link g : lang (Seq (Str "ht") (PlusLazy dot)) g -> startswith g "ht" = true.
Proof.
  cbn [lang Str]. intros (w1 & w2 & -> & (a & b & -> & -> & c & d & -> & -> & ->) & _).
  unfold startswith. simpl. destruct w2; reflexivity.
Qed.

(** X15. On exit code 0 [cmd_export__add] does not raise.  It returns
    [None] exactly when the output has neither the shape of an exported
    folder nor that of an exported file.  When the output has the shape of
    a folder, it returns the folder entry of the path, link and token found;
    when it has only the shape of a file, the file entry of the path and
    link found.  In an entry returned the path is not empty, the link
    starts with ["ht"], the size is [None], and a token is there, and not
    empty, exactly for a folder. *)
Theorem export_add_returns_a_link_or_none :
  forall (self : Wrapper) (w : World) (remote_path : string) (writeable : bool)
         (password : option string) (out err : string),
    (forall args, answers w self args out err 0) ->
    let r := result_of (cmd_export__add remote_path writeable password self w) in
    let folder := py_search RE_EXPORT__ADD_FOLDER (strip out) in
    let file := py_search RE_EXPORT__ADD_FILE (strip out) in
    (r = Ok None <-> folder = None /\ file = None)
    /\ (forall gs,
           folder = Some gs ->
           exists path link token,
             gs = [path; link; token]
             /\ r = Ok (Some (mkMEGAExportEntry path link None true (Some token))))
    /\ (forall gs,
           folder = None -> file = Some gs ->
           exists path link,
             gs = [path; link]
             /\ r = Ok (Some (mkMEGAExportEntry path link None false None)))
    /\ (folder <> None \/ file <> None ->
        exists e,
          r = Ok (Some e) /\ added_entry_ok e
          /\ (is_folder e = true <-> folder <> None)).
Proof.
  intros self w remote_path writeable password out err H r folder file.
  subst r folder file.
  unfold cmd_export__add. answered H. cbn [Z.eqb negb].
  unfold added_entry_ok.
  destruct (py_search RE_EXPORT__ADD_FOLDER (strip out)) as [gs|] eqn:E1.
  - apply search_from_captured in E1. unfold captured in E1.
    rewrite groups_export_add_folder in E1.
    apply Forall2_three in E1. destruct E1 as (a & b & c & -> & Ha & Hb & Hc).
    cbn [unpack3 lift bind result_of fst ret].
    split; [|split; [|split]].
    + split; [discriminate | intros [Hf _]; discriminate Hf].
    + intros gs Hgs. injection Hgs as <-. exists a, b, c. split; reflexivity.
    + intros gs Hf. discriminate Hf.
    + intros _. eexists. split; [reflexivity|]. cbn.
      repeat split; try discriminate;
        [ eapply plus_lazy_nonempty; eassumption | apply ht_link; exact Hb
        | apply Some_nonempty; eapply plus_nonempty; eassumption ].
  - destruct (py_search RE_EXPORT__ADD_FILE (strip out)) as [gs|] eqn:E2.
    + apply search_from_captured in E2. unfold captured in E2.
      rewrite groups_export_add_file in E2.
      apply Forall2_two in E2. destruct E2 as (a & b & -> & Ha & Hb).
      cbn [unpack2 lift bind result_of fst ret].
      split; [|split; [|split]].
      * split; [discriminate | intros [_ Hf]; discriminate Hf].
      * intros gs Hf. discriminate Hf.
      * intros gs _ Hgs. injection Hgs as <-. exists a, b. split; reflexivity.
      * intros _. eexists. split; [reflexivity|]. cbn.
        repeat split; try discriminate; try congruence;
          [ eapply plus_lazy_nonempty; eassumption | apply ht_link; exact Hb ].
    + cbn [result_of fst ret].
      split; [|split; [|split]].
      * split; [auto | reflexivity].
      * intros gs Hf. discriminate Hf.
      * intros gs _ Hf. discriminate Hf.
      * intros [Hf|Hf]; contradiction.
Qed.

Lemma export_add_returns_a_link_or_none_witness :
  let out := "Exported /d: https://mega.nz/folder/a#k" ++ nl
             ++ "          AuthToken = tok" in
  let self := mkWrapper "mega" in
  py_search RE_EXPORT__ADD_FOLDER (strip out)
  = Some ["/d"; "https://mega.nz/folder/a#k"; "tok"]
  /\ result_of (cmd_export__add "/d" false None self (steady out "" 0))
     = Ok (Some (mkMEGAExportEntry "/d" "https://mega.nz/folder/a#k" None true
                   (Some "tok")))
  /\ result_of (cmd_export__add "/d" false None self (steady "done" "" 0))
     = Ok None.
Proof.
  intros out self. split; [reflexivity|]. split.
  - destruct (@export_add_returns_a_link_or_none self
                (steady out "" 0) "/d" false None out "" (fun _ => eq_refl))
      as (_ & Hfolder & _).
    destruct (Hfolder _ eq_refl) as (path & link & token & Hgs & Hr).
    injection Hgs as <- <- <-. exact Hr.
  - apply (@export_add_returns_a_link_or_none self
             (steady "done" "" 0) "/d" false None "done" "" (fun _ => eq_refl)).
    split; reflexivity.
Defined.

(** ** Sessions *)

Lemma groups_whoami : groups RE_WHOAMI_EMAIL = [PlusLazy dot].
Proof. reflexivity. Qed.

Lemma groups_session : groups RE_SESSION = [Plus dot].
Proof. reflexivity. Qed.

Lemma groups_logout : groups RE_LOGOUT_SESSION = [PlusLazy dot].
Proof. reflexivity. Qed.

(** X16. On exit code 0 [cmd_whoami] and [cmd_session] return a text that is
    not empty and holds no line feed, or raise [NotImplementedError] with the
    output; they do not return [None].  On another exit code [cmd_session]
    returns [None] when the standard error contains ["Not logged in"] and
    raises [NotImplementedError] otherwise.  On exit code 0 [cmd_logout]
    returns [True] with no session unless [keep_session] is set, and a
    session it returns is not empty. *)
Theorem session_queries_results :
  forall (self : Wrapper) (w : World) (out err : string) (rc : Z),
    (forall args, answers w self args out err rc) ->
    (rc = 0%Z ->
     ((exists g, result_of (cmd_whoami self w) = Ok (Some g) /\ one_line g)
      \/ result_of (cmd_whoami self w) = Raise (whoami_error (strip out)))
     /\ ((exists g, result_of (cmd_session self w) = Ok (Some g) /\ one_line g)
         \/ result_of (cmd_session self w) = Raise (session_error (strip out)))
     /\ result_of (cmd_logout false self w) = Ok (true, None)
     /\ exists s, result_of (cmd_logout true self w) = Ok (true, s)
                  /\ s <> Some "")
    /\ (rc <> 0%Z ->
        result_of (cmd_session self w)
        = if contains (strip err) "Not logged in" then Ok None
          else Raise (session_error (strip out))).
Proof.
  intros self w out err rc H. split.
  - intros ->. unfold cmd_whoami, cmd_session, cmd_logout, whoami_error,
      session_error, one_line.
    answered H. cbn [Z.eqb negb]. repeat split.
    + destruct (py_search RE_WHOAMI_EMAIL (strip out)) as [gs|] eqn:E;
        [left | right; reflexivity].
      apply search_from_captured in E. unfold captured in E.
      rewrite groups_whoami in E. apply Forall2_one in E.
      destruct E as (g & -> & Hg). exists g. split; [reflexivity | exact Hg].
    + destruct (py_search RE_SESSION (strip out)) as [gs|] eqn:E;
        [left | right; reflexivity].
      apply search_from_captured in E. unfold captured in E.
      rewrite groups_session in E. apply Forall2_one in E.
      destruct E as (g & -> & Hg). exists g. split; [reflexivity | exact Hg].
    + destruct (py_search RE_LOGOUT_SESSION (strip out)) as [gs|] eqn:E.
      * apply search_from_captured in E. unfold captured in E.
        rewrite groups_logout in E. apply Forall2_one in E.
        destruct E as (g & -> & Hg). exists (Some g).
        split; [reflexivity | apply Some_nonempty; exact (proj1 Hg)].
      * exists None. split; [reflexivity | discriminate].
  - intros Hrc. unfold cmd_session, session_error. answered H.
    assert (E : (rc =? 0)%Z = false) by (apply Z.eqb_neq; exact Hrc).
    rewrite E. destruct (contains (strip err) "Not logged in"); reflexivity.
Qed.

Lemma session_queries_results_witness :
  result_of (cmd_session (mkWrapper "mega") (steady "" "Not logged in." 57))
  = Ok None.
Proof.
  apply (proj2 (@session_queries_results (mkWrapper "mega")
                  (steady "" "Not logged in." 57) "" "Not logged in." 57%Z
                  (fun _ => eq_refl))).
  discriminate.
Defined.

(** X17. A login with a user name runs [login email password], followed by
    [--auth-code=...] exactly when the code is not empty, and returns whether
    the exit code is 0; a login with a session runs [login session].  When a
    user parameter is given but [email] or [password] is [None], an
    [AssertionError] is raised and nothing is run. *)
Theorem login_runs_one_command :
  forall (self : Wrapper) (w : World) (email password session : string)
         (auth_code : option string) (out err : string) (rc : Z),
    (forall args, answers w self args out err rc) ->
    (truthy (Some email) || truthy (Some password) || truthy auth_code = true ->
     cmd_login (Some email) (Some password) auth_code None self w
     = (Ok (rc =? 0)%Z, self,
        after_call w self (login_args email password auth_code)))
    /\ cmd_login None None None (Some session) self w
       = (Ok (rc =? 0)%Z, self, after_call w self ["login"; session])
    /\ (truthy auth_code = true ->
        cmd_login None (Some password) auth_code None self w
        = (Raise login_assertion, self, w)
        /\ cmd_login (Some email) None auth_code None self w
           = (Raise login_assertion, self, w)).
Proof.
  intros self w email password session auth_code out err rc H.
  assert (Hrun : forall args,
             bind (_run_mega_cmd args)
               (fun res => if negb (return_code res =? 0)%Z then ret false
                           else ret true) self w
             = (Ok (rc =? 0)%Z, self, after_call w self args)).
  { intros args. rewrite (bind_run_completed _ (H args)). cbn [return_code].
    destruct (rc =? 0)%Z; reflexivity. }
  split; [|split; [|intros Hauth; split]].
  - intros Huser. unfold cmd_login. rewrite Huser.
    cbn [is_some is_none negb Nat.b2n Nat.add Nat.eqb].
    replace (match auth_code with
             | Some code =>
                 if truthy auth_code
                 then (["login"; email; password]
                       ++ [("--auth-code=" ++ code)%string])%list
                 else ["login"; email; password]
             | None => ["login"; email; password]
             end) with (login_args email password auth_code).
    + apply Hrun.
    + unfold login_args. destruct auth_code as [code|]; [|reflexivity].
      cbn [truthy]. destruct (String.eqb code ""); reflexivity.
  - unfold cmd_login. cbn. apply Hrun.
  - unfold cmd_login. cbn [truthy orb]. rewrite Hauth, orb_true_r. reflexivity.
  - unfold cmd_login. cbn [truthy orb]. rewrite Hauth, orb_true_r.
    cbn [is_some is_none negb Nat.b2n Nat.add Nat.eqb]. reflexivity.
Qed.

Lemma login_runs_one_command_witness :
  cmd_login (Some "a@b.c") (Some "pw") (Some "") None (mkWrapper "mega")
    (steady "" "" 0)
  = (Ok true, mkWrapper "mega",
     after_call (steady "" "" 0) (mkWrapper "mega") ["login"; "a@b.c"; "pw"]).
Proof.
  apply (proj1 (@login_runs_one_command (mkWrapper "mega") (steady "" "" 0)
                  "a@b.c" "pw" "" (Some "") "" "" 0%Z (fun _ => eq_refl))).
  reflexivity.
Defined.

(** ** [cmd_export] *)

Lemma result_of_bind_ret {A B} (m : M A) (f : A -> B) self w :
  result_of (bind m (fun a => ret (f a)) self w) = omap f (result_of (m self w)).
Proof.
  unfold bind. destruct (m self w) as [[[a|e] self'] w']; reflexivity.
Qed.

(** X18. [cmd_export] gives the result of [cmd_export__add],
    [cmd_export__delete] or [cmd_export__list] for the actions ["add"],
    ["delete"] and ["list"]; for any other action it raises [ValueError],
    and for a missing path or a parameter that does not apply it raises
    [AssertionError]; in these cases nothing is run. *)
Theorem export_dispatches_on_the_action :
  forall (self : Wrapper) (w : World) (action p : string)
         (rp : option string) (wr : bool) (pw : option string),
    (action <> "add" -> action <> "delete" -> action <> "list" ->
     cmd_export action rp wr pw self w
     = (Raise (ValueError
                 (Msg ("Invalid action: " ++ action
                       ++ ". Must be 'add', 'delete', or 'list'."))),
        self, w))
    /\ cmd_export "add" None wr pw self w
       = (Raise (AssertionError
                   (Msg "remote_path is required for adding an export.")),
          self, w)
    /\ cmd_export "delete" None wr pw self w
       = (Raise (AssertionError
                   (Msg "remote_path is required for deleting an export.")),
          self, w)
    /\ (wr = true \/ pw <> None ->
        exists text,
          (text = "writeable parameter is not applicable for delete action."
           \/ text = "password parameter is not applicable for delete action.")
          /\ cmd_export "delete" (Some p) wr pw self w
             = (Raise (AssertionError (Msg text)), self, w)
          /\ cmd_export "list" rp wr pw self w
             = (Raise (AssertionError (Msg text)), self, w))
    /\ result_of (cmd_export "add" (Some p) wr pw self w)
       = omap ExportAdded (result_of (cmd_export__add p wr pw self w))
    /\ result_of (cmd_export "delete" (Some p) false None self w)
       = omap ExportDeleted (result_of (cmd_export__delete p self w))
    /\ result_of (cmd_export "list" rp false None self w)
       = omap ExportListed (result_of (cmd_export__list rp self w)).
Proof.
  intros self w action p rp wr pw. repeat split.
  - intros Ha Hd Hl. unfold cmd_export.
    apply String.eqb_neq in Ha, Hd, Hl. rewrite Ha, Hd, Hl. reflexivity.
  - intros [-> | Hpw].
    + exists "writeable parameter is not applicable for delete action.".
      repeat split; auto.
    + destruct wr.
      * exists "writeable parameter is not applicable for delete action.".
        repeat split; auto.
      * exists "password parameter is not applicable for delete action.".
        destruct pw; [repeat split; auto | contradiction].
  - apply (result_of_bind_ret (cmd_export__add p wr pw) ExportAdded).
  - apply (result_of_bind_ret (cmd_export__delete p) ExportDeleted).
  - apply (result_of_bind_ret (cmd_export__list rp) ExportListed).
Qed.

Lemma export_dispatches_on_the_action_witness :
  cmd_export "remove" (Some "/a") false None (mkWrapper "mega") (steady "" "" 0)
  = (Raise (ValueError
              (Msg "Invalid action: remove. Must be 'add', 'delete', or 'list'.")),
     mkWrapper "mega", steady "" "" 0).
Proof.
  apply (@export_dispatches_on_the_action (mkWrapper "mega") (steady "" "" 0)
           "remove" "" (Some "/a") false None); discriminate.
Defined.

(** ** [cmd_ls]: when it returns *)

Lemma startswith_d c rest :
  Ascii.eqb c "d" = true <-> startswith (String c rest) "d" = true.
Proof.
  unfold startswith.
  change (prefix "d" (String c rest))
    with (if ascii_dec "d" c then prefix "" rest else false).
  destruct (ascii_dec "d" c) as [<-|Hne].
  - destruct rest; split; reflexivity.
  - split; [|intros H; discriminate H].
    intros H. apply Ascii.eqb_eq in H. congruence.
Qed.

Lemma dash_is_none_no_dash s : dash_is_none s <> Some "-".
Proof.
  unfold dash_is_none. destruct (String.eqb_spec s "-"); [discriminate|].
  intros H. injection H as H. contradiction.
Qed.

Lemma ls_line_entry es l :
  if has_flagsb l then
    exists e, ls_line es l = Ok (es ++ [e])%list /\ ls_entry_ok e
  else ls_line es l = Raise (IndexError (Msg "string index out of range")).
Proof.
  unfold has_flagsb, ls_line, ls_entry_ok.
  destruct (strip (slice 0 4 l)) as [|c fl] eqn:E; cbn [String.eqb negb];
    [reflexivity|].
  replace (String.eqb (String c fl) "") with false by reflexivity.
  cbn [negb first_char obind]. eexists. split; [reflexivity|].
  cbn [flags size date handle name link is_directory].
  split; [reflexivity|]. split; [apply dash_is_none_no_dash|].
  exists (String c fl), (strip (slice 22 41 l)).
  repeat split; try discriminate; apply startswith_d.
Qed.

Lemma ls_loop_flags lines : forall es,
  if forallb has_flagsb lines then
    exists es',
      for_each ls_line es lines = Ok (es ++ es')%list
      /\ List.length es' = List.length lines
      /\ Forall ls_entry_ok es'
  else for_each ls_line es lines
       = Raise (IndexError (Msg "string index out of range")).
Proof.
  induction lines as [|l lines IH]; intros es; cbn [forallb for_each].
  - exists []. rewrite app_nil_r. repeat split. constructor.
  - pose proof (ls_line_entry es l) as Hl.
    destruct (has_flagsb l); cbn [andb].
    + destruct Hl as (e & -> & He). cbn [obind].
      specialize (IH (es ++ [e])%list).
      destruct (forallb has_flagsb lines).
      * destruct IH as (es' & -> & Hlen & Hall).
        exists (e :: es'). rewrite <- app_assoc.
        repeat split; [simpl; rewrite Hlen; reflexivity | constructor; assumption].
      * exact IH.
    + rewrite Hl. reflexivity.
Qed.

(** X19. On exit code 0 [cmd_ls] (in both modules) returns one entry for
    each line after the header exactly when each of these lines has a
    character that is not blank in columns 0-3, and raises [IndexError]
    otherwise ([RuntimeError] is not raised, whatever the output).  In each
    entry returned the flags are not empty, the entry is a directory exactly
    when its flags start with ["d"], the size is never ["-"], and there is
    no link. *)
Theorem ls_returns_entries_or_index_error :
  forall (self : Wrapper) (w : World) (remote_path out err : string),
    (forall args, answers w self args out err 0) ->
    let lines := tl (splitlines (strip (strip out))) in
    let r := result_of (cmd_ls remote_path self w) in
    r = result_of (TopLevel.cmd_ls remote_path self w)
    /\ if forallb has_flagsb lines then
         exists es,
           r = Ok es /\ List.length es = List.length lines
           /\ Forall ls_entry_ok es
       else r = Raise (IndexError (Msg "string index out of range")).
Proof.
  intros self w remote_path out err H lines r. subst r.
  unfold cmd_ls, TopLevel.cmd_ls. rewrite !(bind_run_completed _ (H _)).
  split; [reflexivity|].
  unfold ls_decode. cbn [return_code stdout Z.eqb negb]. fold lines.
  unfold lift, result_of. cbn [fst].
  pose proof (ls_loop_flags lines []) as Hloop.
  destruct (forallb has_flagsb lines); exact Hloop.
Qed.

Lemma ls_returns_entries_or_index_error_witness :
  let out := "FLAGS VERS    SIZE            DATE       HANDLE NAME" ++ nl
             ++ sample_directory_line in
  exists es,
    result_of (cmd_ls "/" (mkWrapper "mega") (steady out "" 0)) = Ok es
    /\ List.length es = 1 /\ Forall ls_entry_ok es.
Proof.
  intros out.
  exact (proj2 (@ls_returns_entries_or_index_error (mkWrapper "mega")
                  (steady out "" 0) "/" out "" (fun _ => eq_refl))).
Defined.

(** ** The two modules *)

Lemma remote_path_fixed p :
  head_kept blank_or_newline p -> startswith p "./" = false ->
  clean_remote_path p false = p.
Proof.
  intros Hhead Hdot. unfold clean_remote_path, lstrip.
  change (fun c => mem c (" " ++ String "010" "")) with blank_or_newline.
  rewrite (lstrip_by_fixed _ _ Hhead), Hdot. reflexivity.
Qed.

Lemma remote_path_fixed_only p :
  clean_remote_path p false = p ->
  head_kept blank_or_newline p /\ startswith p "./" = false.
Proof.
  unfold clean_remote_path, lstrip.
  change (fun c => mem c (" " ++ String "010" "")) with blank_or_newline.
  pose proof (lstrip_by_length blank_or_newline p) as Hlen.
  pose proof (lstrip_by_head blank_or_newline p) as Hhead.
  set (q := lstrip_by blank_or_newline p) in *. clearbody q. cbn [andb].
  destruct (startswith q "./") eqn:E.
  - intros Hq. exfalso.
    assert (Hdrop : (String.length (drop 2 q) < String.length q)%nat).
    { unfold startswith in E. destruct q as [|a [|b q']]; cbn [prefix] in E.
      - discriminate E.
      - destruct (ascii_dec "." a); discriminate E.
      - cbn [drop String.length]. lia. }
    rewrite Hq in Hdrop. lia.
  - intros Hq. subst p. auto.
Qed.

(** X20. [clean_remote_path] leaves a path as it is exactly when the path
    starts with neither a blank, a newline nor ["./"]; for such a path
    [cmd_ls] of the older module, which passes the path as given, and
    [cmd_ls] of [lib] run the same command and return the same. *)
Theorem modules_agree_on_clean_paths :
  forall p : string,
    (clean_remote_path p false = p
     <-> head_kept blank_or_newline p /\ startswith p "./" = false)
    /\ (clean_remote_path p false = p ->
        forall self w, TopLevel.cmd_ls p self w = cmd_ls p self w).
Proof.
  intros p. split.
  - split; [apply remote_path_fixed_only|].
    intros [Hhead Hdot]. apply remote_path_fixed; assumption.
  - intros Hp self w. unfold TopLevel.cmd_ls, cmd_ls. rewrite Hp. reflexivity.
Qed.

Lemma modules_agree_on_clean_paths_witness :
  TopLevel.cmd_ls "/docs" (mkWrapper "mega") (steady "" "" 0)
  = cmd_ls "/docs" (mkWrapper "mega") (steady "" "" 0).
Proof.
  apply (proj2 (@modules_agree_on_clean_paths "/docs")). reflexivity.
Defined.

(** ** When the binary cannot be run *)

(** X21. No operation catches an exception of [subprocess.run]: when the
    binary cannot be run (it is missing, say), every call that is not
    refused at once for its parameters raises that very exception; only the
    constructor replaces it.  A call refused at once raises without a run,
    whether the binary can be run or not. *)
Theorem operations_pass_on_a_failure_to_run :
  forall (op : Op) (self : Wrapper) (w : World) (e : exn),
    refuses w self e ->
    (refused_at_once op = false -> result_of (perform op self w) = Raise e)
    /\ (refused_at_once op = true ->
        exists e', perform op self w = (Raise e', self, w)).
Proof.
  intros op self w e H. split.
  - intros Hop. destruct (operation_runs_first op Hop) as [args Hargs].
    destruct (Hargs self w) as [_ He]. apply He. apply H.
  - intros Hop. exact (operation_refused op self w Hop).
Qed.

Lemma operations_pass_on_a_failure_to_run_witness :
  result_of (perform (call_du (inr ["/"])) (mkWrapper "mega") missing)
  = Raise (FileNotFoundError (Msg "[Errno 2] No such file or directory: 'mega'"))
  /\ exists e',
       perform (call_du (inl "/")) (mkWrapper "mega") missing
       = (Raise e', mkWrapper "mega", missing).
Proof.
  destruct (@operations_pass_on_a_failure_to_run (call_du (inr ["/"]))
              (mkWrapper "mega") missing
              (FileNotFoundError (Msg "[Errno 2] No such file or directory: 'mega'"))
              (fun _ => eq_refl)) as [Hrun _].
  destruct (@operations_pass_on_a_failure_to_run (call_du (inl "/"))
              (mkWrapper "mega") missing
              (FileNotFoundError (Msg "[Errno 2] No such file or directory: 'mega'"))
              (fun _ => eq_refl)) as [_ Hrefused].
  split; [apply Hrun | apply Hrefused]; reflexivity.
Defined.
